(** * Seat-analysis calculators: a shallow embedding and its properties

    The calculators of the repository (weighted-contract synthesis, seat
    aggregation, long/short indicators, profit and loss, distribution
    breakdowns and the screening engine) are embedded as Rocq functions and
    their documented behaviour is proved about the embedding.

    Number model.  Position volumes, which are contract counts, are
    integers ([Z]) and their sums are exact.  Every other [number] is a
    binary64 floating-point number, held as the rational it denotes ([Q]);
    each arithmetic operation on such numbers is the exact operation
    followed by rounding to the nearest binary64 number, ties to the even
    significand ([Js.b64], with [Js.fadd], [Js.fsub], [Js.fmul] and
    [Js.fdiv]); comparisons and [Math.round], which is [floor (x + 1/2)],
    are exact.  The exponent range is not bounded: overflow, subnormal
    numbers, [NaN], the infinities and the sign of zero are outside the
    model, as the prices, ratios and amounts of the calculators are far
    from the limits and no division by zero is reached.

    Control.  The calculators are pure; their [try]/[catch] wrappers are not
    modelled where no step inside can throw.  The asynchronous queries of
    the screening engine are functions of a [DataService] record whose
    results are options, [None] being a rejected promise. *)

From Stdlib Require Import ZArith QArith Qround Qabs Qfield Qpower Qreduction Lqa
  List String Ascii Bool Lia Permutation Sorted OrdersEx.
Import ListNotations.
Local Open Scope Z_scope.

(** * Part I: the embedding *)

(** ** JavaScript primitives used by the calculators *)

Module Js.

Section SortDef.
Context {A : Type}.
Variable cmp : A -> A -> Z.

(** [insert x l] places [x] in front of the first element it does not
    have to follow; an element that compares equal stays behind [x]. *)
Fixpoint insert (x : A) (l : list A) : list A :=
  match l with
  | [] => [x]
  | y :: t => if cmp x y <=? 0 then x :: y :: t else y :: insert x t
  end.

(** [Array.prototype.sort(cmp)]: a stable sort (ECMAScript 2019), here by
    insertion from the right, so that an earlier element stays in front of
    the later ones it compares equal to. *)
Definition sort (l : list A) : list A := fold_right insert [] l.

(** [before x y]: the comparator does not ask for [x] to follow [y]. *)
Definition before (x y : A) : Prop := cmp x y <= 0.

End SortDef.

(** [arr.slice(0, n)] and [arr.slice(n)]. *)
Definition slice0 {A} (n : nat) (l : list A) : list A := firstn n l.

Definition sliceFrom {A} (n : nat) (l : list A) : list A := skipn n l.

(** [arr.slice(-n)]: the last [n] elements. *)
Definition sliceLast {A} (n : nat) (l : list A) : list A :=
  skipn (List.length l - n) l.

(** [Math.round]: the nearest integer, halves towards plus infinity.  It
    is exact on every number. *)
Definition round (x : Q) : Z := Qfloor (x + (1 # 2))%Q.

(** The nearest integer, halves to the even one. *)
Definition roundHalfEven (q : Q) : Z :=
  let f := Qfloor q in
  match Qcompare (q - inject_Z f) (1 # 2) with
  | Lt => f
  | Gt => f + 1
  | Eq => if Z.even f then f else f + 1
  end.

(** The binade of a positive number: the [e] with [2^e <= x < 2^(e+1)]. *)
Definition binade (x : Q) : Z :=
  let e0 := Z.log2 (Qnum x) - Z.log2 (Zpos (Qden x)) in
  if Qle_bool (2 ^ e0) x then e0 else e0 - 1.

(** The nearest number with a significand of 53 bits, for a positive
    number: the multiple of [2^(e-52)] nearest to it, [e] being its binade. *)
Definition nearest53 (x : Q) : Q :=
  let ulp := (2 ^ (binade x - 52))%Q in
  (inject_Z (roundHalfEven (x / ulp)) * ulp)%Q.

(** The binary64 number nearest to a real number, halves to the even
    significand: the rounding of every arithmetic operation on a [number]. *)
Definition b64 (x : Q) : Q :=
  let x := Qred x in
  match Qcompare x 0 with
  | Eq => 0%Q
  | Gt => Qred (nearest53 x)
  | Lt => Qred (- nearest53 (- x))
  end.

(** [x + y], [x - y], [x * y] and [x / y] on numbers. *)
Definition fadd (x y : Q) : Q := b64 (x + y).

Definition fsub (x y : Q) : Q := b64 (x - y).

Definition fmul (x y : Q) : Q := b64 (x * y).

Definition fdiv (x y : Q) : Q := b64 (x / y).

(** [x > y] and [x === y] on rationals. *)
Definition gtQ (x y : Q) : bool := negb (Qle_bool x y).

Definition eqQ (x y : Q) : bool := Qeq_bool x y.

(** [x || d] on numbers: [0] is the only falsy rational. *)
Definition orElseQ (x d : Q) : Q := if Qeq_bool x 0 then d else x.

Definition orElseZ (x d : Z) : Z := if x =? 0 then d else x.

(** [s.startsWith(p)]. *)
Definition startsWith (s p : string) : bool := String.prefix p s.

(** [a.localeCompare(b)] on date strings of the form YYYY-MM-DD, where the
    collation order is the order of the characters. *)
Definition localeCompare (a b : string) : Z :=
  match String.compare a b with
  | Lt => -1
  | Eq => 0
  | Gt => 1
  end.

(** [s.includes(t)]. *)
Fixpoint includes (s t : string) : bool :=
  String.prefix t s ||
  match s with
  | EmptyString => false
  | String _ s' => includes s' t
  end.

(** [s.replace(/\d+/g, '')]. *)
Definition isDigit (c : ascii) : bool :=
  let n := nat_of_ascii c in (48 <=? n)%nat && (n <=? 57)%nat.

Fixpoint stripDigits (s : string) : string :=
  match s with
  | EmptyString => EmptyString
  | String c s' => if isDigit c then stripDigits s' else String c (stripDigits s')
  end.

(** Membership in a list of strings. *)
Definition mem (x : string) (l : list string) : bool :=
  existsb (String.eqb x) l.

(** [new Set<string>()] keeps its elements in insertion order;
    [setAdd s x] is [s.add(x)] and [s.has(x)] is [mem x s]. *)
Definition setAdd (s : list string) (x : string) : list string :=
  if mem x s then s else s ++ [x].

(** [new Set(arr)], also [[...new Set(arr)]]. *)
Definition setOf (l : list string) : list string := fold_left setAdd l [].

(** Sum of a list: the closed form of [reduce((sum, x) => sum + f(x), 0)]. *)
Definition sumZ (l : list Z) : Z := fold_right Z.add 0 l.

Definition sumQ (l : list Q) : Q := fold_right Qplus 0%Q l.

(** [Math.max(...l)] and [Math.min(...l)]; [None] stands for the infinite
    value JavaScript returns on an empty argument list. *)
Definition maxZ (l : list Z) : option Z :=
  match l with
  | [] => None
  | x :: t => Some (fold_left Z.max t x)
  end.

Definition minZ (l : list Z) : option Z :=
  match l with
  | [] => None
  | x :: t => Some (fold_left Z.min t x)
  end.

Definition maxQ (l : list Q) : option Q :=
  match l with
  | [] => None
  | x :: t => Some (fold_left (fun m y => if Qle_bool m y then y else m) t x)
  end.

Definition minQ (l : list Q) : option Q :=
  match l with
  | [] => None
  | x :: t => Some (fold_left (fun m y => if Qle_bool y m then y else m) t x)
  end.

(** [arr.slice(-n)] for a count [n]: the last [n] elements, and the whole
    array when [n] is 0, since [-0] is the index 0. *)
Definition sliceFromEnd {A} (n : nat) (l : list A) : list A :=
  if (n =? 0)%nat then l else skipn (List.length l - n) l.

(** The comparison of the default [arr.sort()] on strings: by code units. *)
Definition compareStrings (a b : string) : Z :=
  match String.compare a b with
  | Lt => -1
  | Eq => 0
  | Gt => 1
  end.

(** Truthiness of a string: [''] is the only falsy one. *)
Definition nonEmpty (s : string) : bool :=
  match s with
  | EmptyString => false
  | String _ _ => true
  end.

(** [Math.abs] on rationals. *)
Definition absQ (x : Q) : Q := Qabs x.

End Js.

(** [Map<string, V>]: an association list in insertion order.  [set] on a
    key already present replaces the value where it stands, which is also
    what mutating the stored object through a reference obtained by [get]
    does. *)
Module JsMap.

Definition t (V : Type) : Type := list (string * V).

Definition empty {V} : t V := [].

Fixpoint get {V} (k : string) (m : t V) : option V :=
  match m with
  | [] => None
  | (k', v) :: m' => if String.eqb k k' then Some v else get k m'
  end.

Definition has {V} (k : string) (m : t V) : bool :=
  match get k m with
  | Some _ => true
  | None => false
  end.

Fixpoint set {V} (k : string) (v : V) (m : t V) : t V :=
  match m with
  | [] => [(k, v)]
  | (k', v') :: m' =>
      if String.eqb k k' then (k, v) :: m' else (k', v') :: set k v m'
  end.

Definition keys {V} (m : t V) : list string := map fst m.

Definition values {V} (m : t V) : list V := map snd m.

End JsMap.

(** ** Data model (types/index.ts) *)

Module 行情数据.
Record t : Type := mk {
  trade_date : string;
  contract_id : string;
  secShortName : string;
  prev_close : Q;
  prev_settle : Q;
  open : Q;
  high : Q;
  low : Q;
  close : Q;
  settle : Q;
  volume : Q;
  turnover : Q;
  open_interest : Q;
  is_main : bool;
  is_continuous : bool;
  contract_unit : Q
}.
End 行情数据.

Module 加权合约数据.
Record t : Type := mk {
  trade_date : string;
  commodity_id : string;
  commodity_name : string;
  open : Q;
  high : Q;
  low : Q;
  close : Q;
  settle : Q;
  volume : Q;
  open_interest : Q
}.
End 加权合约数据.

Module 席位持仓原始数据.
Record t : Type := mk {
  id : Z;
  trade_date : string;
  contract_id : string;
  secShortName : string;
  seat_name : string;
  long_vol : Z;
  short_vol : Z;
  long_chg : Z;
  short_chg : Z
}.
End 席位持仓原始数据.

Module 席位分析数据.
Record t : Type := mk {
  trade_date : string;
  commodity_id : string;
  commodity_name : string;
  seat_name : string;
  long_vol : Z;
  short_vol : Z;
  long_chg : Z;
  short_chg : Z;
  net_vol : Z;
  net_chg : Z
}.
End 席位分析数据.

Module 实多空指标数据.
Record t : Type := mk {
  trade_date : string;
  real_long_10 : Z;
  real_long_20 : Z;
  real_long_all : Z;
  real_short_10 : Z;
  real_short_20 : Z;
  real_short_all : Z;
  real_diff_10 : Z;
  real_diff_20 : Z;
  real_diff_all : Z
}.
End 实多空指标数据.

Module 净多空指标数据.
Record t : Type := mk {
  trade_date : string;
  net_long_10 : Z;
  net_long_20 : Z;
  net_long_all : Z;
  net_short_10 : Z;
  net_short_20 : Z;
  net_short_all : Z;
  net_diff_10 : Z;
  net_diff_20 : Z;
  net_diff_all : Z
}.
End 净多空指标数据.

Module 流多空指标数据.
Record t : Type := mk {
  trade_date : string;
  add_long_10 : Z;
  add_long_20 : Z;
  add_long_all : Z;
  add_short_10 : Z;
  add_short_20 : Z;
  add_short_all : Z;
  reduce_long_10 : Z;
  reduce_long_20 : Z;
  reduce_long_all : Z;
  reduce_short_10 : Z;
  reduce_short_20 : Z;
  reduce_short_all : Z
}.
End 流多空指标数据.

Module 席位数据表项.
Record t : Type := mk {
  seat_name : string;
  profit_15 : Z;
  profit_60 : Z;
  profit_120 : Z;
  trend_05 : Z;
  trend_15 : Z;
  trend_30 : Z
}.
End 席位数据表项.

(** One slice of a pie chart: [{ name, value, ratio }]. *)
Module 饼图项.
Record t : Type := mk {
  name : string;
  value : Z;
  ratio : Q
}.
End 饼图项.

Module 多空分布.
Record t : Type := mk {
  net_long : Z;
  net_short : Z;
  long_ratio : Q;
  short_ratio : Q
}.
End 多空分布.

Module 饼图数据.
Record t : Type := mk {
  持仓分布 : list 饼图项.t;
  持仓变化 : list 饼图项.t;
  多空分布 : 多空分布.t
}.
End 饼图数据.

Inductive 筛选条件类型 : Type :=
  | price_condition
  | real_compare
  | net_compare
  | real_extreme
  | real_diff_extreme
  | net_extreme
  | net_diff_extreme.

Module 筛选结果.
Record t : Type := mk {
  commodity_id : string;
  commodity_name : string;
  match_conditions : list 筛选条件类型;
  score : Z
}.
End 筛选结果.

(** A point of a seat curve: [{ trade_date, net_position }]. *)
Module 席位曲线点.
Record t : Type := mk {
  trade_date : string;
  net_position : Z
}.
End 席位曲线点.

Module 席位曲线数据.
Record t : Type := mk {
  seat_name : string;
  data : list 席位曲线点.t
}.
End 席位曲线数据.

Module 持仓数据表项.
Record t : Type := mk {
  seat_name : string;
  long_vol : Z;
  long_chg : Z;
  short_vol : Z;
  short_chg : Z;
  net_vol : Z;
  net_chg : Z;
  position_ratio : Q
}.
End 持仓数据表项.

(** ** DataCalculator: weighted contracts and seat summaries *)

Module DataCalculator.

(** The filter of [calculateWeightedContract]: same trading date, contract
    code starting with the commodity code, open interest truthy and
    positive. *)
Definition qualifies (commodityId tradeDate : string) (item : 行情数据.t) : bool :=
  String.eqb (行情数据.trade_date item) tradeDate
  && Js.startsWith (行情数据.contract_id item) commodityId
  && negb (Qeq_bool (行情数据.open_interest item) 0)
  && Js.gtQ (行情数据.open_interest item) 0.

(** The accumulator of the weighted-price [reduce]. *)
Record Prices : Type := mkPrices {
  p_open : Q;
  p_high : Q;
  p_low : Q;
  p_close : Q;
  p_settle : Q
}.

Definition addWeighted (totalOpenInterest : Q) (acc : Prices) (item : 行情数据.t) : Prices :=
  let weight := Js.fdiv (Js.orElseQ (行情数据.open_interest item) 0) totalOpenInterest in
  {| p_open := Js.fadd (p_open acc) (Js.fmul (Js.orElseQ (行情数据.open item) 0) weight);
     p_high := Js.fadd (p_high acc) (Js.fmul (Js.orElseQ (行情数据.high item) 0) weight);
     p_low := Js.fadd (p_low acc) (Js.fmul (Js.orElseQ (行情数据.low item) 0) weight);
     p_close := Js.fadd (p_close acc) (Js.fmul (Js.orElseQ (行情数据.close item) 0) weight);
     p_settle :=
       Js.fadd (p_settle acc) (Js.fmul (Js.orElseQ (行情数据.settle item) 0) weight) |}.

(** [Math.round(x * 100) / 100]. *)
Definition round2 (x : Q) : Q := Js.fdiv (inject_Z (Js.round (Js.fmul x 100))) 100.

(** [calculateWeightedContract]; [None] is the [null] result. *)
Definition calculateWeightedContract
    (marketData : list 行情数据.t) (commodityId tradeDate : string)
    : option 加权合约数据.t :=
  let commodityContracts := filter (qualifies commodityId tradeDate) marketData in
  match commodityContracts with
  | [] => None
  | first :: _ =>
      let totalOpenInterest :=
        fold_left (fun sum item => Js.fadd sum (Js.orElseQ (行情数据.open_interest item) 0))
          commodityContracts 0%Q in
      let totalVolume :=
        fold_left (fun sum item => Js.fadd sum (Js.orElseQ (行情数据.volume item) 0))
          commodityContracts 0%Q in
      if Qeq_bool totalOpenInterest 0 then None
      else
        let weightedPrices :=
          fold_left (addWeighted totalOpenInterest) commodityContracts
            (mkPrices 0 0 0 0 0) in
        let commodityName := Js.stripDigits (行情数据.secShortName first) in
        Some {| 加权合约数据.trade_date := tradeDate;
                加权合约数据.commodity_id := commodityId;
                加权合约数据.commodity_name := commodityName;
                加权合约数据.open := round2 (p_open weightedPrices);
                加权合约数据.high := round2 (p_high weightedPrices);
                加权合约数据.low := round2 (p_low weightedPrices);
                加权合约数据.close := round2 (p_close weightedPrices);
                加权合约数据.settle := round2 (p_settle weightedPrices);
                加权合约数据.volume := totalVolume;
                加权合约数据.open_interest := totalOpenInterest |}
  end.

(** The filter of [calculateSeatAnalysis]. *)
Definition holdingMatches (commodityId tradeDate : string)
    (item : 席位持仓原始数据.t) : bool :=
  String.eqb (席位持仓原始数据.trade_date item) tradeDate
  && Js.startsWith (席位持仓原始数据.contract_id item) commodityId.

(** One step of the [forEach] that fills [seatMap]: a seat already in the
    map has the holding added to its record, a new seat gets a record with
    [net_vol] and [net_chg] still at 0. *)
Definition accumulate (commodityId tradeDate : string)
    (seatMap : JsMap.t 席位分析数据.t) (item : 席位持仓原始数据.t)
    : JsMap.t 席位分析数据.t :=
  let seat := 席位持仓原始数据.seat_name item in
  match JsMap.get seat seatMap with
  | Some existing =>
      JsMap.set seat
        {| 席位分析数据.trade_date := 席位分析数据.trade_date existing;
           席位分析数据.commodity_id := 席位分析数据.commodity_id existing;
           席位分析数据.commodity_name := 席位分析数据.commodity_name existing;
           席位分析数据.seat_name := 席位分析数据.seat_name existing;
           席位分析数据.long_vol :=
             席位分析数据.long_vol existing + 席位持仓原始数据.long_vol item;
           席位分析数据.short_vol :=
             席位分析数据.short_vol existing + 席位持仓原始数据.short_vol item;
           席位分析数据.long_chg :=
             席位分析数据.long_chg existing + 席位持仓原始数据.long_chg item;
           席位分析数据.short_chg :=
             席位分析数据.short_chg existing + 席位持仓原始数据.short_chg item;
           席位分析数据.net_vol := 席位分析数据.net_vol existing;
           席位分析数据.net_chg := 席位分析数据.net_chg existing |}
        seatMap
  | None =>
      JsMap.set seat
        {| 席位分析数据.trade_date := tradeDate;
           席位分析数据.commodity_id := commodityId;
           席位分析数据.commodity_name :=
             Js.stripDigits (席位持仓原始数据.secShortName item);
           席位分析数据.seat_name := seat;
           席位分析数据.long_vol := 席位持仓原始数据.long_vol item;
           席位分析数据.short_vol := 席位持仓原始数据.short_vol item;
           席位分析数据.long_chg := 席位持仓原始数据.long_chg item;
           席位分析数据.short_chg := 席位持仓原始数据.short_chg item;
           席位分析数据.net_vol := 0;
           席位分析数据.net_chg := 0 |}
        seatMap
  end.

(** [{ ...item, net_vol: long_vol - short_vol, net_chg: long_chg - short_chg }]. *)
Definition withNet (item : 席位分析数据.t) : 席位分析数据.t :=
  {| 席位分析数据.trade_date := 席位分析数据.trade_date item;
     席位分析数据.commodity_id := 席位分析数据.commodity_id item;
     席位分析数据.commodity_name := 席位分析数据.commodity_name item;
     席位分析数据.seat_name := 席位分析数据.seat_name item;
     席位分析数据.long_vol := 席位分析数据.long_vol item;
     席位分析数据.short_vol := 席位分析数据.short_vol item;
     席位分析数据.long_chg := 席位分析数据.long_chg item;
     席位分析数据.short_chg := 席位分析数据.short_chg item;
     席位分析数据.net_vol := 席位分析数据.long_vol item - 席位分析数据.short_vol item;
     席位分析数据.net_chg := 席位分析数据.long_chg item - 席位分析数据.short_chg item |}.

(** The comparator [(a, b) => Math.abs(b.net_vol) - Math.abs(a.net_vol)]. *)
Definition byAbsNetVol (a b : 席位分析数据.t) : Z :=
  Z.abs (席位分析数据.net_vol b) - Z.abs (席位分析数据.net_vol a).

Definition calculateSeatAnalysis
    (holdingData : list 席位持仓原始数据.t) (commodityId tradeDate : string)
    : list 席位分析数据.t :=
  let commodityHoldings := filter (holdingMatches commodityId tradeDate) holdingData in
  if (List.length commodityHoldings =? 0)%nat then []
  else
    let seatMap :=
      fold_left (accumulate commodityId tradeDate) commodityHoldings JsMap.empty in
    let seatAnalysisData := map withNet (JsMap.values seatMap) in
    Js.sort byAbsNetVol seatAnalysisData.

(** The loop that collects the commodity codes of a list of contract codes:
    [const commodityId = contractId.replace(/\d+/g, '');
     if (commodityId) commodityIds.add(commodityId)]. *)
Definition addCommodityId (commodityIds : list string) (contractId : string)
    : list string :=
  let commodityId := Js.stripDigits contractId in
  if Js.nonEmpty commodityId then Js.setAdd commodityIds commodityId
  else commodityIds.

Definition batchCalculateWeightedContracts
    (marketData : list 行情数据.t) (tradeDate : string) : list 加权合约数据.t :=
  let commodityIds :=
    fold_left addCommodityId
      (map 行情数据.contract_id
         (filter (fun item => String.eqb (行情数据.trade_date item) tradeDate) marketData))
      [] in
  fold_left
    (fun results commodityId =>
       match calculateWeightedContract marketData commodityId tradeDate with
       | Some weightedContract => results ++ [weightedContract]
       | None => results
       end)
    commodityIds [].

Definition batchCalculateSeatAnalysis
    (holdingData : list 席位持仓原始数据.t) (tradeDate : string) : list 席位分析数据.t :=
  let commodityIds :=
    fold_left addCommodityId
      (map 席位持仓原始数据.contract_id
         (filter (fun item => String.eqb (席位持仓原始数据.trade_date item) tradeDate)
            holdingData))
      [] in
  fold_left
    (fun results commodityId =>
       results ++ calculateSeatAnalysis holdingData commodityId tradeDate)
    commodityIds [].

(** [extractCommodityIds]: the distinct commodity codes, sorted. *)
Definition extractCommodityIds (contractIds : list string) : list string :=
  Js.sort Js.compareStrings (fold_left addCommodityId contractIds []).

(** [calculatePositionRatio]. *)
Definition calculatePositionRatio (seatNetVol totalNetVol : Q) : Q :=
  if Qeq_bool totalNetVol 0 then 0%Q
  else
    Js.fdiv
      (inject_Z
         (Js.round (Js.fmul (Js.fdiv (Js.absQ seatNetVol) (Js.absQ totalNetVol)) 10000)))
      100.

(** [calculateChangePercent]. *)
Definition calculateChangePercent (current previous : Q) : Q :=
  if Qeq_bool previous 0 then 0%Q
  else
    Js.fdiv
      (inject_Z (Js.round (Js.fmul (Js.fdiv (Js.fsub current previous) previous) 10000)))
      100.

End DataCalculator.

(** ** IndicatorCalculator (calculationService.ts) *)

Module IndicatorCalculator.

(** The breadth argument [n: number | 'all'] of [calculateForTopN]. *)
Inductive Breadth : Type :=
  | Top (n : nat)
  | All.

Definition selectTop {A} (n : Breadth) (sorted : list A) : list A :=
  match n with
  | All => sorted
  | Top k => Js.slice0 k sorted
  end.

(** The grouping loop shared by the three indicators:
    [if (!dateGroups.has(d)) dateGroups.set(d, []); dateGroups.get(d)!.push(item)]. *)
Definition pushByDate (dateGroups : JsMap.t (list 席位分析数据.t))
    (item : 席位分析数据.t) : JsMap.t (list 席位分析数据.t) :=
  let d := 席位分析数据.trade_date item in
  let dateGroups :=
    if JsMap.has d dateGroups then dateGroups else JsMap.set d [] dateGroups in
  match JsMap.get d dateGroups with
  | Some dayData => JsMap.set d (dayData ++ [item]) dateGroups
  | None => dateGroups
  end.

Definition groupByDate (seatData : list 席位分析数据.t)
    : JsMap.t (list 席位分析数据.t) :=
  fold_left pushByDate seatData JsMap.empty.

Inductive VolumeType : Type :=
  | long
  | short.

(** An entry of [combinedVolumes]. *)
Record PoolEntry : Type := mkEntry {
  seat_name : string;
  volume : Z;
  type : VolumeType;
  net_vol : Z
}.

(** The two entries a seat pushes onto [combinedVolumes]. *)
Definition entriesOf (seat : 席位分析数据.t) : list PoolEntry :=
  [ {| seat_name := 席位分析数据.seat_name seat;
       volume := 席位分析数据.long_vol seat;
       type := long;
       net_vol := 席位分析数据.net_vol seat |};
    {| seat_name := 席位分析数据.seat_name seat;
       volume := 席位分析数据.short_vol seat;
       type := short;
       net_vol := 席位分析数据.net_vol seat |} ].

(** [(a, b) => b.volume - a.volume]. *)
Definition byVolume (a b : PoolEntry) : Z := volume b - volume a.

Definition combinedVolumes (dayData : list 席位分析数据.t) : list PoolEntry :=
  Js.sort byVolume (flat_map entriesOf dayData).

Record RealResult : Type := mkReal {
  realLong : Z;
  realShort : Z;
  realDiff : Z
}.

(** [involvedSeats]: the set of seat names of the selected entries. *)
Definition involvedSeats (selectedItems : list PoolEntry) : list string :=
  fold_left (fun s item => Js.setAdd s (seat_name item)) selectedItems [].

(** [seatNetPositions]: the map from the involved seats to their net
    position, filled by a pass over the day's rows. *)
Definition seatNetPositions (involved : list string)
    (dayData : list 席位分析数据.t) : JsMap.t Z :=
  fold_left
    (fun m seat =>
       if Js.mem (席位分析数据.seat_name seat) involved
       then JsMap.set (席位分析数据.seat_name seat) (席位分析数据.net_vol seat) m
       else m)
    dayData JsMap.empty.

(** The loop over [seatNetPositions], on the pair (realLong, realShort). *)
Definition accumulateReal (acc : Z * Z) (entry : string * Z) : Z * Z :=
  let netVol := snd entry in
  if 0 <? netVol then (fst acc + netVol, snd acc)
  else if netVol <? 0 then (fst acc, snd acc + Z.abs netVol)
  else acc.

Definition realForTopN (dayData : list 席位分析数据.t)
    (pool : list PoolEntry) (n : Breadth) : RealResult :=
  let selectedItems := selectTop n pool in
  let involved := involvedSeats selectedItems in
  let positions := seatNetPositions involved dayData in
  let sums := fold_left accumulateReal positions (0, 0) in
  {| realLong := fst sums;
     realShort := snd sums;
     realDiff := fst sums - snd sums |}.

Definition realOfDay (group : string * list 席位分析数据.t) : 实多空指标数据.t :=
  let tradeDate := fst group in
  let dayData := snd group in
  let pool := combinedVolumes dayData in
  let result10 := realForTopN dayData pool (Top 10) in
  let result20 := realForTopN dayData pool (Top 20) in
  let resultAll := realForTopN dayData pool All in
  {| 实多空指标数据.trade_date := tradeDate;
     实多空指标数据.real_long_10 := realLong result10;
     实多空指标数据.real_long_20 := realLong result20;
     实多空指标数据.real_long_all := realLong resultAll;
     实多空指标数据.real_short_10 := realShort result10;
     实多空指标数据.real_short_20 := realShort result20;
     实多空指标数据.real_short_all := realShort resultAll;
     实多空指标数据.real_diff_10 := realDiff result10;
     实多空指标数据.real_diff_20 := realDiff result20;
     实多空指标数据.real_diff_all := realDiff resultAll |}.

Definition calculateRealLongShort (seatData : list 席位分析数据.t)
    : list 实多空指标数据.t :=
  let results := map realOfDay (groupByDate seatData) in
  Js.sort
    (fun a b =>
       Js.localeCompare (实多空指标数据.trade_date a) (实多空指标数据.trade_date b))
    results.

(** [(a, b) => Math.abs(b.net_vol) - Math.abs(a.net_vol)]. *)
Definition byAbsNetVol (a b : 席位分析数据.t) : Z :=
  Z.abs (席位分析数据.net_vol b) - Z.abs (席位分析数据.net_vol a).

(** [(a, b) => Math.abs(b.net_chg) - Math.abs(a.net_chg)]. *)
Definition byAbsNetChg (a b : 席位分析数据.t) : Z :=
  Z.abs (席位分析数据.net_chg b) - Z.abs (席位分析数据.net_chg a).

(** [l.filter(p).reduce((sum, seat) => sum + seat.net_vol, 0)]. *)
Definition sumNetVol (p : 席位分析数据.t -> bool) (l : list 席位分析数据.t) : Z :=
  fold_left (fun sum seat => sum + 席位分析数据.net_vol seat) (filter p l) 0.

Record FlowResult : Type := mkFlow {
  addLong : Z;
  addShort : Z;
  reduceLong : Z;
  reduceShort : Z
}.

Definition flowForTopN (sortedSeats : list 席位分析数据.t) (n : Breadth)
    : FlowResult :=
  let selectedSeats := selectTop n sortedSeats in
  {| addLong :=
       sumNetVol
         (fun seat => (0 <? 席位分析数据.net_vol seat) && (0 <? 席位分析数据.net_chg seat))
         selectedSeats;
     addShort :=
       Z.abs (sumNetVol
         (fun seat => (席位分析数据.net_vol seat <? 0) && (席位分析数据.net_chg seat <? 0))
         selectedSeats);
     reduceLong :=
       - sumNetVol
         (fun seat => (0 <? 席位分析数据.net_vol seat) && (席位分析数据.net_chg seat <? 0))
         selectedSeats;
     reduceShort :=
       sumNetVol
         (fun seat => (席位分析数据.net_vol seat <? 0) && (0 <? 席位分析数据.net_chg seat))
         selectedSeats |}.

Definition flowOfDay (group : string * list 席位分析数据.t) : 流多空指标数据.t :=
  let tradeDate := fst group in
  let dayData := snd group in
  let sortedSeats := Js.sort byAbsNetVol dayData in
  let result10 := flowForTopN sortedSeats (Top 10) in
  let result20 := flowForTopN sortedSeats (Top 20) in
  let resultAll := flowForTopN sortedSeats All in
  {| 流多空指标数据.trade_date := tradeDate;
     流多空指标数据.add_long_10 := addLong result10;
     流多空指标数据.add_long_20 := addLong result20;
     流多空指标数据.add_long_all := addLong resultAll;
     流多空指标数据.add_short_10 := addShort result10;
     流多空指标数据.add_short_20 := addShort result20;
     流多空指标数据.add_short_all := addShort resultAll;
     流多空指标数据.reduce_long_10 := reduceLong result10;
     流多空指标数据.reduce_long_20 := reduceLong result20;
     流多空指标数据.reduce_long_all := reduceLong resultAll;
     流多空指标数据.reduce_short_10 := reduceShort result10;
     流多空指标数据.reduce_short_20 := reduceShort result20;
     流多空指标数据.reduce_short_all := reduceShort resultAll |}.

Definition calculateFlowLongShort (seatData : list 席位分析数据.t)
    : list 流多空指标数据.t :=
  let results := map flowOfDay (groupByDate seatData) in
  Js.sort
    (fun a b =>
       Js.localeCompare (流多空指标数据.trade_date a) (流多空指标数据.trade_date b))
    results.


(** [period: 5 | 15 | 30] and [period: 15 | 60 | 120]. *)
Inductive TrendPeriod : Type :=
  | T5
  | T15
  | T30.

Definition trendDays (p : TrendPeriod) : nat :=
  match p with
  | T5 => 5
  | T15 => 15
  | T30 => 30
  end.

Inductive ProfitPeriod : Type :=
  | P15
  | P60
  | P120.

Definition profitDays (p : ProfitPeriod) : nat :=
  match p with
  | P15 => 15
  | P60 => 60
  | P120 => 120
  end.

(** [calculateTrendIndicator]; [periodData] is [slice(-period - 1, -1)], the
    [period] observations before the last one.  It is never empty here, so
    the infinite values of [Math.min()] and [Math.max()] do not arise. *)
Definition calculateTrendIndicator (netPositions : list Z) (period : TrendPeriod) : Z :=
  let n := trendDays period in
  if (List.length netPositions <? n + 1)%nat then 0
  else
    let currentPosition := last netPositions 0 in
    let periodData := removelast (Js.sliceLast (n + 1) netPositions) in
    match Js.minZ periodData, Js.maxZ periodData with
    | Some minValue, Some maxValue =>
        Z.max (Z.abs (currentPosition - minValue)) (Z.abs (currentPosition - maxValue))
    | _, _ => 0
    end.

(** An element of the [positions] argument of [calculateProfitLoss]. *)
Record Position : Type := mkPosition {
  date : string;
  netVol : Z;
  settlePrice : Q
}.

(** The body of the loop of [calculateProfitLoss] at index [i]; both
    [positions[i]] and [positions[i - 1]] exist for every index the loop
    visits. *)
Definition addDailyProfit (positions : list Position) (contractUnit : Q)
    (totalProfit : Q) (i : nat) : Q :=
  match nth_error positions i, nth_error positions (i - 1) with
  | Some today, Some yesterday =>
      let dailyProfit :=
        Js.fmul
          (Js.fsub (Js.fmul (inject_Z (netVol today)) (settlePrice today))
             (Js.fmul (inject_Z (netVol yesterday)) (settlePrice yesterday)))
          contractUnit in
      Js.fadd totalProfit dailyProfit
  | _, _ => totalProfit
  end.

Definition calculateProfitLoss (positions : list Position) (contractUnit : Q)
    (period : ProfitPeriod) : Z :=
  if (List.length positions <? 2)%nat then 0
  else
    let endIndex := (List.length positions - 1)%nat in
    let startIndex :=
      Z.to_nat (Z.max 0 (Z.of_nat endIndex - Z.of_nat (profitDays period) + 1)) in
    (* for (let i = startIndex + 1; i <= endIndex; i++) *)
    let totalProfit :=
      fold_left (addDailyProfit positions contractUnit)
        (seq (startIndex + 1) (endIndex - startIndex)) 0%Q in
    Js.round totalProfit.

(** An element of the [priceData] argument of [convertToSeatTableData]. *)
Record PriceInfo : Type := mkPrice {
  price_date : string;
  price_settle : Q
}.

(** A seat's rows in date order. *)
Definition seatHistoryOf (seatData : list 席位分析数据.t) (seatName : string)
    : list 席位分析数据.t :=
  Js.sort
    (fun a b =>
       Js.localeCompare (席位分析数据.trade_date a) (席位分析数据.trade_date b))
    (filter (fun item => String.eqb (席位分析数据.seat_name item) seatName) seatData).

(** [positionPriceData]: each row of the history joined with the settlement
    price of its date ([priceInfo?.settlePrice || 0]), then only the rows
    whose price is positive. *)
Definition positionPriceData (seatHistory : list 席位分析数据.t)
    (priceData : list PriceInfo) : list Position :=
  filter (fun item => Js.gtQ (settlePrice item) 0)
    (map
       (fun item =>
          let priceInfo :=
            find (fun p => String.eqb (price_date p) (席位分析数据.trade_date item))
              priceData in
          {| date := 席位分析数据.trade_date item;
             netVol := 席位分析数据.net_vol item;
             settlePrice :=
               match priceInfo with
               | Some p => Js.orElseQ (price_settle p) 0
               | None => 0%Q
               end |})
       seatHistory).

Definition convertToSeatTableData (seatData : list 席位分析数据.t)
    (priceData : list PriceInfo) (contractUnit : Q) (tradeDate : string)
    : list 席位数据表项.t :=
  let dayData :=
    filter (fun item => String.eqb (席位分析数据.trade_date item) tradeDate) seatData in
  map
    (fun seat =>
       let seatHistory := seatHistoryOf seatData (席位分析数据.seat_name seat) in
       let netPositions := map 席位分析数据.net_vol seatHistory in
       let positions := positionPriceData seatHistory priceData in
       {| 席位数据表项.seat_name := 席位分析数据.seat_name seat;
          席位数据表项.profit_15 := calculateProfitLoss positions contractUnit P15;
          席位数据表项.profit_60 := calculateProfitLoss positions contractUnit P60;
          席位数据表项.profit_120 := calculateProfitLoss positions contractUnit P120;
          席位数据表项.trend_05 := calculateTrendIndicator netPositions T5;
          席位数据表项.trend_15 := calculateTrendIndicator netPositions T15;
          席位数据表项.trend_30 := calculateTrendIndicator netPositions T30 |})
    dayData.

(** The name of the consolidation bucket. *)
Definition 其他 : string := "其他".

Definition sliceOf (name : string) (value : Z) : 饼图项.t :=
  {| 饼图项.name := name; 饼图项.value := value; 饼图项.ratio := 0%Q |}.

(** [items.forEach(item => item.ratio = total > 0 ? item.value / total * 100 : 0)]
    with [total] the sum of the values. *)
Definition withRatios (items : list 饼图项.t) : list 饼图项.t :=
  let total := fold_left (fun sum item => sum + 饼图项.value item) items 0 in
  map
    (fun item =>
       {| 饼图项.name := 饼图项.name item;
          饼图项.value := 饼图项.value item;
          饼图项.ratio :=
            if 0 <? total
            then Js.fmul (Js.fdiv (inject_Z (饼图项.value item)) (inject_Z total)) 100
            else 0%Q |})
    items.

(** The position distribution before the ratios are set: the ten largest
    seats by absolute net position, then the bucket of the others when
    there are others and their total is positive. *)
Definition positionSlices (dayData : list 席位分析数据.t) : list 饼图项.t :=
  let sortedByNetVol := Js.sort byAbsNetVol dayData in
  let top10Seats := Js.slice0 10 sortedByNetVol in
  let otherSeats := Js.sliceFrom 10 sortedByNetVol in
  let items :=
    map (fun seat =>
           sliceOf (席位分析数据.seat_name seat) (Z.abs (席位分析数据.net_vol seat)))
      top10Seats in
  if (0 <? List.length otherSeats)%nat then
    let otherTotal :=
      fold_left (fun sum seat => sum + Z.abs (席位分析数据.net_vol seat)) otherSeats 0 in
    if 0 <? otherTotal then items ++ [sliceOf 其他 otherTotal] else items
  else items.

(** The change distribution before the ratios are set. *)
Definition changeSlices (dayData : list 席位分析数据.t) : list 饼图项.t :=
  let sortedByNetChg := Js.sort byAbsNetChg dayData in
  map (fun seat =>
         sliceOf (席位分析数据.seat_name seat) (Z.abs (席位分析数据.net_chg seat)))
    (Js.slice0 10
       (filter (fun seat => negb (席位分析数据.net_chg seat =? 0)) sortedByNetChg)).

Definition atLeastOnePercent (item : 饼图项.t) : bool :=
  Qle_bool 1 (饼图项.ratio item).

Definition generatePieChartData (seatData : list 席位分析数据.t) (tradeDate : string)
    : 饼图数据.t :=
  let dayData :=
    filter (fun item => String.eqb (席位分析数据.trade_date item) tradeDate) seatData in
  let 持仓分布 := withRatios (positionSlices dayData) in
  let 持仓变化 := withRatios (changeSlices dayData) in
  let netLong := sumNetVol (fun seat => 0 <? 席位分析数据.net_vol seat) dayData in
  let netShort :=
    Z.abs (sumNetVol (fun seat => 席位分析数据.net_vol seat <? 0) dayData) in
  let totalNet := netLong + netShort in
  {| 饼图数据.持仓分布 := filter atLeastOnePercent 持仓分布;
     饼图数据.持仓变化 := filter atLeastOnePercent 持仓变化;
     饼图数据.多空分布 :=
       {| 多空分布.net_long := netLong;
          多空分布.net_short := netShort;
          多空分布.long_ratio :=
            if 0 <? totalNet
            then Js.fmul (Js.fdiv (inject_Z netLong) (inject_Z totalNet)) 100
            else 50%Q;
          多空分布.short_ratio :=
            if 0 <? totalNet
            then Js.fmul (Js.fdiv (inject_Z netShort) (inject_Z totalNet)) 100
            else 50%Q |} |}.

Record NetResult : Type := mkNet {
  netLong : Z;
  netShort : Z;
  netDiff : Z
}.

(** [calculateForTopN] of [calculateNetLongShort]. *)
Definition netForTopN (sortedSeats : list 席位分析数据.t) (n : Breadth) : NetResult :=
  let selectedSeats := selectTop n sortedSeats in
  let netLong := sumNetVol (fun seat => 0 <? 席位分析数据.net_vol seat) selectedSeats in
  let netShort :=
    Z.abs (sumNetVol (fun seat => 席位分析数据.net_vol seat <? 0) selectedSeats) in
  {| netLong := netLong; netShort := netShort; netDiff := netLong - netShort |}.

Definition netOfDay (group : string * list 席位分析数据.t) : 净多空指标数据.t :=
  let tradeDate := fst group in
  let dayData := snd group in
  let sortedSeats := Js.sort byAbsNetVol dayData in
  let result10 := netForTopN sortedSeats (Top 10) in
  let result20 := netForTopN sortedSeats (Top 20) in
  let resultAll := netForTopN sortedSeats All in
  {| 净多空指标数据.trade_date := tradeDate;
     净多空指标数据.net_long_10 := netLong result10;
     净多空指标数据.net_long_20 := netLong result20;
     净多空指标数据.net_long_all := netLong resultAll;
     净多空指标数据.net_short_10 := netShort result10;
     净多空指标数据.net_short_20 := netShort result20;
     净多空指标数据.net_short_all := netShort resultAll;
     净多空指标数据.net_diff_10 := netDiff result10;
     净多空指标数据.net_diff_20 := netDiff result20;
     净多空指标数据.net_diff_all := netDiff resultAll |}.

Definition calculateNetLongShort (seatData : list 席位分析数据.t)
    : list 净多空指标数据.t :=
  let results := map netOfDay (groupByDate seatData) in
  Js.sort
    (fun a b =>
       Js.localeCompare (净多空指标数据.trade_date a) (净多空指标数据.trade_date b))
    results.

(** [generateSeatCurveData]; [days] is optional and defaults to 250. *)
Definition generateSeatCurveData (seatData : list 席位分析数据.t)
    (seatName : string) (days : option nat) : 席位曲线数据.t :=
  let days := match days with Some n => n | None => 250%nat end in
  let seatHistory := Js.sliceFromEnd days (seatHistoryOf seatData seatName) in
  {| 席位曲线数据.seat_name := seatName;
     席位曲线数据.data :=
       map (fun item =>
              {| 席位曲线点.trade_date := 席位分析数据.trade_date item;
                 席位曲线点.net_position := 席位分析数据.net_vol item |})
         seatHistory |}.

(** [(a, b) => b.long_vol - a.long_vol]. *)
Definition byLongVol (a b : 席位分析数据.t) : Z :=
  席位分析数据.long_vol b - 席位分析数据.long_vol a.

Definition convertToHoldingTableData (seatData : list 席位分析数据.t)
    (tradeDate : string) : list 持仓数据表项.t :=
  let dayData :=
    filter (fun item => String.eqb (席位分析数据.trade_date item) tradeDate) seatData in
  let sortedSeats := Js.sort byLongVol dayData in
  let totalLongVol :=
    fold_left (fun sum seat => sum + 席位分析数据.long_vol seat) dayData 0 in
  let totalShortVol :=
    fold_left (fun sum seat => sum + 席位分析数据.short_vol seat) dayData 0 in
  let totalVol := Z.max totalLongVol totalShortVol in
  map
    (fun seat =>
       {| 持仓数据表项.seat_name := 席位分析数据.seat_name seat;
          持仓数据表项.long_vol := 席位分析数据.long_vol seat;
          持仓数据表项.long_chg := 席位分析数据.long_chg seat;
          持仓数据表项.short_vol := 席位分析数据.short_vol seat;
          持仓数据表项.short_chg := 席位分析数据.short_chg seat;
          持仓数据表项.net_vol := 席位分析数据.net_vol seat;
          持仓数据表项.net_chg := 席位分析数据.net_chg seat;
          持仓数据表项.position_ratio :=
            if 0 <? totalVol
            then
              Js.fmul
                (Js.fdiv (inject_Z (Z.abs (席位分析数据.net_vol seat))) (inject_Z totalVol))
                100
            else 0%Q |})
    sortedSeats.

End IndicatorCalculator.

(** ** FilterService (filterService.ts) *)

Module FilterService.

(** [days: 5 | 8 | 13 | 21], [period: 10 | 20 | 'all'] and the other
    literal types of the filter parameters. *)
Inductive Days : Type :=
  | D5
  | D8
  | D13
  | D21.

Definition daysOf (d : Days) : nat :=
  match d with
  | D5 => 5
  | D8 => 8
  | D13 => 13
  | D21 => 21
  end.

Inductive Period : Type :=
  | Per10
  | Per20
  | PerAll.

Inductive PriceType : Type :=
  | highest
  | lowest.

Inductive Operator : Type :=
  | greater
  | less.

Inductive ExtremeType : Type :=
  | max
  | min.

Record 收盘价条件 : Type := mkPriceParams {
  price_enabled : bool;
  price_days : Days;
  price_type : PriceType
}.

Record 比较条件 : Type := mkCompareParams {
  compare_enabled : bool;
  longPeriod : Period;
  shortPeriod : Period;
  operator : Operator
}.

Record 极值条件 : Type := mkExtremeParams {
  extreme_enabled : bool;
  period : Period;
  extreme_days : Days;
  extreme_type : ExtremeType
}.

(** [interface 筛选参数]: every condition is optional. *)
Record 筛选参数 : Type := mkParams {
  p_收盘价条件 : option 收盘价条件;
  p_实多空比较 : option 比较条件;
  p_净多空比较 : option 比较条件;
  p_实多极值 : option 极值条件;
  p_实空极值 : option 极值条件;
  p_实差极值 : option 极值条件;
  p_净多极值 : option 极值条件;
  p_净空极值 : option 极值条件;
  p_净差极值 : option 极值条件
}.

(** The storage collaborator [dataService]; its queries are asynchronous
    and [None] stands for a rejected promise. *)
Record DataService : Type := mkDataService {
  getAllWeightedContracts : option (list 加权合约数据.t);
  getRealLongShortData : string -> option (list 实多空指标数据.t);
  getNetLongShortData : string -> option (list 净多空指标数据.t)
}.

(** A row of [data: any[]] in [checkExtremeCondition]. *)
Inductive Row : Type :=
  | RealRow (r : 实多空指标数据.t)
  | NetRow (n : 净多空指标数据.t).

(** [data[key]] where it is a number; [None] is [undefined]. *)
Definition prop (data : Row) (key : string) : option Z :=
  match data with
  | RealRow r =>
      if String.eqb key "real_long_10" then Some (实多空指标数据.real_long_10 r)
      else if String.eqb key "real_long_20" then Some (实多空指标数据.real_long_20 r)
      else if String.eqb key "real_long_all" then Some (实多空指标数据.real_long_all r)
      else if String.eqb key "real_short_10" then Some (实多空指标数据.real_short_10 r)
      else if String.eqb key "real_short_20" then Some (实多空指标数据.real_short_20 r)
      else if String.eqb key "real_short_all" then Some (实多空指标数据.real_short_all r)
      else if String.eqb key "real_diff_10" then Some (实多空指标数据.real_diff_10 r)
      else if String.eqb key "real_diff_20" then Some (实多空指标数据.real_diff_20 r)
      else if String.eqb key "real_diff_all" then Some (实多空指标数据.real_diff_all r)
      else None
  | NetRow n =>
      if String.eqb key "net_long_10" then Some (净多空指标数据.net_long_10 n)
      else if String.eqb key "net_long_20" then Some (净多空指标数据.net_long_20 n)
      else if String.eqb key "net_long_all" then Some (净多空指标数据.net_long_all n)
      else if String.eqb key "net_short_10" then Some (净多空指标数据.net_short_10 n)
      else if String.eqb key "net_short_20" then Some (净多空指标数据.net_short_20 n)
      else if String.eqb key "net_short_all" then Some (净多空指标数据.net_short_all n)
      else if String.eqb key "net_diff_10" then Some (净多空指标数据.net_diff_10 n)
      else if String.eqb key "net_diff_20" then Some (净多空指标数据.net_diff_20 n)
      else if String.eqb key "net_diff_all" then Some (净多空指标数据.net_diff_all n)
      else None
  end.

(** [getValueByPeriod]: [data[baseKey + suffix] || 0]. *)
Definition getValueByPeriod (data : Row) (baseKey : string) (period : Period) : Z :=
  let suffix :=
    match period with
    | PerAll => "_all"
    | Per10 => "_10"
    | Per20 => "_20"
    end%string in
  let key := (baseKey ++ suffix)%string in
  match prop data key with
  | Some v => Js.orElseZ v 0
  | None => 0
  end.

(** [checkPriceCondition]. *)
Definition checkPriceCondition (contracts : list 加权合约数据.t) (days : Days)
    (type : PriceType) : bool :=
  if (List.length contracts <? daysOf days)%nat then false
  else
    let recentContracts := Js.slice0 (daysOf days) contracts in
    let prices := map 加权合约数据.close recentContracts in
    match contracts with
    | [] => false
    | first :: _ =>
        let currentPrice := 加权合约数据.close first in
        match type with
        | highest =>
            match Js.maxQ prices with
            | Some m => Js.eqQ currentPrice m
            | None => false
            end
        | lowest =>
            match Js.minQ prices with
            | Some m => Js.eqQ currentPrice m
            | None => false
            end
        end
    end.

Definition compareValues (operator : Operator) (longValue shortValue : Z) : bool :=
  match operator with
  | greater => shortValue <? longValue
  | less => longValue <? shortValue
  end.

(** [checkRealLongShortCompare]; a failed query is caught and gives [false]. *)
Definition checkRealLongShortCompare (ds : DataService) (commodityId : string)
    (longPeriod shortPeriod : Period) (operator : Operator) : bool :=
  match getRealLongShortData ds commodityId with
  | None => false
  | Some [] => false
  | Some (latestData :: _) =>
      let longValue := getValueByPeriod (RealRow latestData) "real_long" longPeriod in
      let shortValue := getValueByPeriod (RealRow latestData) "real_short" shortPeriod in
      compareValues operator longValue shortValue
  end.

(** [checkNetLongShortCompare]. *)
Definition checkNetLongShortCompare (ds : DataService) (commodityId : string)
    (longPeriod shortPeriod : Period) (operator : Operator) : bool :=
  match getNetLongShortData ds commodityId with
  | None => false
  | Some [] => false
  | Some (latestData :: _) =>
      let longValue := getValueByPeriod (NetRow latestData) "net_long" longPeriod in
      let shortValue := getValueByPeriod (NetRow latestData) "net_short" shortPeriod in
      compareValues operator longValue shortValue
  end.

(** The data and the value key [checkExtremeCondition] selects from the
    characters of [conditionType]; [None] is a failed query. *)
Definition extremeSource (ds : DataService) (commodityId conditionType : string)
    : option (list Row * string) :=
  if Js.includes conditionType "实" then
    match getRealLongShortData ds commodityId with
    | None => None
    | Some data =>
        Some (map RealRow data,
              if Js.includes conditionType "多" then "real_long"
              else if Js.includes conditionType "空" then "real_short"
              else if Js.includes conditionType "差" then "real_diff"
              else "")%string
    end
  else if Js.includes conditionType "净" then
    match getNetLongShortData ds commodityId with
    | None => None
    | Some data =>
        Some (map NetRow data,
              if Js.includes conditionType "多" then "net_long"
              else if Js.includes conditionType "空" then "net_short"
              else if Js.includes conditionType "差" then "net_diff"
              else "")%string
    end
  else Some ([], ""%string).

(** [checkExtremeCondition]; a failed query is caught and gives [false]. *)
Definition checkExtremeCondition (ds : DataService)
    (commodityId conditionType : string) (period : Period) (days : Days)
    (type : ExtremeType) : bool :=
  match extremeSource ds commodityId conditionType with
  | None => false
  | Some (data, valueKey) =>
      if (List.length data <? daysOf days)%nat then false
      else
        let recentData := Js.slice0 (daysOf days) data in
        let values := map (fun item => getValueByPeriod item valueKey period) recentData in
        match values with
        | [] => false
        | currentValue :: _ =>
            match type with
            | max =>
                match Js.maxZ values with
                | Some m => currentValue =? m
                | None => false
                end
            | min =>
                match Js.minZ values with
                | Some m => currentValue =? m
                | None => false
                end
            end
        end
  end.

(** The state of the loop body of [executeFilter]: [matchConditions] and
    [score]. *)
Definition MatchState : Type := (list 筛选条件类型 * Z)%type.

(** [if (isMatch) { matchConditions.push(type); score += weight; }]. *)
Definition recordMatch (isMatch : bool) (type : 筛选条件类型) (weight : Z)
    (st : MatchState) : MatchState :=
  if isMatch then (fst st ++ [type], snd st + weight) else st.

(** The [extremeConditions] table. *)
Definition extremeConditions (params : 筛选参数)
    : list (string * 筛选条件类型 * option 极值条件) :=
  [ ("实多极值"%string, real_extreme, p_实多极值 params);
    ("实空极值"%string, real_extreme, p_实空极值 params);
    ("实差极值"%string, real_diff_extreme, p_实差极值 params);
    ("净多极值"%string, net_extreme, p_净多极值 params);
    ("净空极值"%string, net_extreme, p_净空极值 params);
    ("净差极值"%string, net_diff_extreme, p_净差极值 params) ].

Definition extremeStep (ds : DataService) (commodityId : string)
    (st : MatchState) (condition : string * 筛选条件类型 * option 极值条件)
    : MatchState :=
  match condition with
  | (key, type, Some ps) =>
      if extreme_enabled ps then
        recordMatch
          (checkExtremeCondition ds commodityId key (period ps) (extreme_days ps)
             (extreme_type ps))
          type 12 st
      else st
  | (_, _, None) => st
  end.

(** The conditions of one commodity, evaluated in the order of the source. *)
Definition evaluate (ds : DataService) (params : 筛选参数) (commodityId : string)
    (commodityContracts : list 加权合约数据.t) : MatchState :=
  let st : MatchState := ([], 0) in
  let st :=
    match p_收盘价条件 params with
    | Some ps =>
        if price_enabled ps then
          recordMatch
            (checkPriceCondition commodityContracts (price_days ps) (price_type ps))
            price_condition 10 st
        else st
    | None => st
    end in
  let st :=
    match p_实多空比较 params with
    | Some ps =>
        if compare_enabled ps then
          recordMatch
            (checkRealLongShortCompare ds commodityId (longPeriod ps) (shortPeriod ps)
               (operator ps))
            real_compare 15 st
        else st
    | None => st
    end in
  let st :=
    match p_净多空比较 params with
    | Some ps =>
        if compare_enabled ps then
          recordMatch
            (checkNetLongShortCompare ds commodityId (longPeriod ps) (shortPeriod ps)
               (operator ps))
            net_compare 15 st
        else st
    | None => st
    end in
  fold_left (extremeStep ds commodityId) (extremeConditions params) st.

(** The body of [for (const commodityId of commodityIds)]. *)
Definition filterStep (ds : DataService) (params : 筛选参数)
    (weightedContracts : list 加权合约数据.t)
    (results : list 筛选结果.t) (commodityId : string) : list 筛选结果.t :=
  let commodityContracts :=
    filter (fun item => String.eqb (加权合约数据.commodity_id item) commodityId)
      weightedContracts in
  match commodityContracts with
  | [] => results
  | _ :: _ =>
      let commodityContracts :=
        Js.sort
          (fun a b =>
             Js.localeCompare (加权合约数据.trade_date b) (加权合约数据.trade_date a))
          commodityContracts in
      let st := evaluate ds params commodityId commodityContracts in
      if (0 <? List.length (fst st))%nat then
        match commodityContracts with
        | first :: _ =>
            results ++
              [ {| 筛选结果.commodity_id := commodityId;
                   筛选结果.commodity_name := 加权合约数据.commodity_name first;
                   筛选结果.match_conditions := fst st;
                   筛选结果.score := snd st |} ]
        | [] => results
        end
      else results
  end.

(** [(a, b) => b.score - a.score]. *)
Definition byScore (a b : 筛选结果.t) : Z := 筛选结果.score b - 筛选结果.score a.

(** [executeFilter]; [None] is the error it throws when the weighted
    contracts cannot be read. *)
Definition executeFilter (ds : DataService) (params : 筛选参数)
    : option (list 筛选结果.t) :=
  match getAllWeightedContracts ds with
  | None => None
  | Some weightedContracts =>
      let commodityIds := Js.setOf (map 加权合约数据.commodity_id weightedContracts) in
      let results := fold_left (filterStep ds params weightedContracts) commodityIds [] in
      Some (Js.sort byScore results)
  end.

End FilterService.

(** ** Notions used to state the properties *)

Module Spec.

(** [firstBefore s t l]: [s] occurs in [l] before the first occurrence of
    [t], and [t] occurs too. *)
Definition firstBefore (s t : string) (l : list string) : Prop :=
  exists pre post, l = pre ++ s :: post /\ ~ In t (pre ++ [s]) /\ In t post.

(** The holdings of one seat among the holdings of a commodity and date. *)
Definition isSeat (seat : string) (item : 席位持仓原始数据.t) : bool :=
  String.eqb (席位持仓原始数据.seat_name item) seat.

Definition holdingsOf (holdingData : list 席位持仓原始数据.t)
    (commodityId tradeDate seat : string) : list 席位持仓原始数据.t :=
  filter
    (fun item => DataCalculator.holdingMatches commodityId tradeDate item && isSeat seat item)
    holdingData.

(** What [seatMap] holds after the holdings [hs] have been visited: one
    entry per seat, in the order the seats were first met, with the sums of
    the seat's holdings. *)
Definition aggregated (hs : list 席位持仓原始数据.t)
    (seatMap : JsMap.t 席位分析数据.t) : Prop :=
  JsMap.keys seatMap = Js.setOf (map 席位持仓原始数据.seat_name hs) /\
  forall k v, In (k, v) seatMap ->
    席位分析数据.seat_name v = k /\
    席位分析数据.long_vol v
      = Js.sumZ (map 席位持仓原始数据.long_vol (filter (isSeat k) hs)) /\
    席位分析数据.short_vol v
      = Js.sumZ (map 席位持仓原始数据.short_vol (filter (isSeat k) hs)) /\
    席位分析数据.long_chg v
      = Js.sumZ (map 席位持仓原始数据.long_chg (filter (isSeat k) hs)) /\
    席位分析数据.short_chg v
      = Js.sumZ (map 席位持仓原始数据.short_chg (filter (isSeat k) hs)).

(** The rows of one trading date, in input order. *)
Definition onDate (d : string) (r : 席位分析数据.t) : bool :=
  String.eqb (席位分析数据.trade_date r) d.

Definition dayOf (seatData : list 席位分析数据.t) (d : string) : list 席位分析数据.t :=
  filter (onDate d) seatData.

(** What [dateGroups] holds after the rows [seatData] have been visited. *)
Definition grouped (seatData : list 席位分析数据.t)
    (dateGroups : JsMap.t (list 席位分析数据.t)) : Prop :=
  JsMap.keys dateGroups = Js.setOf (map 席位分析数据.trade_date seatData) /\
  forall d dayData, In (d, dayData) dateGroups -> dayData = dayOf seatData d.

(** Ascending order of dates. *)
Definition dateLe (a b : string) : Prop := String.compare a b <> Gt.

(** The net position the rows of a day give for a seat; were a seat to
    have several rows on the day, it is that of the last one. *)
Definition netVolOf (dayData : list 席位分析数据.t) (seat : string) : Z :=
  match find (fun r => String.eqb (席位分析数据.seat_name r) seat) (rev dayData) with
  | Some r => 席位分析数据.net_vol r
  | None => 0
  end.

(** The part of a net position counted as long, and as short. *)
Definition longPart (netVol : Z) : Z := if 0 <? netVol then netVol else 0.

Definition shortPart (netVol : Z) : Z := if netVol <? 0 then Z.abs netVol else 0.

(** The distinct seat names among the selected pool entries. *)
Definition distinctSeats (selected : list IndicatorCalculator.PoolEntry) : list string :=
  nodup string_dec (map IndicatorCalculator.seat_name selected).

(** Real long/short of a day at a breadth, as the specification words it:
    over the distinct seats of the [n] largest pool entries, the long
    parts and the short parts of the seats' net positions. *)
Definition realSpec (dayData : list 席位分析数据.t) (n : IndicatorCalculator.Breadth)
    : IndicatorCalculator.RealResult :=
  let pool := IndicatorCalculator.combinedVolumes dayData in
  let seats := distinctSeats (IndicatorCalculator.selectTop n pool) in
  let realLong := Js.sumZ (map (fun s => longPart (netVolOf dayData s)) seats) in
  let realShort := Js.sumZ (map (fun s => shortPart (netVolOf dayData s)) seats) in
  {| IndicatorCalculator.realLong := realLong;
     IndicatorCalculator.realShort := realShort;
     IndicatorCalculator.realDiff := realLong - realShort |}.

(** What [seatNetPositions] holds after the rows [dayData] have been visited. *)
Definition positioned (involved : list string) (dayData : list 席位分析数据.t)
    (positions : JsMap.t Z) : Prop :=
  JsMap.keys positions
  = Js.setOf
      (map 席位分析数据.seat_name
         (filter (fun r => Js.mem (席位分析数据.seat_name r) involved) dayData)) /\
  forall k v, In (k, v) positions -> v = netVolOf dayData k.

(** The result row of a date whose nine values are those of [realSpec]. *)
Definition realRowSpec (d : string) (dayData : list 席位分析数据.t) : 实多空指标数据.t :=
  let r10 := realSpec dayData (IndicatorCalculator.Top 10) in
  let r20 := realSpec dayData (IndicatorCalculator.Top 20) in
  let rAll := realSpec dayData IndicatorCalculator.All in
  {| 实多空指标数据.trade_date := d;
     实多空指标数据.real_long_10 := IndicatorCalculator.realLong r10;
     实多空指标数据.real_long_20 := IndicatorCalculator.realLong r20;
     实多空指标数据.real_long_all := IndicatorCalculator.realLong rAll;
     实多空指标数据.real_short_10 := IndicatorCalculator.realShort r10;
     实多空指标数据.real_short_20 := IndicatorCalculator.realShort r20;
     实多空指标数据.real_short_all := IndicatorCalculator.realShort rAll;
     实多空指标数据.real_diff_10 := IndicatorCalculator.realDiff r10;
     实多空指标数据.real_diff_20 := IndicatorCalculator.realDiff r20;
     实多空指标数据.real_diff_all := IndicatorCalculator.realDiff rAll |}.

(** Flow long/short as the specification words it: each selected seat is
    classified by the signs of its net position and of its net change and
    adds to one bucket at most. *)
Definition flowStep (acc : IndicatorCalculator.FlowResult) (seat : 席位分析数据.t)
    : IndicatorCalculator.FlowResult :=
  let v := 席位分析数据.net_vol seat in
  let c := 席位分析数据.net_chg seat in
  let al := IndicatorCalculator.addLong acc in
  let ash := IndicatorCalculator.addShort acc in
  let rl := IndicatorCalculator.reduceLong acc in
  let rs := IndicatorCalculator.reduceShort acc in
  if (0 <? v) && (0 <? c) then IndicatorCalculator.mkFlow (al + v) ash rl rs
  else if (v <? 0) && (c <? 0) then IndicatorCalculator.mkFlow al (ash + Z.abs v) rl rs
  else if (0 <? v) && (c <? 0) then IndicatorCalculator.mkFlow al ash (rl + - v) rs
  else if (v <? 0) && (0 <? c) then IndicatorCalculator.mkFlow al ash rl (rs + v)
  else acc.

Definition flowSpec (dayData : list 席位分析数据.t) (n : IndicatorCalculator.Breadth)
    : IndicatorCalculator.FlowResult :=
  let sortedSeats := Js.sort IndicatorCalculator.byAbsNetVol dayData in
  fold_left flowStep (IndicatorCalculator.selectTop n sortedSeats)
    (IndicatorCalculator.mkFlow 0 0 0 0).

(** The result row of a date whose twelve values are those of [flowSpec]. *)
Definition flowRowSpec (d : string) (dayData : list 席位分析数据.t) : 流多空指标数据.t :=
  let r10 := flowSpec dayData (IndicatorCalculator.Top 10) in
  let r20 := flowSpec dayData (IndicatorCalculator.Top 20) in
  let rAll := flowSpec dayData IndicatorCalculator.All in
  {| 流多空指标数据.trade_date := d;
     流多空指标数据.add_long_10 := IndicatorCalculator.addLong r10;
     流多空指标数据.add_long_20 := IndicatorCalculator.addLong r20;
     流多空指标数据.add_long_all := IndicatorCalculator.addLong rAll;
     流多空指标数据.add_short_10 := IndicatorCalculator.addShort r10;
     流多空指标数据.add_short_20 := IndicatorCalculator.addShort r20;
     流多空指标数据.add_short_all := IndicatorCalculator.addShort rAll;
     流多空指标数据.reduce_long_10 := IndicatorCalculator.reduceLong r10;
     流多空指标数据.reduce_long_20 := IndicatorCalculator.reduceLong r20;
     流多空指标数据.reduce_long_all := IndicatorCalculator.reduceLong rAll;
     流多空指标数据.reduce_short_10 := IndicatorCalculator.reduceShort r10;
     流多空指标数据.reduce_short_20 := IndicatorCalculator.reduceShort r20;
     流多空指标数据.reduce_short_all := IndicatorCalculator.reduceShort rAll |}.

(** The four filters of [calculateForTopN] in [calculateFlowLongShort]. *)
Definition flowAddLong (seat : 席位分析数据.t) : bool :=
  (0 <? 席位分析数据.net_vol seat) && (0 <? 席位分析数据.net_chg seat).

Definition flowAddShort (seat : 席位分析数据.t) : bool :=
  (席位分析数据.net_vol seat <? 0) && (席位分析数据.net_chg seat <? 0).

Definition flowReduceLong (seat : 席位分析数据.t) : bool :=
  (0 <? 席位分析数据.net_vol seat) && (席位分析数据.net_chg seat <? 0).

Definition flowReduceShort (seat : 席位分析数据.t) : bool :=
  (席位分析数据.net_vol seat <? 0) && (0 <? 席位分析数据.net_chg seat).

(** The records [calculateWeightedContract] synthesizes from: those of the
    trading date whose contract code starts with the commodity code and
    whose open interest is positive. *)
Definition qualifying (commodityId tradeDate : string) (item : 行情数据.t) : Prop :=
  行情数据.trade_date item = tradeDate /\
  Js.startsWith (行情数据.contract_id item) commodityId = true /\
  (0 < 行情数据.open_interest item)%Q.

(** Total open interest, the weight of a constituent, and a price field
    weighted over the constituents, as real numbers. *)
Definition totalOpenInterest (cs : list 行情数据.t) : Q :=
  Js.sumQ (map 行情数据.open_interest cs).

Definition weight (cs : list 行情数据.t) (item : 行情数据.t) : Q :=
  (行情数据.open_interest item / totalOpenInterest cs)%Q.


(** The daily profit and loss of the trading day at index [t] (1 or more)
    of a history:
    [(net_vol_t * settle_t - net_vol_(t-1) * settle_(t-1)) * contract_unit]. *)
Definition dailyProfit (positions : list IndicatorCalculator.Position)
    (contractUnit : Q) (t : nat) : Q :=
  match nth_error positions t, nth_error positions (t - 1) with
  | Some today, Some yesterday =>
      ((inject_Z (IndicatorCalculator.netVol today) * IndicatorCalculator.settlePrice today
        - inject_Z (IndicatorCalculator.netVol yesterday)
          * IndicatorCalculator.settlePrice yesterday) * contractUnit)%Q
  | _, _ => 0%Q
  end.

(** The same daily profit as the machine computes it, every operation
    rounded to binary64. *)
Definition dailyProfit64 (positions : list IndicatorCalculator.Position)
    (contractUnit : Q) (t : nat) : Q :=
  match nth_error positions t, nth_error positions (t - 1) with
  | Some today, Some yesterday =>
      Js.fmul
        (Js.fsub
           (Js.fmul (inject_Z (IndicatorCalculator.netVol today))
              (IndicatorCalculator.settlePrice today))
           (Js.fmul (inject_Z (IndicatorCalculator.netVol yesterday))
              (IndicatorCalculator.settlePrice yesterday)))
        contractUnit
  | _, _ => 0%Q
  end.

(** The profit over a window as the specification words it: the daily
    profits of the last [window] trading days of the history, the first day
    of the history having none, rounded to an integer. *)
Definition profitOverLastDays (positions : list IndicatorCalculator.Position)
    (contractUnit : Q) (window : nat) : Z :=
  let len := List.length positions in
  let first := Nat.max 1 (len - window) in
  Js.round (Js.sumQ (map (dailyProfit positions contractUnit) (seq first (len - first)))).

(** The name and the value of a slice. *)
Definition nameValue (item : 饼图项.t) : string * Z :=
  (饼图项.name item, 饼图项.value item).

Definition absNetVol (seat : 席位分析数据.t) : Z := Z.abs (席位分析数据.net_vol seat).

Definition absNetChg (seat : 席位分析数据.t) : Z := Z.abs (席位分析数据.net_chg seat).

Definition entryOf (magnitude : 席位分析数据.t -> Z) (seat : 席位分析数据.t) : string * Z :=
  (席位分析数据.seat_name seat, magnitude seat).

(** A distribution as the specification words it, for either ranking: the
    ten first entries of the ranking, then one bucket named "其他" with the
    sum of the magnitudes of the remaining entries, when some remain. *)
Definition distributionClaimed (magnitude : 席位分析数据.t -> Z)
    (ranked : list 席位分析数据.t) : list (string * Z) :=
  map (entryOf magnitude) (firstn 10 ranked) ++
  match skipn 10 ranked with
  | [] => []
  | rest => [(IndicatorCalculator.其他, Js.sumZ (map magnitude rest))]
  end.

(** The position distribution as the code builds it: the bucket is there
    when the sum of the remaining magnitudes is positive. *)
Definition distributionWithOther (magnitude : 席位分析数据.t -> Z)
    (ranked : list 席位分析数据.t) : list (string * Z) :=
  let otherTotal := Js.sumZ (map magnitude (skipn 10 ranked)) in
  map (entryOf magnitude) (firstn 10 ranked) ++
  (if 0 <? otherTotal then [(IndicatorCalculator.其他, otherTotal)] else []).

(** The change distribution as the code builds it: the ten first entries
    with a change, and no bucket. *)
Definition distributionWithoutOther (ranked : list 席位分析数据.t) : list (string * Z) :=
  map (entryOf absNetChg)
    (firstn 10 (filter (fun seat => negb (席位分析数据.net_chg seat =? 0)) ranked)).

(** The contracts of a commodity as [executeFilter] hands them to the
    conditions: latest date first. *)
Definition contractsOf (weightedContracts : list 加权合约数据.t) (commodityId : string)
    : list 加权合约数据.t :=
  Js.sort
    (fun a b => Js.localeCompare (加权合约数据.trade_date b) (加权合约数据.trade_date a))
    (filter (fun item => String.eqb (加权合约数据.commodity_id item) commodityId)
       weightedContracts).

(** Whether a condition is enabled and satisfied. *)
Definition priceOutcome (params : FilterService.筛选参数)
    (contracts : list 加权合约数据.t) : bool :=
  match FilterService.p_收盘价条件 params with
  | Some ps =>
      FilterService.price_enabled ps
      && FilterService.checkPriceCondition contracts
           (FilterService.price_days ps) (FilterService.price_type ps)
  | None => false
  end.

Definition realCompareOutcome (ds : FilterService.DataService)
    (params : FilterService.筛选参数) (commodityId : string) : bool :=
  match FilterService.p_实多空比较 params with
  | Some ps =>
      FilterService.compare_enabled ps
      && FilterService.checkRealLongShortCompare ds commodityId
           (FilterService.longPeriod ps) (FilterService.shortPeriod ps)
           (FilterService.operator ps)
  | None => false
  end.

Definition netCompareOutcome (ds : FilterService.DataService)
    (params : FilterService.筛选参数) (commodityId : string) : bool :=
  match FilterService.p_净多空比较 params with
  | Some ps =>
      FilterService.compare_enabled ps
      && FilterService.checkNetLongShortCompare ds commodityId
           (FilterService.longPeriod ps) (FilterService.shortPeriod ps)
           (FilterService.operator ps)
  | None => false
  end.

Definition extremeOutcome (ds : FilterService.DataService) (commodityId : string)
    (condition : string * 筛选条件类型 * option FilterService.极值条件) : bool :=
  match condition with
  | (key, _, Some ps) =>
      FilterService.extreme_enabled ps
      && FilterService.checkExtremeCondition ds commodityId key
           (FilterService.period ps) (FilterService.extreme_days ps)
           (FilterService.extreme_type ps)
  | (_, _, None) => false
  end.

(** The nine conditions with their fixed weights: 10 for the price
    condition, 15 for each comparison, 12 for each extremum. *)
Record Outcome : Type := mkOutcome {
  condition : 筛选条件类型;
  weightOf : Z;
  holds : bool
}.

Definition extremeOutcomeOf (ds : FilterService.DataService) (commodityId : string)
    (c : string * 筛选条件类型 * option FilterService.极值条件) : Outcome :=
  mkOutcome (snd (fst c)) 12 (extremeOutcome ds commodityId c).

Definition outcomes (ds : FilterService.DataService) (params : FilterService.筛选参数)
    (commodityId : string) (contracts : list 加权合约数据.t) : list Outcome :=
  [ mkOutcome price_condition 10 (priceOutcome params contracts);
    mkOutcome real_compare 15 (realCompareOutcome ds params commodityId);
    mkOutcome net_compare 15 (netCompareOutcome ds params commodityId) ]
  ++ map (extremeOutcomeOf ds commodityId) (FilterService.extremeConditions params).

Definition satisfied (ds : FilterService.DataService) (params : FilterService.筛选参数)
    (commodityId : string) (contracts : list 加权合约数据.t) : list Outcome :=
  filter holds (outcomes ds params commodityId contracts).

(** The score and the matched conditions as the specification words them. *)
Definition scoreOf (sat : list Outcome) : Z := Js.sumZ (map weightOf sat).

Definition matchedOf (sat : list Outcome) : list 筛选条件类型 := map condition sat.

(** [applyOutcome o st]: the state after condition [o] has been looked at. *)
Definition applyOutcome (st : FilterService.MatchState) (o : Outcome)
    : FilterService.MatchState :=
  FilterService.recordMatch (holds o) (condition o) (weightOf o) st.

(** The parameters with the price condition taken out. *)
Definition withoutPrice (params : FilterService.筛选参数) : FilterService.筛选参数 :=
  {| FilterService.p_收盘价条件 := None;
     FilterService.p_实多空比较 := FilterService.p_实多空比较 params;
     FilterService.p_净多空比较 := FilterService.p_净多空比较 params;
     FilterService.p_实多极值 := FilterService.p_实多极值 params;
     FilterService.p_实空极值 := FilterService.p_实空极值 params;
     FilterService.p_实差极值 := FilterService.p_实差极值 params;
     FilterService.p_净多极值 := FilterService.p_净多极值 params;
     FilterService.p_净空极值 := FilterService.p_净空极值 params;
     FilterService.p_净差极值 := FilterService.p_净差极值 params |}.

(** The two filters of [calculateForTopN] in [calculateNetLongShort]. *)
Definition isLong (seat : 席位分析数据.t) : bool := 0 <? 席位分析数据.net_vol seat.

Definition isShort (seat : 席位分析数据.t) : bool := 席位分析数据.net_vol seat <? 0.

(** The value of a position at a whole settlement price, net position
    times price, and the value of the position at an index of a history
    (0 outside the history). *)
Definition wholeValue (pos : IndicatorCalculator.Position) : Z :=
  IndicatorCalculator.netVol pos * Qfloor (IndicatorCalculator.settlePrice pos).

Definition wholeValueAt (positions : list IndicatorCalculator.Position) (i : nat) : Z :=
  match nth_error positions i with
  | Some pos => wholeValue pos
  | None => 0
  end.

(** A position that the profit computation handles without rounding for a
    whole contract unit: its settlement price is a whole number and twice
    its value times the contract unit stays within 53 bits. *)
Definition exactFor (contractUnit : Z) (pos : IndicatorCalculator.Position) : Prop :=
  (IndicatorCalculator.settlePrice pos
   == inject_Z (Qfloor (IndicatorCalculator.settlePrice pos)))%Q /\
  2 * Z.abs (wholeValue pos) * Z.max 1 (Z.abs contractUnit) <= 2 ^ 53.

(** Strict order of strings by their characters. *)
Definition stringLt (a b : string) : Prop := String.compare a b = Lt.

(** Whether a string contains a decimal digit. *)
Fixpoint hasDigit (s : string) : bool :=
  match s with
  | EmptyString => false
  | String c s' => Js.isDigit c || hasDigit s'
  end.

(** The commodity codes of a list of contract codes: the codes with their
    digits removed, the empty ones left out. *)
Definition isCommodityOf (contractIds : list string) (commodityId : string) : Prop :=
  Js.nonEmpty commodityId = true /\
  exists contractId, In contractId contractIds /\ commodityId = Js.stripDigits contractId.


(** The indicator value of a row at a breadth. *)
Definition realLong (period : FilterService.Period) (r : 实多空指标数据.t) : Z :=
  match period with
  | FilterService.Per10 => 实多空指标数据.real_long_10 r
  | FilterService.Per20 => 实多空指标数据.real_long_20 r
  | FilterService.PerAll => 实多空指标数据.real_long_all r
  end.

Definition realShort (period : FilterService.Period) (r : 实多空指标数据.t) : Z :=
  match period with
  | FilterService.Per10 => 实多空指标数据.real_short_10 r
  | FilterService.Per20 => 实多空指标数据.real_short_20 r
  | FilterService.PerAll => 实多空指标数据.real_short_all r
  end.

Definition realDiff (period : FilterService.Period) (r : 实多空指标数据.t) : Z :=
  match period with
  | FilterService.Per10 => 实多空指标数据.real_diff_10 r
  | FilterService.Per20 => 实多空指标数据.real_diff_20 r
  | FilterService.PerAll => 实多空指标数据.real_diff_all r
  end.

Definition netLong (period : FilterService.Period) (n : 净多空指标数据.t) : Z :=
  match period with
  | FilterService.Per10 => 净多空指标数据.net_long_10 n
  | FilterService.Per20 => 净多空指标数据.net_long_20 n
  | FilterService.PerAll => 净多空指标数据.net_long_all n
  end.

Definition netShort (period : FilterService.Period) (n : 净多空指标数据.t) : Z :=
  match period with
  | FilterService.Per10 => 净多空指标数据.net_short_10 n
  | FilterService.Per20 => 净多空指标数据.net_short_20 n
  | FilterService.PerAll => 净多空指标数据.net_short_all n
  end.

Definition netDiff (period : FilterService.Period) (n : 净多空指标数据.t) : Z :=
  match period with
  | FilterService.Per10 => 净多空指标数据.net_diff_10 n
  | FilterService.Per20 => 净多空指标数据.net_diff_20 n
  | FilterService.PerAll => 净多空指标数据.net_diff_all n
  end.

(** The six extremum conditions: the indicator each one looks at. *)
Inductive Extremum : Type :=
  | 实多极值
  | 实空极值
  | 实差极值
  | 净多极值
  | 净空极值
  | 净差极值.

Definition extremumKey (e : Extremum) : string :=
  match e with
  | 实多极值 => "实多极值"
  | 实空极值 => "实空极值"
  | 实差极值 => "实差极值"
  | 净多极值 => "净多极值"
  | 净空极值 => "净空极值"
  | 净差极值 => "净差极值"
  end.

(** The history an extremum condition reads, latest row first, as the
    values of its indicator at a breadth; [None] is a failed query. *)
Definition extremumHistory (ds : FilterService.DataService) (commodityId : string)
    (e : Extremum) (period : FilterService.Period) : option (list Z) :=
  match e with
  | 实多极值 =>
      option_map (map (realLong period)) (FilterService.getRealLongShortData ds commodityId)
  | 实空极值 =>
      option_map (map (realShort period)) (FilterService.getRealLongShortData ds commodityId)
  | 实差极值 =>
      option_map (map (realDiff period)) (FilterService.getRealLongShortData ds commodityId)
  | 净多极值 =>
      option_map (map (netLong period)) (FilterService.getNetLongShortData ds commodityId)
  | 净空极值 =>
      option_map (map (netShort period)) (FilterService.getNetLongShortData ds commodityId)
  | 净差极值 =>
      option_map (map (netDiff period)) (FilterService.getNetLongShortData ds commodityId)
  end.

(** The weight of a condition type in the score. *)
Definition conditionWeight (type : 筛选条件类型) : Z :=
  match type with
  | price_condition => 10
  | real_compare => 15
  | net_compare => 15
  | _ => 12
  end.

(** No condition of the parameters is enabled. *)
Definition enabledPrice (ps : option FilterService.收盘价条件) : bool :=
  match ps with
  | Some ps => FilterService.price_enabled ps
  | None => false
  end.

Definition enabledCompare (ps : option FilterService.比较条件) : bool :=
  match ps with
  | Some ps => FilterService.compare_enabled ps
  | None => false
  end.

Definition enabledExtreme (ps : option FilterService.极值条件) : bool :=
  match ps with
  | Some ps => FilterService.extreme_enabled ps
  | None => false
  end.

Definition anyEnabled (params : FilterService.筛选参数) : bool :=
  enabledPrice (FilterService.p_收盘价条件 params)
  || enabledCompare (FilterService.p_实多空比较 params)
  || enabledCompare (FilterService.p_净多空比较 params)
  || enabledExtreme (FilterService.p_实多极值 params)
  || enabledExtreme (FilterService.p_实空极值 params)
  || enabledExtreme (FilterService.p_实差极值 params)
  || enabledExtreme (FilterService.p_净多极值 params)
  || enabledExtreme (FilterService.p_净空极值 params)
  || enabledExtreme (FilterService.p_净差极值 params).

(** ** Rankings and breadths *)

(** [ranking key l ranked]: [ranked] lists the elements of [l] by
    decreasing [key], the elements of one key in the order they have in
    [l]. *)
Definition ranking {A} (key : A -> Z) (l ranked : list A) : Prop :=
  Permutation ranked l /\
  StronglySorted (fun a b => key b <= key a) ranked /\
  forall v, filter (fun a => key a =? v) ranked = filter (fun a => key a =? v) l.

(** The first [n] entries of a ranking, or all of them. *)
Definition top {A} (breadth : option nat) (ranked : list A) : list A :=
  match breadth with
  | Some n => firstn n ranked
  | None => ranked
  end.

(** The pool of a day: every row contributes its seat twice, once with its
    long volume and once with its short volume. *)
Definition poolOf (dayData : list 席位分析数据.t) : list (string * Z) :=
  flat_map
    (fun seat =>
       [ (席位分析数据.seat_name seat, 席位分析数据.long_vol seat);
         (席位分析数据.seat_name seat, 席位分析数据.short_vol seat) ])
    dayData.

(** Real long, short and difference of a day at a breadth: over the
    distinct seats among the top entries of the ranked pool, the long parts
    and the short parts of the seats' net positions. *)
Definition realOf (dayData : list 席位分析数据.t) (rankedPool : list (string * Z))
    (breadth : option nat) : Z * Z * Z :=
  let seats := nodup string_dec (map fst (top breadth rankedPool)) in
  let realLong := Js.sumZ (map (fun s => longPart (netVolOf dayData s)) seats) in
  let realShort := Js.sumZ (map (fun s => shortPart (netVolOf dayData s)) seats) in
  (realLong, realShort, realLong - realShort).

(** The four flows of a day at a breadth: the top seats of the ranking,
    classified one by one. *)
Definition flowOf (rankedSeats : list 席位分析数据.t) (breadth : option nat)
    : Z * Z * Z * Z :=
  let flows :=
    fold_left flowStep (top breadth rankedSeats) (IndicatorCalculator.mkFlow 0 0 0 0) in
  (IndicatorCalculator.addLong flows, IndicatorCalculator.addShort flows,
   IndicatorCalculator.reduceLong flows, IndicatorCalculator.reduceShort flows).

(** ** The nine screening conditions *)

(** The price condition over [days] days, on contracts listed latest
    first: there are at least [days] contracts and no close among the
    first [days] is above (highest) or below (lowest) the latest close. *)
Definition priceHolds (contracts : list 加权合约数据.t) (days : nat)
    (type : FilterService.PriceType) : bool :=
  match contracts with
  | [] => false
  | latest :: _ =>
      (days <=? List.length contracts)%nat &&
      forallb
        (fun c =>
           match type with
           | FilterService.highest =>
               Qle_bool (加权合约数据.close c) (加权合约数据.close latest)
           | FilterService.lowest =>
               Qle_bool (加权合约数据.close latest) (加权合约数据.close c)
           end)
        (firstn days contracts)
  end.

(** The comparisons, on the latest row of the indicator history. *)
Definition realCompareHolds (ds : FilterService.DataService) (commodityId : string)
    (longPeriod shortPeriod : FilterService.Period) (operator : FilterService.Operator)
    : bool :=
  match FilterService.getRealLongShortData ds commodityId with
  | Some (latest :: _) =>
      match operator with
      | FilterService.greater => realShort shortPeriod latest <? realLong longPeriod latest
      | FilterService.less => realLong longPeriod latest <? realShort shortPeriod latest
      end
  | _ => false
  end.

Definition netCompareHolds (ds : FilterService.DataService) (commodityId : string)
    (longPeriod shortPeriod : FilterService.Period) (operator : FilterService.Operator)
    : bool :=
  match FilterService.getNetLongShortData ds commodityId with
  | Some (latest :: _) =>
      match operator with
      | FilterService.greater => netShort shortPeriod latest <? netLong longPeriod latest
      | FilterService.less => netLong longPeriod latest <? netShort shortPeriod latest
      end
  | _ => false
  end.

(** An extremum condition over [days] days: the history of its indicator
    has at least [days] values and none of the first [days] is above (max)
    or below (min) the latest one. *)
Definition extremumHolds (ds : FilterService.DataService) (commodityId : string)
    (e : Extremum) (period : FilterService.Period) (days : nat)
    (type : FilterService.ExtremeType) : bool :=
  match extremumHistory ds commodityId e period with
  | Some (current :: earlier) =>
      (days <=? List.length (current :: earlier))%nat &&
      forallb
        (fun v =>
           match type with
           | FilterService.max => v <=? current
           | FilterService.min => current <=? v
           end)
        (firstn days (current :: earlier))
  | _ => false
  end.

(** A condition counts when it is given, enabled and holds. *)
Definition priceCondition (params : FilterService.筛选参数)
    (contracts : list 加权合约数据.t) : bool :=
  match FilterService.p_收盘价条件 params with
  | Some ps =>
      FilterService.price_enabled ps
      && priceHolds contracts (FilterService.daysOf (FilterService.price_days ps))
           (FilterService.price_type ps)
  | None => false
  end.

Definition realCompareCondition (ds : FilterService.DataService)
    (params : FilterService.筛选参数) (commodityId : string) : bool :=
  match FilterService.p_实多空比较 params with
  | Some ps =>
      FilterService.compare_enabled ps
      && realCompareHolds ds commodityId (FilterService.longPeriod ps)
           (FilterService.shortPeriod ps) (FilterService.operator ps)
  | None => false
  end.

Definition netCompareCondition (ds : FilterService.DataService)
    (params : FilterService.筛选参数) (commodityId : string) : bool :=
  match FilterService.p_净多空比较 params with
  | Some ps =>
      FilterService.compare_enabled ps
      && netCompareHolds ds commodityId (FilterService.longPeriod ps)
           (FilterService.shortPeriod ps) (FilterService.operator ps)
  | None => false
  end.

Definition extremumCondition (ds : FilterService.DataService) (commodityId : string)
    (e : Extremum) (ps : option FilterService.极值条件) : bool :=
  match ps with
  | Some ps =>
      FilterService.extreme_enabled ps
      && extremumHolds ds commodityId e (FilterService.period ps)
           (FilterService.daysOf (FilterService.extreme_days ps))
           (FilterService.extreme_type ps)
  | None => false
  end.

(** The nine conditions of a commodity in the order of evaluation, each
    with the type it is listed under and its weight: 10 for the price
    condition, 15 for each comparison, 12 for each extremum. *)
Definition conditionsOf (ds : FilterService.DataService) (params : FilterService.筛选参数)
    (commodityId : string) (contracts : list 加权合约数据.t) : list Outcome :=
  [ mkOutcome price_condition 10 (priceCondition params contracts);
    mkOutcome real_compare 15 (realCompareCondition ds params commodityId);
    mkOutcome net_compare 15 (netCompareCondition ds params commodityId);
    mkOutcome real_extreme 12
      (extremumCondition ds commodityId 实多极值 (FilterService.p_实多极值 params));
    mkOutcome real_extreme 12
      (extremumCondition ds commodityId 实空极值 (FilterService.p_实空极值 params));
    mkOutcome real_diff_extreme 12
      (extremumCondition ds commodityId 实差极值 (FilterService.p_实差极值 params));
    mkOutcome net_extreme 12
      (extremumCondition ds commodityId 净多极值 (FilterService.p_净多极值 params));
    mkOutcome net_extreme 12
      (extremumCondition ds commodityId 净空极值 (FilterService.p_净空极值 params));
    mkOutcome net_diff_extreme 12
      (extremumCondition ds commodityId 净差极值 (FilterService.p_净差极值 params)) ].

(** The satisfied conditions of a commodity. *)
Definition satisfiedOf (ds : FilterService.DataService) (params : FilterService.筛选参数)
    (commodityId : string) (contracts : list 加权合约数据.t) : list Outcome :=
  filter holds (conditionsOf ds params commodityId contracts).

(** ** The weighted contract in binary64 *)

(** The sum of a list of numbers, added one after the other from 0. *)
Definition sum64 (l : list Q) : Q := fold_left Js.fadd l 0%Q.

(** Total open interest, the weight of a constituent and a price field
    weighted over the constituents, every operation rounded to binary64. *)
Definition totalOpenInterest64 (cs : list 行情数据.t) : Q :=
  sum64 (map 行情数据.open_interest cs).

Definition weight64 (cs : list 行情数据.t) (item : 行情数据.t) : Q :=
  Js.fdiv (行情数据.open_interest item) (totalOpenInterest64 cs).

Definition weighted64 (price : 行情数据.t -> Q) (cs : list 行情数据.t) : Q :=
  sum64 (map (fun item => Js.fmul (price item) (weight64 cs item)) cs).

(** A number rounded to two decimals: the nearest hundredth, a half going
    up, as the binary64 number nearest to it. *)
Definition roundedTo2 (x : Q) : Q :=
  Js.fdiv (inject_Z (Js.round (Js.fmul x 100))) 100.


End Spec.

(** ** Sample inputs *)

Module Sample.

Definition seat (d name : string) (long_vol short_vol long_chg short_chg : Z)
    : 席位分析数据.t :=
  {| 席位分析数据.trade_date := d;
     席位分析数据.commodity_id := "CU";
     席位分析数据.commodity_name := "沪铜";
     席位分析数据.seat_name := name;
     席位分析数据.long_vol := long_vol;
     席位分析数据.short_vol := short_vol;
     席位分析数据.long_chg := long_chg;
     席位分析数据.short_chg := short_chg;
     席位分析数据.net_vol := long_vol - short_vol;
     席位分析数据.net_chg := long_chg - short_chg |}.

(** S1(net = +50, chg = +5), S2(net = -30, chg = -2), S3(net = +20, chg = -1). *)
Definition flowDay : list 席位分析数据.t :=
  [ seat "2024-01-02" "S1" 80 30 7 2;
    seat "2024-01-02" "S2" 10 40 1 3;
    seat "2024-01-02" "S3" 25 5 0 1 ].

Definition quote (contract : string) (open_interest close : Q) : 行情数据.t :=
  {| 行情数据.trade_date := "2024-01-02";
     行情数据.contract_id := contract;
     行情数据.secShortName := "沪铜2401";
     行情数据.prev_close := close;
     行情数据.prev_settle := close;
     行情数据.open := close;
     行情数据.high := close;
     行情数据.low := close;
     行情数据.close := close;
     行情数据.settle := close;
     行情数据.volume := 1000;
     行情数据.turnover := 0;
     行情数据.open_interest := open_interest;
     行情数据.is_main := false;
     行情数据.is_continuous := false;
     行情数据.contract_unit := 5 |}.

(** Contracts A(oi = 100, close = 10) and B(oi = 300, close = 20) of one
    day, next to a contract without open interest and one of another
    commodity. *)
Definition market : list 行情数据.t :=
  [ quote "CU2401" 100 10;
    quote "CU2402" 300 20;
    quote "CU2403" 0 35;
    quote "AL2401" 500 7 ].

(** Sixteen trading days of one seat at the settlement price 100: flat on
    the first day, long 10 lots from the second day on. *)
Definition history : list IndicatorCalculator.Position :=
  IndicatorCalculator.mkPosition "2024-01-02" 0 100
  :: map (fun d => IndicatorCalculator.mkPosition d 10 100)
       [ "2024-01-03"; "2024-01-04"; "2024-01-05"; "2024-01-08"; "2024-01-09";
         "2024-01-10"; "2024-01-11"; "2024-01-12"; "2024-01-15"; "2024-01-16";
         "2024-01-17"; "2024-01-18"; "2024-01-19"; "2024-01-22"; "2024-01-23" ]%string.

(** Eleven seats of one day whose net changes are 11, 10, ..., 1. *)
Definition changeDay : list 席位分析数据.t :=
  [ seat "2024-01-02" "S11" 110 0 11 0;
    seat "2024-01-02" "S10" 100 0 10 0;
    seat "2024-01-02" "S09" 90 0 9 0;
    seat "2024-01-02" "S08" 80 0 8 0;
    seat "2024-01-02" "S07" 70 0 7 0;
    seat "2024-01-02" "S06" 60 0 6 0;
    seat "2024-01-02" "S05" 50 0 5 0;
    seat "2024-01-02" "S04" 40 0 4 0;
    seat "2024-01-02" "S03" 30 0 3 0;
    seat "2024-01-02" "S02" 20 0 2 0;
    seat "2024-01-02" "S01" 10 0 1 0 ].

Definition contract (commodity d : string) (close : Q) : 加权合约数据.t :=
  {| 加权合约数据.trade_date := d;
     加权合约数据.commodity_id := commodity;
     加权合约数据.commodity_name := commodity;
     加权合约数据.open := close;
     加权合约数据.high := close;
     加权合约数据.low := close;
     加权合约数据.close := close;
     加权合约数据.settle := close;
     加权合约数据.volume := 1000;
     加权合约数据.open_interest := 400 |}.

(** Five days of CU closing at its highest on the last day, and five days
    of AL closing lower on the last day. *)
Definition weightedContracts : list 加权合约数据.t :=
  [ contract "CU" "2024-01-02" 10; contract "AL" "2024-01-02" 9;
    contract "CU" "2024-01-03" 11; contract "AL" "2024-01-03" 8;
    contract "CU" "2024-01-04" 12; contract "AL" "2024-01-04" 7;
    contract "CU" "2024-01-05" 13; contract "AL" "2024-01-05" 6;
    contract "CU" "2024-01-08" 14; contract "AL" "2024-01-08" 5 ].

Definition realRow (d : string) (real_long real_short : Z) : 实多空指标数据.t :=
  {| 实多空指标数据.trade_date := d;
     实多空指标数据.real_long_10 := real_long;
     实多空指标数据.real_long_20 := real_long;
     实多空指标数据.real_long_all := real_long;
     实多空指标数据.real_short_10 := real_short;
     实多空指标数据.real_short_20 := real_short;
     实多空指标数据.real_short_all := real_short;
     实多空指标数据.real_diff_10 := real_long - real_short;
     实多空指标数据.real_diff_20 := real_long - real_short;
     实多空指标数据.real_diff_all := real_long - real_short |}.

Definition netRow (d : string) (net_long net_short : Z) : 净多空指标数据.t :=
  {| 净多空指标数据.trade_date := d;
     净多空指标数据.net_long_10 := net_long;
     净多空指标数据.net_long_20 := net_long;
     净多空指标数据.net_long_all := net_long;
     净多空指标数据.net_short_10 := net_short;
     净多空指标数据.net_short_20 := net_short;
     净多空指标数据.net_short_all := net_short;
     净多空指标数据.net_diff_10 := net_long - net_short;
     净多空指标数据.net_diff_20 := net_long - net_short;
     净多空指标数据.net_diff_all := net_long - net_short |}.

(** CU has one day of real and net indicator history, AL has none, and the
    net query of AL fails. *)
Definition dataService : FilterService.DataService :=
  {| FilterService.getAllWeightedContracts := Some weightedContracts;
     FilterService.getRealLongShortData :=
       fun c => if String.eqb c "CU" then Some [realRow "2024-01-08" 100 50] else Some [];
     FilterService.getNetLongShortData :=
       fun c => if String.eqb c "CU" then Some [netRow "2024-01-08" 5 9] else None |}.

(** Price highest over 5 days, real and net long above short at breadth
    10, real long at its 8-day maximum. *)
Definition params : FilterService.筛选参数 :=
  {| FilterService.p_收盘价条件 :=
       Some (FilterService.mkPriceParams true FilterService.D5 FilterService.highest);
     FilterService.p_实多空比较 :=
       Some (FilterService.mkCompareParams true FilterService.Per10 FilterService.Per10
               FilterService.greater);
     FilterService.p_净多空比较 :=
       Some (FilterService.mkCompareParams true FilterService.Per10 FilterService.Per10
               FilterService.greater);
     FilterService.p_实多极值 :=
       Some (FilterService.mkExtremeParams true FilterService.Per10 FilterService.D8
               FilterService.max);
     FilterService.p_实空极值 := None;
     FilterService.p_实差极值 := None;
     FilterService.p_净多极值 := None;
     FilterService.p_净空极值 := None;
     FilterService.p_净差极值 := None |}.

Definition holding (d contract seatName : string) (long_vol short_vol long_chg short_chg : Z)
    : 席位持仓原始数据.t :=
  {| 席位持仓原始数据.id := 0;
     席位持仓原始数据.trade_date := d;
     席位持仓原始数据.contract_id := contract;
     席位持仓原始数据.secShortName := "沪铜2401";
     席位持仓原始数据.seat_name := seatName;
     席位持仓原始数据.long_vol := long_vol;
     席位持仓原始数据.short_vol := short_vol;
     席位持仓原始数据.long_chg := long_chg;
     席位持仓原始数据.short_chg := short_chg |}.

(** Holdings of three seats in two CU contracts; B and A end with net
    positions +6 and -6, and among the CU holdings B is met first. *)
Definition holdings : list 席位持仓原始数据.t :=
  [ holding "2024-01-02" "AL2401" "A" 50 0 5 0;
    holding "2024-01-02" "CU2401" "B" 10 4 2 1;
    holding "2024-01-02" "CU2402" "A" 3 9 0 1;
    holding "2024-01-02" "CU2402" "B" 1 1 0 0;
    holding "2024-01-03" "CU2401" "B" 7 7 0 0;
    holding "2024-01-02" "CU2401" "C" 20 0 3 0 ].

(** Six seats on one day; the pool has twelve entries and the two of F are
    the smallest.  One seat on the day before. *)
Definition realData : list 席位分析数据.t :=
  [ seat "2024-01-03" "A" 90 10 0 0;
    seat "2024-01-03" "B" 20 80 0 0;
    seat "2024-01-02" "A" 40 15 0 0;
    seat "2024-01-03" "C" 70 30 0 0;
    seat "2024-01-03" "D" 25 60 0 0;
    seat "2024-01-03" "E" 50 45 0 0;
    seat "2024-01-03" "F" 1 3 0 0 ].

(** Holdings in the iron-ore contract I2405 and in the index future
    IC2405, whose code starts with the same letter. *)
Definition prefixHoldings : list 席位持仓原始数据.t :=
  [ holding "2024-01-02" "IC2405" "X" 7 0 0 0;
    holding "2024-01-02" "I2405" "Y" 3 1 0 0 ].


(** Parameters without any condition. *)
Definition noParams : FilterService.筛选参数 :=
  {| FilterService.p_收盘价条件 := None;
     FilterService.p_实多空比较 := None;
     FilterService.p_净多空比较 := None;
     FilterService.p_实多极值 := None;
     FilterService.p_实空极值 := None;
     FilterService.p_实差极值 := None;
     FilterService.p_净多极值 := None;
     FilterService.p_净空极值 := None;
     FilterService.p_净差极值 := None |}.

(** CU with five days of real indicator history, latest first, whose real
    long is at its highest on the latest day; the net queries fail. *)
Definition extremeService : FilterService.DataService :=
  {| FilterService.getAllWeightedContracts := Some weightedContracts;
     FilterService.getRealLongShortData :=
       fun c =>
         if String.eqb c "CU"
         then Some [ realRow "2024-01-08" 100 50; realRow "2024-01-05" 90 50;
                     realRow "2024-01-04" 80 50; realRow "2024-01-03" 70 50;
                     realRow "2024-01-02" 60 50 ]
         else Some [];
     FilterService.getNetLongShortData := fun _ => None |}.

(** Price highest over 5 days, real long above real short at breadth 10,
    real long at its 5-day maximum and real short at its 5-day minimum. *)
Definition extremeParams : FilterService.筛选参数 :=
  {| FilterService.p_收盘价条件 :=
       Some (FilterService.mkPriceParams true FilterService.D5 FilterService.highest);
     FilterService.p_实多空比较 :=
       Some (FilterService.mkCompareParams true FilterService.Per10 FilterService.Per10
               FilterService.greater);
     FilterService.p_净多空比较 := None;
     FilterService.p_实多极值 :=
       Some (FilterService.mkExtremeParams true FilterService.Per10 FilterService.D5
               FilterService.max);
     FilterService.p_实空极值 :=
       Some (FilterService.mkExtremeParams true FilterService.Per10 FilterService.D5
               FilterService.min);
     FilterService.p_实差极值 := None;
     FilterService.p_净多极值 := None;
     FilterService.p_净空极值 := None;
     FilterService.p_净差极值 :=
       Some (FilterService.mkExtremeParams true FilterService.Per10 FilterService.D5
               FilterService.max) |}.


End Sample.

(** * Part II: properties *)

(** ** Facts about the primitives *)

Section SortFacts.
Context {A : Type}.
Variable cmp : A -> A -> Z.

Lemma insert_perm x l : Permutation (x :: l) (Js.insert cmp x l).
Proof.
  induction l as [|y t IH]; simpl; [reflexivity|].
  destruct (cmp x y <=? 0); [reflexivity|].
  rewrite perm_swap. now apply perm_skip.
Qed.

Lemma sort_perm l : Permutation l (Js.sort cmp l).
Proof.
  induction l as [|x l IH]; simpl; [constructor|].
  rewrite <- insert_perm. now apply perm_skip.
Qed.

Lemma sort_length l : List.length (Js.sort cmp l) = List.length l.
Proof. symmetry. apply Permutation_length, sort_perm. Qed.

Lemma sort_In x l : In x (Js.sort cmp l) <-> In x l.
Proof.
  split; apply Permutation_in; [symmetry|]; apply sort_perm.
Qed.

Section Ordered.
Hypothesis cmp_total : forall x y, 0 < cmp x y -> cmp y x <= 0.
Hypothesis cmp_trans :
  forall x y z, Js.before cmp x y -> Js.before cmp y z -> Js.before cmp x z.

Lemma insert_hdrel a x l :
  Js.before cmp a x -> HdRel (Js.before cmp) a l ->
  HdRel (Js.before cmp) a (Js.insert cmp x l).
Proof.
  intros Hax Hl. destruct l as [|y t]; simpl; [now constructor|].
  destruct (cmp x y <=? 0); constructor; auto.
  now inversion Hl.
Qed.

Lemma insert_sorted x l :
  Sorted (Js.before cmp) l -> Sorted (Js.before cmp) (Js.insert cmp x l).
Proof.
  induction 1 as [|y t Ht IH Hhd]; simpl.
  - repeat constructor.
  - destruct (cmp x y <=? 0) eqn:E.
    + constructor; [now constructor|]. constructor.
      now apply Z.leb_le.
    + constructor; [exact IH|].
      apply insert_hdrel; [|exact Hhd].
      apply cmp_total. apply Z.leb_gt in E. lia.
Qed.

Lemma sort_sorted l : StronglySorted (Js.before cmp) (Js.sort cmp l).
Proof.
  apply Sorted_StronglySorted; [exact cmp_trans|].
  induction l as [|x l IH]; simpl; [constructor|].
  now apply insert_sorted.
Qed.

End Ordered.

(** Stability: a class of elements none of which has to follow another
    keeps its input order. *)
Section Stable.
Variable p : A -> bool.
Hypothesis p_tied : forall x y, p x = true -> p y = true -> cmp x y <= 0.

Lemma insert_filter x l :
  filter p (Js.insert cmp x l) = filter p (x :: l).
Proof.
  induction l as [|y t IH]; simpl; [reflexivity|].
  destruct (cmp x y <=? 0) eqn:E; [reflexivity|].
  simpl in *. rewrite IH.
  destruct (p x) eqn:Px, (p y) eqn:Py; try reflexivity.
  apply Z.leb_gt in E. specialize (p_tied x y Px Py). lia.
Qed.

Lemma sort_stable l : filter p (Js.sort cmp l) = filter p l.
Proof.
  induction l as [|x l IH]; simpl; [reflexivity|].
  rewrite insert_filter. simpl. now rewrite IH.
Qed.

End Stable.

End SortFacts.

Lemma StronglySorted_impl {A} (R S : A -> A -> Prop) (l : list A) :
  (forall a b, R a b -> S a b) -> StronglySorted R l -> StronglySorted S l.
Proof.
  intros HRS. induction 1 as [|a t _ IH Hall]; constructor; [exact IH|].
  eapply Forall_impl; [|exact Hall]. intros b. apply HRS.
Qed.

Lemma StronglySorted_map {A B} (R : B -> B -> Prop) (f : A -> B) (l : list A) :
  StronglySorted (fun a b => R (f a) (f b)) l -> StronglySorted R (map f l).
Proof.
  induction 1 as [|x l _ IH Hall]; simpl; constructor; [exact IH|].
  apply Forall_map. exact Hall.
Qed.

(** A sort by a key, largest first. *)
Lemma sort_descending {A} (key : A -> Z) (l : list A) :
  StronglySorted (fun a b => key b <= key a)
    (Js.sort (fun a b => key b - key a) l).
Proof.
  apply StronglySorted_impl with (R := Js.before (fun a b => key b - key a)).
  - unfold Js.before. intros; lia.
  - apply sort_sorted; unfold Js.before; intros; lia.
Qed.

Lemma sort_descending_stable {A} (key : A -> Z) (k : Z) (l : list A) :
  filter (fun a => key a =? k) (Js.sort (fun a b => key b - key a) l)
  = filter (fun a => key a =? k) l.
Proof.
  apply sort_stable. intros x y Hx Hy.
  apply Z.eqb_eq in Hx, Hy. lia.
Qed.

Lemma reduce_sumZ {A} (f : A -> Z) (l : list A) (a : Z) :
  fold_left (fun sum x => sum + f x) l a = a + Js.sumZ (map f l).
Proof.
  revert a. induction l as [|x l IH]; intros a; simpl; [lia|].
  rewrite IH. lia.
Qed.

Lemma sumZ_app l1 l2 : Js.sumZ (l1 ++ l2) = Js.sumZ l1 + Js.sumZ l2.
Proof. induction l1; simpl; lia. Qed.

Lemma sumZ_perm l1 l2 : Permutation l1 l2 -> Js.sumZ l1 = Js.sumZ l2.
Proof. induction 1; simpl; lia. Qed.

Lemma fold_left_snoc {A B} (f : A -> B -> A) (l : list B) (x : B) (a : A) :
  fold_left f (l ++ [x]) a = f (fold_left f l a) x.
Proof. now rewrite fold_left_app. Qed.

Lemma filter_snoc {A} (p : A -> bool) (l : list A) (x : A) :
  filter p (l ++ [x]) = filter p l ++ (if p x then [x] else []).
Proof. rewrite filter_app. reflexivity. Qed.

Lemma filter_filter {A} (p q : A -> bool) (l : list A) :
  filter q (filter p l) = filter (fun x => p x && q x) l.
Proof.
  induction l as [|x l IH]; simpl; [reflexivity|].
  destruct (p x); simpl; [destruct (q x)|]; now rewrite IH.
Qed.

(** An element of a filtered list splits the list it was filtered from. *)
Lemma filter_split {A} (p : A -> bool) (l : list A) x1 a x2 :
  filter p l = x1 ++ a :: x2 ->
  exists y1 y2, l = y1 ++ a :: y2 /\ filter p y1 = x1 /\ filter p y2 = x2.
Proof.
  revert x1. induction l as [|b l IH]; intros x1 H; simpl in H.
  - now destruct x1.
  - destruct (p b) eqn:Pb.
    + destruct x1 as [|c x1]; simpl in H; inversion H; subst.
      * exists [], l. simpl. auto.
      * destruct (IH _ H2) as (y1 & y2 & -> & <- & <-).
        exists (c :: y1), y2. simpl. now rewrite Pb.
    + destruct (IH _ H) as (y1 & y2 & -> & <- & <-).
      exists (b :: y1), y2. simpl. now rewrite Pb.
Qed.

Lemma mem_In x l : Js.mem x l = true <-> In x l.
Proof.
  unfold Js.mem. rewrite existsb_exists. split.
  - intros (y & Hy & E). apply String.eqb_eq in E. now subst.
  - intros H. exists x. split; [exact H|apply String.eqb_refl].
Qed.

Lemma mem_false x l : Js.mem x l = false <-> ~ In x l.
Proof.
  rewrite <- mem_In. destruct (Js.mem x l); split; congruence.
Qed.

Lemma setOf_snoc l x : Js.setOf (l ++ [x]) = Js.setAdd (Js.setOf l) x.
Proof. apply fold_left_snoc. Qed.

Lemma setOf_In x l : In x (Js.setOf l) <-> In x l.
Proof.
  induction l as [|y l IH] using rev_ind; [reflexivity|].
  rewrite setOf_snoc. unfold Js.setAdd.
  destruct (Js.mem y (Js.setOf l)) eqn:E.
  - apply mem_In in E. rewrite in_app_iff, IH. simpl.
    intuition (subst; tauto).
  - rewrite !in_app_iff, IH. reflexivity.
Qed.

Lemma setOf_NoDup l : NoDup (Js.setOf l).
Proof.
  induction l as [|y l IH] using rev_ind; [constructor|].
  rewrite setOf_snoc. unfold Js.setAdd.
  destruct (Js.mem y (Js.setOf l)) eqn:E; [exact IH|].
  apply mem_false in E.
  apply NoDup_rev in IH. rewrite <- (rev_involutive (_ ++ _)).
  apply NoDup_rev. rewrite rev_app_distr. simpl.
  constructor; [|exact IH]. now rewrite <- in_rev.
Qed.

(** ** Facts about [JsMap] *)

Lemma get_In {V} k (v : V) m : JsMap.get k m = Some v -> In (k, v) m.
Proof.
  induction m as [|[k' v'] m IH]; simpl; [discriminate|].
  destruct (String.eqb k k') eqn:E.
  - apply String.eqb_eq in E. intros [= ->]. subst. now left.
  - intros H. right. now apply IH.
Qed.

Lemma get_None {V} k (m : JsMap.t V) :
  JsMap.get k m = None <-> ~ In k (JsMap.keys m).
Proof.
  induction m as [|[k' v'] m IH]; simpl; [tauto|].
  destruct (String.eqb k k') eqn:E.
  - apply String.eqb_eq in E. subst. split; [discriminate|tauto].
  - apply String.eqb_neq in E. rewrite IH. intuition congruence.
Qed.

Lemma has_mem {V} k (m : JsMap.t V) : JsMap.has k m = Js.mem k (JsMap.keys m).
Proof.
  unfold JsMap.has. destruct (JsMap.get k m) eqn:E.
  - symmetry. apply mem_In. apply get_In in E.
    change k with (fst (k, v)). now apply in_map.
  - symmetry. apply mem_false. now apply get_None.
Qed.

Lemma keys_set {V} k (v : V) m :
  JsMap.keys (JsMap.set k v m) = Js.setAdd (JsMap.keys m) k.
Proof.
  unfold Js.setAdd, Js.mem.
  induction m as [|[k' v'] m IH]; simpl; [reflexivity|].
  destruct (String.eqb k k') eqn:E; simpl.
  - apply String.eqb_eq in E. now subst.
  - rewrite IH. now destruct (existsb (String.eqb k) (JsMap.keys m)).
Qed.

Lemma set_In_inv {V} k (v : V) m k' v' :
  NoDup (JsMap.keys m) -> In (k', v') (JsMap.set k v m) ->
  (k' = k /\ v' = v) \/ (k' <> k /\ In (k', v') m).
Proof.
  induction m as [|[k0 v0] m IH]; simpl; intros ND H.
  - destruct H as [[= <- <-]|[]]. now left.
  - inversion ND as [|? ? Hk0 ND']; subst.
    destruct (String.eqb k k0) eqn:E.
    + apply String.eqb_eq in E. subst k0.
      destruct H as [[= <- <-]|H]; [now left|].
      right. split; [|now right].
      intros ->. apply Hk0. change k with (fst (k, v')). now apply in_map.
    + apply String.eqb_neq in E.
      destruct H as [[= <- <-]|H]; [right; split; [congruence|now left]|].
      destruct (IH ND' H) as [?|[? ?]]; [now left|right; split; [|right]; assumption].
Qed.

Lemma set_get_same {V} k (v : V) m : JsMap.get k (JsMap.set k v m) = Some v.
Proof.
  induction m as [|[k0 v0] m IH]; simpl.
  - now rewrite String.eqb_refl.
  - destruct (String.eqb k k0) eqn:E; simpl.
    + now rewrite String.eqb_refl.
    + now rewrite E.
Qed.

Lemma setAdd_NoDup s x : NoDup s -> NoDup (Js.setAdd s x).
Proof.
  intros ND. unfold Js.setAdd. destruct (Js.mem x s) eqn:E; [exact ND|].
  apply mem_false in E.
  apply NoDup_rev in ND. rewrite <- (rev_involutive (_ ++ _)).
  apply NoDup_rev. rewrite rev_app_distr. simpl.
  constructor; [|exact ND]. now rewrite <- in_rev.
Qed.

(** ** Seat Position Aggregator *)

Lemma filter_isSeat_absent k hs :
  ~ In k (map 席位持仓原始数据.seat_name hs) -> filter (Spec.isSeat k) hs = [].
Proof.
  induction hs as [|h hs IH]; simpl; [reflexivity|].
  intros H. unfold Spec.isSeat at 1.
  destruct (String.eqb (席位持仓原始数据.seat_name h) k) eqn:E.
  - apply String.eqb_eq in E. tauto.
  - apply IH. tauto.
Qed.

Lemma accumulate_aggregated c d hs m h :
  Spec.aggregated hs m ->
  Spec.aggregated (hs ++ [h]) (DataCalculator.accumulate c d m h).
Proof.
  intros [Hkeys Hval].
  assert (ND : NoDup (JsMap.keys m)) by (rewrite Hkeys; apply setOf_NoDup).
  split.
  - rewrite map_app. cbn [map]. rewrite setOf_snoc, <- Hkeys.
    unfold DataCalculator.accumulate.
    destruct (JsMap.get _ m); apply keys_set.
  - intros k v Hin. unfold DataCalculator.accumulate in Hin.
    rewrite !filter_snoc, !map_app, !sumZ_app.
    destruct (JsMap.get (席位持仓原始数据.seat_name h) m) as [e|] eqn:G.
    + apply set_In_inv in Hin; [|exact ND].
      destruct Hin as [[-> ->]|[Hne Hin]].
      * apply get_In in G. destruct (Hval _ _ G) as (E0 & E1 & E2 & E3 & E4).
        unfold Spec.isSeat at 2 4 6 8. rewrite String.eqb_refl. simpl.
        rewrite <- E1, <- E2, <- E3, <- E4. repeat split; try lia. exact E0.
      * destruct (Hval _ _ Hin) as (E0 & E1 & E2 & E3 & E4).
        unfold Spec.isSeat at 2 4 6 8.
        replace (String.eqb (席位持仓原始数据.seat_name h) k) with false
          by (symmetry; apply String.eqb_neq; congruence).
        simpl. repeat split; try lia. exact E0.
    + apply set_In_inv in Hin; [|exact ND].
      destruct Hin as [[-> ->]|[Hne Hin]].
      * apply get_None in G. rewrite Hkeys, setOf_In in G.
        rewrite (filter_isSeat_absent _ _ G).
        unfold Spec.isSeat. rewrite String.eqb_refl. simpl.
        repeat split; lia.
      * destruct (Hval _ _ Hin) as (E0 & E1 & E2 & E3 & E4).
        unfold Spec.isSeat at 2 4 6 8.
        replace (String.eqb (席位持仓原始数据.seat_name h) k) with false
          by (symmetry; apply String.eqb_neq; congruence).
        simpl. repeat split; try lia. exact E0.
Qed.

Lemma seatMap_aggregated c d hs :
  Spec.aggregated hs (fold_left (DataCalculator.accumulate c d) hs JsMap.empty).
Proof.
  induction hs as [|h hs IH] using rev_ind.
  - split; [reflexivity|]. intros k v [].
  - rewrite fold_left_snoc. now apply accumulate_aggregated.
Qed.

Lemma seat_names_of_values m hs :
  Spec.aggregated hs m ->
  map 席位分析数据.seat_name (map DataCalculator.withNet (JsMap.values m))
  = JsMap.keys m.
Proof.
  intros [_ Hval]. unfold JsMap.values, JsMap.keys.
  rewrite !map_map. apply map_ext_in. intros [k v] Hin. simpl.
  now destruct (Hval _ _ Hin).
Qed.

Lemma calculateSeatAnalysis_unfold hd c d :
  DataCalculator.calculateSeatAnalysis hd c d
  = Js.sort DataCalculator.byAbsNetVol
      (map DataCalculator.withNet
         (JsMap.values
            (fold_left (DataCalculator.accumulate c d)
               (filter (DataCalculator.holdingMatches c d) hd) JsMap.empty))).
Proof.
  unfold DataCalculator.calculateSeatAnalysis.
  destruct (filter (DataCalculator.holdingMatches c d) hd); reflexivity.
Qed.

(** C5: every row returned by [calculateSeatAnalysis] has
    [net_vol = long_vol - short_vol] and [net_chg = long_chg - short_chg],
    where the four volumes are the sums of the fields over all holdings of
    the row's seat that match the commodity and the date; and the rows are
    one per seat that has such a holding. *)
Theorem calculateSeatAnalysis_net_invariant
    (holdingData : list 席位持仓原始数据.t) (commodityId tradeDate : string) :
  let rows := DataCalculator.calculateSeatAnalysis holdingData commodityId tradeDate in
  Forall
    (fun r =>
       let mine := Spec.holdingsOf holdingData commodityId tradeDate (席位分析数据.seat_name r) in
       席位分析数据.net_vol r = 席位分析数据.long_vol r - 席位分析数据.short_vol r /\
       席位分析数据.net_chg r = 席位分析数据.long_chg r - 席位分析数据.short_chg r /\
       席位分析数据.long_vol r = Js.sumZ (map 席位持仓原始数据.long_vol mine) /\
       席位分析数据.short_vol r = Js.sumZ (map 席位持仓原始数据.short_vol mine) /\
       席位分析数据.long_chg r = Js.sumZ (map 席位持仓原始数据.long_chg mine) /\
       席位分析数据.short_chg r = Js.sumZ (map 席位持仓原始数据.short_chg mine))
    rows /\
  Permutation (map 席位分析数据.seat_name rows)
    (Js.setOf
       (map 席位持仓原始数据.seat_name
          (filter (DataCalculator.holdingMatches commodityId tradeDate) holdingData))).
Proof.
  cbv zeta. rewrite calculateSeatAnalysis_unfold.
  set (hs := filter (DataCalculator.holdingMatches commodityId tradeDate) holdingData).
  pose proof (seatMap_aggregated commodityId tradeDate hs) as Hagg.
  set (m := fold_left _ hs JsMap.empty) in *.
  split.
  - apply Forall_forall. intros r Hr.
    apply sort_In in Hr. apply in_map_iff in Hr. destruct Hr as (v & <- & Hv).
    apply in_map_iff in Hv. destruct Hv as ([k v'] & E & Hin). simpl in E. subst v'.
    destruct Hagg as [_ Hval].
    destruct (Hval _ _ Hin) as (E0 & E1 & E2 & E3 & E4).
    unfold Spec.holdingsOf. rewrite <- filter_filter. fold hs.
    simpl. rewrite E0, E1, E2, E3, E4. repeat split; reflexivity.
  - rewrite <- (proj1 Hagg), <- (seat_names_of_values m hs Hagg).
    apply Permutation_map. symmetry. apply sort_perm.
Qed.

Lemma firstBefore_snoc s t l x :
  Spec.firstBefore s t l -> Spec.firstBefore s t (l ++ [x]).
Proof.
  intros (pre & post & -> & Hpre & Hpost).
  exists pre, (post ++ [x]). repeat split.
  - now rewrite <- app_assoc.
  - exact Hpre.
  - apply in_or_app. now left.
Qed.

(** A set lists its elements in the order of their first occurrences. *)
Lemma setOf_order l k1 s k2 t k3 :
  Js.setOf l = k1 ++ s :: k2 ++ t :: k3 -> Spec.firstBefore s t l.
Proof.
  revert k1 s k2 t k3.
  induction l as [|x l IH] using rev_ind; intros k1 s k2 t k3 H.
  - now destruct k1.
  - rewrite setOf_snoc in H. unfold Js.setAdd in H.
    destruct (Js.mem x (Js.setOf l)) eqn:E.
    + apply firstBefore_snoc. eapply IH; eassumption.
    + apply mem_false in E.
      destruct k3 as [|y k3 _] using rev_ind.
      * change (k1 ++ s :: k2 ++ [t]) with (k1 ++ (s :: k2) ++ [t]) in H.
        rewrite app_assoc in H. apply app_inj_tail in H. destruct H as [H ->].
        assert (Hs : In s l).
        { apply setOf_In. rewrite H. apply in_or_app. right. now left. }
        rewrite setOf_In in E.
        destruct (in_split _ _ Hs) as (pre & post & ->).
        exists pre, (post ++ [t]). repeat split.
        -- now rewrite <- app_assoc.
        -- intros Hin. apply E. apply in_app_or in Hin.
           apply in_or_app. destruct Hin as [Hin|[<-|[]]]; [now left|].
           right. now left.
        -- apply in_or_app. right. now left.
      * replace (k1 ++ s :: k2 ++ t :: k3 ++ [y])
          with ((k1 ++ s :: k2 ++ t :: k3) ++ [y]) in H
          by (rewrite <- app_assoc; simpl; now rewrite <- app_assoc).
        apply app_inj_tail in H. destruct H as [H _].
        apply firstBefore_snoc. eapply IH; eassumption.
Qed.

(** C6: [calculateSeatAnalysis] returns the seat summaries by decreasing
    absolute net position, and two summaries of equal absolute net position
    come in the order in which their seats first appear among the holdings
    of the commodity and date. *)
Theorem calculateSeatAnalysis_sorted_stable
    (holdingData : list 席位持仓原始数据.t) (commodityId tradeDate : string) :
  let rows := DataCalculator.calculateSeatAnalysis holdingData commodityId tradeDate in
  StronglySorted
    (fun a b => Z.abs (席位分析数据.net_vol b) <= Z.abs (席位分析数据.net_vol a)) rows /\
  forall o1 a o2 b o3,
    rows = o1 ++ a :: o2 ++ b :: o3 ->
    Z.abs (席位分析数据.net_vol a) = Z.abs (席位分析数据.net_vol b) ->
    Spec.firstBefore (席位分析数据.seat_name a) (席位分析数据.seat_name b)
      (map 席位持仓原始数据.seat_name
         (filter (DataCalculator.holdingMatches commodityId tradeDate) holdingData)).
Proof.
  cbv zeta. rewrite calculateSeatAnalysis_unfold.
  set (hs := filter (DataCalculator.holdingMatches commodityId tradeDate) holdingData).
  pose proof (seatMap_aggregated commodityId tradeDate hs) as Hagg.
  set (m := fold_left _ hs JsMap.empty) in *.
  set (key := fun r => Z.abs (席位分析数据.net_vol r)).
  change DataCalculator.byAbsNetVol with (fun a b => key b - key a).
  split.
  - apply (sort_descending key).
  - intros o1 a o2 b o3 Hrows Htie.
    pose proof (sort_descending_stable key (key a)
                  (map DataCalculator.withNet (JsMap.values m))) as Hst.
    rewrite Hrows in Hst.
    rewrite filter_app in Hst. simpl in Hst. rewrite Z.eqb_refl in Hst.
    rewrite filter_app in Hst. simpl in Hst.
    replace (key b =? key a) with true in Hst
      by (symmetry; apply Z.eqb_eq; unfold key; lia).
    symmetry in Hst.
    destruct (filter_split _ _ _ _ _ Hst) as (y1 & y2 & Hl & _ & Hy2).
    destruct (filter_split _ _ _ _ _ Hy2) as (z1 & z2 & -> & _ & _).
    apply (f_equal (map 席位分析数据.seat_name)) in Hl.
    rewrite (seat_names_of_values m hs Hagg), (proj1 Hagg) in Hl.
    rewrite map_app in Hl. cbn [map] in Hl. rewrite map_app in Hl. cbn [map] in Hl.
    eapply setOf_order. exact Hl.
Qed.

(** ** Indicator Engine: grouping by date *)

Lemma filter_absent {A} (f : A -> string) k (l : list A) :
  ~ In k (map f l) -> filter (fun x => String.eqb (f x) k) l = [].
Proof.
  induction l as [|x l IH]; simpl; [reflexivity|].
  intros H. destruct (String.eqb (f x) k) eqn:E.
  - apply String.eqb_eq in E. tauto.
  - apply IH. tauto.
Qed.

Lemma setAdd_idem s x : Js.setAdd (Js.setAdd s x) x = Js.setAdd s x.
Proof.
  unfold Js.setAdd at 2 3. destruct (Js.mem x s) eqn:E.
  - unfold Js.setAdd. now rewrite E.
  - unfold Js.setAdd.
    replace (Js.mem x (s ++ [x])) with true; [reflexivity|].
    symmetry. apply mem_In. apply in_or_app. right. now left.
Qed.

Lemma pushByDate_grouped sd m item :
  Spec.grouped sd m ->
  Spec.grouped (sd ++ [item]) (IndicatorCalculator.pushByDate m item).
Proof.
  intros [Hkeys Hval].
  assert (ND : NoDup (JsMap.keys m)) by (rewrite Hkeys; apply setOf_NoDup).
  unfold IndicatorCalculator.pushByDate.
  set (d := 席位分析数据.trade_date item).
  unfold JsMap.has. destruct (JsMap.get d m) as [day|] eqn:G.
  - rewrite G. split.
    + rewrite map_app. cbn [map]. rewrite setOf_snoc, <- Hkeys. apply keys_set.
    + intros k v Hin. unfold Spec.dayOf. rewrite filter_snoc.
      apply set_In_inv in Hin; [|exact ND].
      destruct Hin as [[-> ->]|[Hne Hin]].
      * unfold Spec.onDate at 2. fold d. rewrite String.eqb_refl.
        f_equal. apply Hval. now apply get_In.
      * unfold Spec.onDate at 2. fold d.
        replace (String.eqb d k) with false
          by (symmetry; apply String.eqb_neq; congruence).
        rewrite app_nil_r. now apply Hval.
  - rewrite set_get_same. split.
    + rewrite map_app. cbn [map]. rewrite setOf_snoc, <- Hkeys.
      rewrite !keys_set. apply setAdd_idem.
    + intros k v Hin. unfold Spec.dayOf. rewrite filter_snoc.
      apply set_In_inv in Hin; [|rewrite keys_set; now apply setAdd_NoDup].
      destruct Hin as [[-> ->]|[Hne Hin]].
      * unfold Spec.onDate at 2. fold d. rewrite String.eqb_refl.
        apply get_None in G. rewrite Hkeys, setOf_In in G.
        unfold Spec.onDate.
        now rewrite (filter_absent 席位分析数据.trade_date d sd G).
      * apply set_In_inv in Hin; [|exact ND].
        destruct Hin as [[? _]|[_ Hin]]; [congruence|].
        unfold Spec.onDate at 2. fold d.
        replace (String.eqb d k) with false
          by (symmetry; apply String.eqb_neq; congruence).
        rewrite app_nil_r. now apply Hval.
Qed.

Lemma groupByDate_grouped sd :
  Spec.grouped sd (IndicatorCalculator.groupByDate sd).
Proof.
  unfold IndicatorCalculator.groupByDate.
  induction sd as [|item sd IH] using rev_ind.
  - split; [reflexivity|]. intros d day [].
  - rewrite fold_left_snoc. now apply pushByDate_grouped.
Qed.

(** Dates are ordered by [localeCompare]. *)
Lemma localeCompare_le a b : Js.localeCompare a b <= 0 <-> Spec.dateLe a b.
Proof.
  unfold Js.localeCompare, Spec.dateLe.
  destruct (String.compare a b); split; intros; try lia; congruence.
Qed.

Lemma localeCompare_total a b :
  0 < Js.localeCompare a b -> Js.localeCompare b a <= 0.
Proof.
  unfold Js.localeCompare. rewrite (String.compare_antisym b a).
  destruct (String.compare a b); simpl; lia.
Qed.

Lemma dateLe_trans a b c : Spec.dateLe a b -> Spec.dateLe b c -> Spec.dateLe a c.
Proof.
  unfold Spec.dateLe. intros Hab Hbc.
  destruct (String.compare a b) eqn:Eab; [| |congruence].
  - apply String.compare_eq_iff in Eab. now subst.
  - destruct (String.compare b c) eqn:Ebc; [| |congruence].
    + apply String.compare_eq_iff in Ebc. subst. now rewrite Eab.
    + assert (H : String_as_OT.lt a c).
      { transitivity b; assumption. }
      unfold String_as_OT.lt in H.
      change (String_as_OT.compare a c) with (String.compare a c) in H.
      now rewrite H.
Qed.

(** Sorting records by [a.trade_date.localeCompare(b.trade_date)]. *)
Lemma sort_by_date {A} (dateOf : A -> string) (l : list A) :
  StronglySorted (fun a b => Spec.dateLe (dateOf a) (dateOf b))
    (Js.sort (fun a b => Js.localeCompare (dateOf a) (dateOf b)) l).
Proof.
  apply StronglySorted_impl
    with (R := Js.before (fun a b => Js.localeCompare (dateOf a) (dateOf b))).
  - unfold Js.before. intros a b. apply localeCompare_le.
  - apply sort_sorted; unfold Js.before.
    + intros x y. apply localeCompare_total.
    + intros x y z. rewrite !localeCompare_le. apply dateLe_trans.
Qed.

(** ** Indicator Engine: real long/short *)

Lemma fold_left_map {A B C} (f : A -> C -> A) (g : B -> C) (l : list B) (a : A) :
  fold_left (fun s x => f s (g x)) l a = fold_left f (map g l) a.
Proof.
  revert a. induction l as [|x l IH]; intros a; simpl; [reflexivity|apply IH].
Qed.

Lemma involvedSeats_setOf selected :
  IndicatorCalculator.involvedSeats selected
  = Js.setOf (map IndicatorCalculator.seat_name selected).
Proof. apply fold_left_map. Qed.

Lemma netVolOf_snoc day r k :
  Spec.netVolOf (day ++ [r]) k
  = if String.eqb (席位分析数据.seat_name r) k
    then 席位分析数据.net_vol r else Spec.netVolOf day k.
Proof.
  unfold Spec.netVolOf. rewrite rev_app_distr. simpl.
  now destruct (String.eqb (席位分析数据.seat_name r) k).
Qed.

Lemma seatNetPositions_positioned involved day :
  Spec.positioned involved day (IndicatorCalculator.seatNetPositions involved day).
Proof.
  unfold IndicatorCalculator.seatNetPositions.
  induction day as [|r day IH] using rev_ind.
  - split; [reflexivity|]. intros k v [].
  - rewrite fold_left_snoc. destruct IH as [Hkeys Hval].
    set (m := fold_left _ day JsMap.empty) in *.
    assert (ND : NoDup (JsMap.keys m)) by (rewrite Hkeys; apply setOf_NoDup).
    unfold Spec.positioned. rewrite filter_snoc.
    destruct (Js.mem (席位分析数据.seat_name r) involved) eqn:E.
    + split.
      * rewrite map_app. cbn [map]. rewrite setOf_snoc, <- Hkeys. apply keys_set.
      * intros k v Hin. rewrite netVolOf_snoc.
        apply set_In_inv in Hin; [|exact ND].
        destruct Hin as [[-> ->]|[Hne Hin]].
        -- now rewrite String.eqb_refl.
        -- replace (String.eqb (席位分析数据.seat_name r) k) with false
             by (symmetry; apply String.eqb_neq; congruence).
           now apply Hval.
    + rewrite app_nil_r. split; [exact Hkeys|].
      intros k v Hin. rewrite netVolOf_snoc.
      replace (String.eqb (席位分析数据.seat_name r) k) with false;
        [now apply Hval|].
      symmetry. apply String.eqb_neq. intros Heq.
      assert (Hk : In k (JsMap.keys m)).
      { change k with (fst (k, v)). now apply in_map. }
      rewrite Hkeys, setOf_In, in_map_iff in Hk.
      destruct Hk as (r' & <- & Hr'). apply filter_In in Hr'.
      rewrite Heq in E. destruct Hr' as [_ Hr']. congruence.
Qed.

Lemma accumulateReal_sums (l : list (string * Z)) a b :
  fold_left IndicatorCalculator.accumulateReal l (a, b)
  = (a + Js.sumZ (map (fun e => Spec.longPart (snd e)) l),
     b + Js.sumZ (map (fun e => Spec.shortPart (snd e)) l)).
Proof.
  revert a b. induction l as [|[k v] l IH]; intros a b.
  - simpl. f_equal; lia.
  - cbn [fold_left map Js.sumZ fold_right snd].
    unfold IndicatorCalculator.accumulateReal at 2. cbn [fst snd].
    unfold Spec.longPart at 1, Spec.shortPart at 1.
    destruct (0 <? v) eqn:Hp; [|destruct (v <? 0) eqn:Hn]; rewrite IH.
    + apply Z.ltb_lt in Hp.
      replace (v <? 0) with false by (symmetry; apply Z.ltb_ge; lia).
      fold (Js.sumZ (map (fun e => Spec.longPart (snd e)) l)).
      fold (Js.sumZ (map (fun e => Spec.shortPart (snd e)) l)).
      f_equal; lia.
    + fold (Js.sumZ (map (fun e => Spec.longPart (snd e)) l)).
      fold (Js.sumZ (map (fun e => Spec.shortPart (snd e)) l)).
      f_equal; lia.
    + fold (Js.sumZ (map (fun e => Spec.longPart (snd e)) l)).
      fold (Js.sumZ (map (fun e => Spec.shortPart (snd e)) l)).
      f_equal; lia.
Qed.

Lemma firstn_In {A} (x : A) n l : In x (firstn n l) -> In x l.
Proof.
  intros H. rewrite <- (firstn_skipn n l). apply in_or_app. now left.
Qed.

Lemma selectTop_In {A} (x : A) n l :
  In x (IndicatorCalculator.selectTop n l) -> In x l.
Proof.
  destruct n as [k|]; simpl; [apply firstn_In|auto].
Qed.

Lemma pool_seat_in_day day e :
  In e (IndicatorCalculator.combinedVolumes day) ->
  In (IndicatorCalculator.seat_name e) (map 席位分析数据.seat_name day).
Proof.
  unfold IndicatorCalculator.combinedVolumes. rewrite sort_In, in_flat_map.
  intros (r & Hr & He). apply in_map_iff. exists r. split; [|exact Hr].
  destruct He as [<-|[<-|[]]]; reflexivity.
Qed.

(** The seats whose net positions are summed are the distinct seats of the
    selected entries. *)
Lemma positions_keys_perm day n m :
  let selected :=
    IndicatorCalculator.selectTop n (IndicatorCalculator.combinedVolumes day) in
  Spec.positioned (IndicatorCalculator.involvedSeats selected) day m ->
  Permutation (JsMap.keys m) (Spec.distinctSeats selected).
Proof.
  intros selected [Hkeys _].
  apply NoDup_Permutation.
  - rewrite Hkeys. apply setOf_NoDup.
  - apply NoDup_nodup.
  - intros k. rewrite Hkeys, setOf_In. unfold Spec.distinctSeats.
    rewrite nodup_In, in_map_iff. split.
    + intros (r & <- & Hr). apply filter_In in Hr. destruct Hr as [_ Hr].
      apply mem_In in Hr. now rewrite involvedSeats_setOf, setOf_In in Hr.
    + intros Hk. pose proof Hk as Hk'.
      apply in_map_iff in Hk'. destruct Hk' as (e & <- & He).
      apply selectTop_In, pool_seat_in_day in He.
      apply in_map_iff in He. destruct He as (r & Er & Hr).
      exists r. split; [exact Er|]. apply filter_In. split; [exact Hr|].
      apply mem_In. rewrite involvedSeats_setOf, setOf_In. now rewrite Er.
Qed.

Lemma realForTopN_spec day n :
  IndicatorCalculator.realForTopN day (IndicatorCalculator.combinedVolumes day) n
  = Spec.realSpec day n.
Proof.
  unfold IndicatorCalculator.realForTopN, Spec.realSpec. cbv zeta.
  set (selected :=
         IndicatorCalculator.selectTop n (IndicatorCalculator.combinedVolumes day)).
  pose proof (seatNetPositions_positioned
                (IndicatorCalculator.involvedSeats selected) day) as Hpos.
  set (m := IndicatorCalculator.seatNetPositions _ day) in *.
  pose proof (positions_keys_perm day n m Hpos) as Hperm. fold selected in Hperm.
  rewrite accumulateReal_sums. simpl.
  assert (HL : Js.sumZ (map (fun e => Spec.longPart (snd e)) m)
               = Js.sumZ (map (fun s => Spec.longPart (Spec.netVolOf day s))
                            (Spec.distinctSeats selected))).
  { rewrite <- (sumZ_perm _ _ (Permutation_map _ Hperm)).
    unfold JsMap.keys. rewrite map_map. f_equal. apply map_ext_in.
    intros [k v] Hin. simpl. now rewrite (proj2 Hpos _ _ Hin). }
  assert (HS : Js.sumZ (map (fun e => Spec.shortPart (snd e)) m)
               = Js.sumZ (map (fun s => Spec.shortPart (Spec.netVolOf day s))
                            (Spec.distinctSeats selected))).
  { rewrite <- (sumZ_perm _ _ (Permutation_map _ Hperm)).
    unfold JsMap.keys. rewrite map_map. f_equal. apply map_ext_in.
    intros [k v] Hin. simpl. now rewrite (proj2 Hpos _ _ Hin). }
  rewrite HL, HS. reflexivity.
Qed.

Lemma realOfDay_spec d day :
  IndicatorCalculator.realOfDay (d, day) = Spec.realRowSpec d day.
Proof.
  unfold IndicatorCalculator.realOfDay, Spec.realRowSpec. cbv zeta. cbn [fst snd].
  now rewrite !realForTopN_spec.
Qed.

Lemma results_dates_perm {A B} (f : string * A -> B) (dateOf : B -> string)
    (cmp : B -> B -> Z) (groups : JsMap.t A) :
  (forall g, dateOf (f g) = fst g) ->
  Permutation (JsMap.keys groups) (map dateOf (Js.sort cmp (map f groups))).
Proof.
  intros Hdate. rewrite <- (sort_perm cmp), map_map.
  unfold JsMap.keys.
  rewrite (map_ext (fun g => dateOf (f g)) fst Hdate). reflexivity.
Qed.

(** ** Rankings *)

Lemma filter_map_swap {A B} (f : A -> B) (p : B -> bool) (l : list A) :
  filter p (map f l) = map f (filter (fun a => p (f a)) l).
Proof.
  induction l as [|x l IH]; [reflexivity|]. cbn [map filter].
  destruct (p (f x)); cbn [map]; now rewrite IH.
Qed.

(** The stable sort by a key, largest first, is a ranking. *)
Lemma sort_ranking {A} (key : A -> Z) (l : list A) :
  Spec.ranking key l (Js.sort (fun a b => key b - key a) l).
Proof.
  split; [symmetry; apply sort_perm|]. split.
  - apply sort_descending.
  - intros v. apply sort_descending_stable.
Qed.

(** A ranking read through a map that keeps the keys. *)
Lemma ranking_map {A B} (h : A -> B) (keyA : A -> Z) (keyB : B -> Z) (l ranked : list A) :
  (forall a, keyB (h a) = keyA a) ->
  Spec.ranking keyA l ranked -> Spec.ranking keyB (map h l) (map h ranked).
Proof.
  intros Hkey (Hperm & Hsorted & Hstable). split; [now apply Permutation_map|]. split.
  - apply StronglySorted_map.
    eapply StronglySorted_impl; [|exact Hsorted]. intros a b. cbv beta. now rewrite !Hkey.
  - intros v. rewrite !filter_map_swap.
    rewrite !(filter_ext (fun a => keyB (h a) =? v) (fun a => keyA a =? v))
      by (intros a; now rewrite Hkey).
    now rewrite Hstable.
Qed.

(** A list has one ranking only. *)
Lemma ranking_unique {A} (key : A -> Z) (l r1 r2 : list A) :
  Spec.ranking key l r1 -> Spec.ranking key l r2 -> r1 = r2.
Proof.
  intros (_ & S1 & F1) (_ & S2 & F2).
  assert (F : forall v, filter (fun a => key a =? v) r1 = filter (fun a => key a =? v) r2)
    by (intros v; now rewrite F1, F2).
  clear F1 F2 l. revert r2 S2 F.
  induction S1 as [|a t1 S1 IH Ha]; intros r2 S2 F.
  - destruct r2 as [|b t2]; [reflexivity|].
    specialize (F (key b)). cbn [filter] in F. rewrite Z.eqb_refl in F. discriminate.
  - destruct S2 as [|b t2 S2 Hb].
    { specialize (F (key a)). cbn [filter] in F. rewrite Z.eqb_refl in F. discriminate. }
    rewrite Forall_forall in Ha, Hb.
    assert (Hab : key a = key b).
    { apply Z.le_antisymm.
      - assert (Hin : In a (filter (fun x => key x =? key a) (b :: t2))).
        { rewrite <- F. cbn [filter]. rewrite Z.eqb_refl. now left. }
        apply filter_In in Hin. destruct Hin as [[<- | Hin] _]; [lia|].
        now apply Hb.
      - assert (Hin : In b (filter (fun x => key x =? key b) (a :: t1))).
        { rewrite F. cbn [filter]. rewrite Z.eqb_refl. now left. }
        apply filter_In in Hin. destruct Hin as [[<- | Hin] _]; [lia|].
        now apply Ha. }
    pose proof (F (key a)) as Fa. cbn [filter] in Fa.
    rewrite Z.eqb_refl in Fa. rewrite <- Hab, Z.eqb_refl in Fa.
    injection Fa as <- Ft. f_equal. apply IH; [exact S2|].
    intros v. destruct (Z.eq_dec v (key a)) as [-> | Hv]; [exact Ft|].
    specialize (F v). cbn [filter] in F.
    assert (E : (key a =? v) = false) by (apply Z.eqb_neq; congruence).
    now rewrite E in F.
Qed.

Lemma pool_entries day :
  map (fun e => (IndicatorCalculator.seat_name e, IndicatorCalculator.volume e))
    (flat_map IndicatorCalculator.entriesOf day)
  = Spec.poolOf day.
Proof.
  unfold Spec.poolOf. induction day as [|x day IH]; [reflexivity|].
  cbn [flat_map]. rewrite map_app, IH. reflexivity.
Qed.

(** The pool the code sorts is the ranking of the pool of the day. *)
Lemma combinedVolumes_ranking day :
  Spec.ranking snd (Spec.poolOf day)
    (map (fun e => (IndicatorCalculator.seat_name e, IndicatorCalculator.volume e))
       (IndicatorCalculator.combinedVolumes day)).
Proof.
  rewrite <- pool_entries.
  apply (ranking_map _ IndicatorCalculator.volume); [reflexivity|].
  apply (sort_ranking IndicatorCalculator.volume).
Qed.

Lemma realSpec_realOf day (n : IndicatorCalculator.Breadth) (breadth : option nat) :
  breadth = match n with
            | IndicatorCalculator.Top k => Some k
            | IndicatorCalculator.All => None
            end ->
  let r := Spec.realSpec day n in
  (IndicatorCalculator.realLong r, IndicatorCalculator.realShort r,
   IndicatorCalculator.realDiff r)
  = Spec.realOf day
      (map (fun e => (IndicatorCalculator.seat_name e, IndicatorCalculator.volume e))
         (IndicatorCalculator.combinedVolumes day))
      breadth.
Proof.
  intros ->. unfold Spec.realSpec, Spec.realOf, Spec.distinctSeats. cbv zeta.
  cbn [IndicatorCalculator.realLong IndicatorCalculator.realShort
       IndicatorCalculator.realDiff].
  assert (E : map fst
                (Spec.top match n with
                          | IndicatorCalculator.Top k => Some k
                          | IndicatorCalculator.All => None
                          end
                   (map (fun e => (IndicatorCalculator.seat_name e,
                                   IndicatorCalculator.volume e))
                      (IndicatorCalculator.combinedVolumes day)))
              = map IndicatorCalculator.seat_name
                  (IndicatorCalculator.selectTop n (IndicatorCalculator.combinedVolumes day))).
  { destruct n as [k|]; cbn [Spec.top IndicatorCalculator.selectTop]; unfold Js.slice0;
      rewrite ?firstn_map, map_map; reflexivity. }
  now rewrite E.
Qed.

(** C1: [calculateRealLongShort] returns one row per trading date of the
    input, in ascending order of date.  The pool of a date holds every row
    of the date twice, once with its [long_vol] and once with its
    [short_vol]; it is ranked by volume, largest first, equal volumes in
    pool order, and that ranking is unique.  At the breadths 10, 20 and all
    the row's values are taken over the distinct seat names of the first
    10, the first 20 and all entries of the ranking: realLong adds the
    positive net positions of those seats, realShort the absolute values of
    the negative ones, and realDiff is their difference.  On the sample, a
    day of six seats whose pool has twelve entries, the two smallest
    entries are those of seat F (net position -2), which is left out at
    breadth 10 and counted at breadths 20 and all. *)
Theorem calculateRealLongShort_spec (seatData : list 席位分析数据.t) :
  let results := IndicatorCalculator.calculateRealLongShort seatData in
  StronglySorted
    (fun a b => Spec.dateLe (实多空指标数据.trade_date a) (实多空指标数据.trade_date b))
    results /\
  NoDup (map 实多空指标数据.trade_date results) /\
  (forall d, In d (map 实多空指标数据.trade_date results)
             <-> In d (map 席位分析数据.trade_date seatData)) /\
  Forall
    (fun r =>
       let dayData := Spec.dayOf seatData (实多空指标数据.trade_date r) in
       exists rankedPool,
         Spec.ranking snd (Spec.poolOf dayData) rankedPool /\
         (forall other, Spec.ranking snd (Spec.poolOf dayData) other -> other = rankedPool) /\
         (实多空指标数据.real_long_10 r, 实多空指标数据.real_short_10 r,
          实多空指标数据.real_diff_10 r)
         = Spec.realOf dayData rankedPool (Some 10%nat) /\
         (实多空指标数据.real_long_20 r, 实多空指标数据.real_short_20 r,
          实多空指标数据.real_diff_20 r)
         = Spec.realOf dayData rankedPool (Some 20%nat) /\
         (实多空指标数据.real_long_all r, 实多空指标数据.real_short_all r,
          实多空指标数据.real_diff_all r)
         = Spec.realOf dayData rankedPool None)
    results /\
  IndicatorCalculator.calculateRealLongShort Sample.realData
  = [ {| 实多空指标数据.trade_date := "2024-01-02";
         实多空指标数据.real_long_10 := 25;
         实多空指标数据.real_long_20 := 25;
         实多空指标数据.real_long_all := 25;
         实多空指标数据.real_short_10 := 0;
         实多空指标数据.real_short_20 := 0;
         实多空指标数据.real_short_all := 0;
         实多空指标数据.real_diff_10 := 25;
         实多空指标数据.real_diff_20 := 25;
         实多空指标数据.real_diff_all := 25 |};
      {| 实多空指标数据.trade_date := "2024-01-03";
         实多空指标数据.real_long_10 := 125;
         实多空指标数据.real_long_20 := 125;
         实多空指标数据.real_long_all := 125;
         实多空指标数据.real_short_10 := 95;
         实多空指标数据.real_short_20 := 97;
         实多空指标数据.real_short_all := 97;
         实多空指标数据.real_diff_10 := 30;
         实多空指标数据.real_diff_20 := 28;
         实多空指标数据.real_diff_all := 28 |} ].
Proof.
  cbv zeta. split; [|split; [|split; [|split; [|vm_compute; reflexivity]]]];
    unfold IndicatorCalculator.calculateRealLongShort;
    destruct (groupByDate_grouped seatData) as [Hkeys Hval];
    set (G := IndicatorCalculator.groupByDate seatData) in *;
    set (cmp := fun a b : 实多空指标数据.t => Js.localeCompare _ _);
    assert (Hperm : Permutation (JsMap.keys G)
                      (map 实多空指标数据.trade_date
                         (Js.sort cmp (map IndicatorCalculator.realOfDay G))))
      by (apply results_dates_perm; now intros [d day]).
  - apply (sort_by_date 实多空指标数据.trade_date).
  - eapply Permutation_NoDup; [exact Hperm|]. rewrite Hkeys. apply setOf_NoDup.
  - intros d. split; intros H.
    + apply (Permutation_in _ (Permutation_sym Hperm)) in H.
      now rewrite Hkeys, setOf_In in H.
    + apply (Permutation_in _ Hperm). now rewrite Hkeys, setOf_In.
  - apply Forall_forall. intros r Hr.
    apply sort_In, in_map_iff in Hr. destruct Hr as ([d day] & <- & Hin).
    rewrite realOfDay_spec. cbn [实多空指标数据.trade_date Spec.realRowSpec].
    rewrite <- (Hval _ _ Hin).
    cbn [实多空指标数据.real_long_10 实多空指标数据.real_long_20
         实多空指标数据.real_long_all 实多空指标数据.real_short_10
         实多空指标数据.real_short_20 实多空指标数据.real_short_all
         实多空指标数据.real_diff_10 实多空指标数据.real_diff_20
         实多空指标数据.real_diff_all].
    eexists. split; [apply combinedVolumes_ranking|]. split; [|split; [|split]].
    + intros other Hother.
      exact (ranking_unique snd _ _ _ Hother (combinedVolumes_ranking day)).
    + now apply (realSpec_realOf day (IndicatorCalculator.Top 10)).
    + now apply (realSpec_realOf day (IndicatorCalculator.Top 20)).
    + now apply (realSpec_realOf day IndicatorCalculator.All).
Qed.

(** ** Indicator Engine: flow long/short *)

Lemma sumNetVol_sumZ p l :
  IndicatorCalculator.sumNetVol p l
  = Js.sumZ (map 席位分析数据.net_vol (filter p l)).
Proof.
  unfold IndicatorCalculator.sumNetVol. now rewrite reduce_sumZ.
Qed.

Lemma sumNetVol_cons p x l :
  IndicatorCalculator.sumNetVol p (x :: l)
  = (if p x then 席位分析数据.net_vol x else 0) + IndicatorCalculator.sumNetVol p l.
Proof.
  rewrite !sumNetVol_sumZ. simpl. destruct (p x); simpl; lia.
Qed.

Lemma sumNetVol_nonpos p l :
  (forall x, p x = true -> 席位分析数据.net_vol x < 0) ->
  IndicatorCalculator.sumNetVol p l <= 0.
Proof.
  intros Hp. induction l as [|x l IH].
  - rewrite sumNetVol_sumZ. simpl. lia.
  - rewrite sumNetVol_cons. destruct (p x) eqn:E; [apply Hp in E|]; lia.
Qed.

Lemma flowStep_fold sel acc :
  fold_left Spec.flowStep sel acc
  = IndicatorCalculator.mkFlow
      (IndicatorCalculator.addLong acc + IndicatorCalculator.sumNetVol Spec.flowAddLong sel)
      (IndicatorCalculator.addShort acc - IndicatorCalculator.sumNetVol Spec.flowAddShort sel)
      (IndicatorCalculator.reduceLong acc - IndicatorCalculator.sumNetVol Spec.flowReduceLong sel)
      (IndicatorCalculator.reduceShort acc + IndicatorCalculator.sumNetVol Spec.flowReduceShort sel).
Proof.
  revert acc. induction sel as [|x sel IH]; intros acc.
  - destruct acc. rewrite !sumNetVol_sumZ. simpl. f_equal; lia.
  - cbn [fold_left]. rewrite IH, !sumNetVol_cons.
    unfold Spec.flowStep, Spec.flowAddLong, Spec.flowAddShort, Spec.flowReduceLong, Spec.flowReduceShort.
    cbv zeta.
    destruct (0 <? 席位分析数据.net_vol x) eqn:V1,
             (席位分析数据.net_vol x <? 0) eqn:V2,
             (0 <? 席位分析数据.net_chg x) eqn:C1,
             (席位分析数据.net_chg x <? 0) eqn:C2;
      cbn [andb IndicatorCalculator.addLong IndicatorCalculator.addShort
           IndicatorCalculator.reduceLong IndicatorCalculator.reduceShort];
      try (apply Z.ltb_lt in V1); try (apply Z.ltb_lt in V2);
      try (apply Z.ltb_lt in C1); try (apply Z.ltb_lt in C2);
      try lia; f_equal; lia.
Qed.

Lemma flowForTopN_spec day n :
  IndicatorCalculator.flowForTopN (Js.sort IndicatorCalculator.byAbsNetVol day) n
  = Spec.flowSpec day n.
Proof.
  unfold Spec.flowSpec, IndicatorCalculator.flowForTopN. cbv zeta.
  rewrite flowStep_fold. cbn [IndicatorCalculator.addLong
    IndicatorCalculator.addShort IndicatorCalculator.reduceLong
    IndicatorCalculator.reduceShort].
  fold Spec.flowAddLong Spec.flowAddShort Spec.flowReduceLong Spec.flowReduceShort.
  set (sel := IndicatorCalculator.selectTop n _).
  assert (H : IndicatorCalculator.sumNetVol Spec.flowAddShort sel <= 0).
  { apply sumNetVol_nonpos. intros x Hx. unfold Spec.flowAddShort in Hx.
    apply andb_prop in Hx. destruct Hx as [Hx _]. now apply Z.ltb_lt in Hx. }
  f_equal; lia.
Qed.

Lemma flowOfDay_spec d day :
  IndicatorCalculator.flowOfDay (d, day) = Spec.flowRowSpec d day.
Proof.
  unfold IndicatorCalculator.flowOfDay, Spec.flowRowSpec. cbv zeta. cbn [fst snd].
  now rewrite !flowForTopN_spec.
Qed.

Lemma flowStep_zero acc seat :
  席位分析数据.net_vol seat = 0 \/ 席位分析数据.net_chg seat = 0 ->
  Spec.flowStep acc seat = acc.
Proof.
  intros H. unfold Spec.flowStep. cbv zeta.
  destruct (0 <? 席位分析数据.net_vol seat) eqn:V1,
           (席位分析数据.net_vol seat <? 0) eqn:V2,
           (0 <? 席位分析数据.net_chg seat) eqn:C1,
           (席位分析数据.net_chg seat <? 0) eqn:C2;
    cbn [andb]; try reflexivity;
    try (apply Z.ltb_lt in V1); try (apply Z.ltb_lt in V2);
    try (apply Z.ltb_lt in C1); try (apply Z.ltb_lt in C2); lia.
Qed.

Lemma flowSpec_flowOf day (n : IndicatorCalculator.Breadth) (breadth : option nat) :
  breadth = match n with
            | IndicatorCalculator.Top k => Some k
            | IndicatorCalculator.All => None
            end ->
  let r := Spec.flowSpec day n in
  (IndicatorCalculator.addLong r, IndicatorCalculator.addShort r,
   IndicatorCalculator.reduceLong r, IndicatorCalculator.reduceShort r)
  = Spec.flowOf (Js.sort IndicatorCalculator.byAbsNetVol day) breadth.
Proof.
  intros ->. unfold Spec.flowSpec, Spec.flowOf. cbv zeta.
  now destruct n.
Qed.

(** C2: in every row of [calculateFlowLongShort] the seats of the date are
    ranked by absolute net position, largest first, equal ones in input
    order, and at the breadths 10, 20 and all the four flow values are
    those of the first 10, the first 20 and all seats of the ranking: each
    such seat adds [net_vol] to addLong when (+,+), [|net_vol|] to addShort
    when (-,-), [-net_vol] to reduceLong when (+,-), [net_vol] to
    reduceShort when (-,+), and nothing when [net_vol] or [net_chg] is 0.
    On the seats S1(+50,+5), S2(-30,-2), S3(+20,-1) the values are 50, 30,
    -20 and 0; on eleven seats with the net positions 110, 100, ..., 10,
    all growing, addLong is 650 at breadth 10, the smallest seat being cut,
    and 660 at the breadths 20 and all. *)
Theorem calculateFlowLongShort_spec (seatData : list 席位分析数据.t) :
  let results := IndicatorCalculator.calculateFlowLongShort seatData in
  (forall d, In d (map 流多空指标数据.trade_date results)
             <-> In d (map 席位分析数据.trade_date seatData)) /\
  Forall
    (fun r =>
       let dayData := Spec.dayOf seatData (流多空指标数据.trade_date r) in
       exists rankedSeats,
         Spec.ranking Spec.absNetVol dayData rankedSeats /\
         (forall other, Spec.ranking Spec.absNetVol dayData other -> other = rankedSeats) /\
         (流多空指标数据.add_long_10 r, 流多空指标数据.add_short_10 r,
          流多空指标数据.reduce_long_10 r, 流多空指标数据.reduce_short_10 r)
         = Spec.flowOf rankedSeats (Some 10%nat) /\
         (流多空指标数据.add_long_20 r, 流多空指标数据.add_short_20 r,
          流多空指标数据.reduce_long_20 r, 流多空指标数据.reduce_short_20 r)
         = Spec.flowOf rankedSeats (Some 20%nat) /\
         (流多空指标数据.add_long_all r, 流多空指标数据.add_short_all r,
          流多空指标数据.reduce_long_all r, 流多空指标数据.reduce_short_all r)
         = Spec.flowOf rankedSeats None)
    results /\
  (forall acc seat,
     席位分析数据.net_vol seat = 0 \/ 席位分析数据.net_chg seat = 0 ->
     Spec.flowStep acc seat = acc) /\
  (forall l1 seat l2,
     席位分析数据.net_vol seat = 0 \/ 席位分析数据.net_chg seat = 0 ->
     IndicatorCalculator.flowForTopN (l1 ++ seat :: l2) IndicatorCalculator.All
     = IndicatorCalculator.flowForTopN (l1 ++ l2) IndicatorCalculator.All) /\
  map (fun r => (流多空指标数据.add_long_10 r, 流多空指标数据.add_short_10 r,
                 流多空指标数据.reduce_long_10 r, 流多空指标数据.reduce_short_10 r))
    (IndicatorCalculator.calculateFlowLongShort Sample.flowDay)
  = [ (50, 30, -20, 0) ] /\
  map (fun r => (流多空指标数据.add_long_10 r, 流多空指标数据.add_long_20 r,
                 流多空指标数据.add_long_all r))
    (IndicatorCalculator.calculateFlowLongShort Sample.changeDay)
  = [ (650, 660, 660) ].
Proof.
  cbv zeta.
  split; [|split; [|split; [|split; [|split; vm_compute; reflexivity]]]].
  - unfold IndicatorCalculator.calculateFlowLongShort.
    destruct (groupByDate_grouped seatData) as [Hkeys Hval].
    set (G := IndicatorCalculator.groupByDate seatData) in *.
    set (cmp := fun a b : 流多空指标数据.t => Js.localeCompare _ _).
    assert (Hperm : Permutation (JsMap.keys G)
                      (map 流多空指标数据.trade_date
                         (Js.sort cmp (map IndicatorCalculator.flowOfDay G)))).
    { apply results_dates_perm. now intros [d day]. }
    intros d. split; intros H.
    + apply (Permutation_in _ (Permutation_sym Hperm)) in H.
      now rewrite Hkeys, setOf_In in H.
    + apply (Permutation_in _ Hperm). now rewrite Hkeys, setOf_In.
  - unfold IndicatorCalculator.calculateFlowLongShort.
    destruct (groupByDate_grouped seatData) as [Hkeys Hval].
    apply Forall_forall. intros r Hr.
    apply sort_In, in_map_iff in Hr. destruct Hr as ([d day] & <- & Hin).
    rewrite flowOfDay_spec. cbn [流多空指标数据.trade_date Spec.flowRowSpec].
    rewrite <- (Hval _ _ Hin).
    cbn [流多空指标数据.add_long_10 流多空指标数据.add_long_20 流多空指标数据.add_long_all
         流多空指标数据.add_short_10 流多空指标数据.add_short_20
         流多空指标数据.add_short_all 流多空指标数据.reduce_long_10
         流多空指标数据.reduce_long_20 流多空指标数据.reduce_long_all
         流多空指标数据.reduce_short_10 流多空指标数据.reduce_short_20
         流多空指标数据.reduce_short_all].
    exists (Js.sort IndicatorCalculator.byAbsNetVol day).
    split; [apply (sort_ranking Spec.absNetVol)|]. split; [|split; [|split]].
    + intros other Hother.
      exact (ranking_unique Spec.absNetVol _ _ _ Hother (sort_ranking Spec.absNetVol day)).
    + now apply (flowSpec_flowOf day (IndicatorCalculator.Top 10)).
    + now apply (flowSpec_flowOf day (IndicatorCalculator.Top 20)).
    + now apply (flowSpec_flowOf day IndicatorCalculator.All).
  - apply flowStep_zero.
  - intros l1 seat l2 Hz.
    assert (Hf : forall p,
               (forall x, p x = true ->
                          席位分析数据.net_vol x <> 0 /\ 席位分析数据.net_chg x <> 0) ->
               filter p (l1 ++ seat :: l2) = filter p (l1 ++ l2)).
    { intros p Hp. rewrite !filter_app. simpl.
      destruct (p seat) eqn:E; [|reflexivity].
      apply Hp in E. lia. }
    unfold IndicatorCalculator.flowForTopN, IndicatorCalculator.selectTop,
      IndicatorCalculator.sumNetVol.
    rewrite !Hf; [reflexivity| | | |];
      intros x Hx; apply andb_prop in Hx; destruct Hx as [H1 H2];
      rewrite ?Z.ltb_lt in H1, H2; lia.
Qed.

(** ** Weighted Contract Synthesizer *)

(** ** Rounding to binary64 *)

Lemma roundHalfEven_floor q :
  Qfloor q <= Js.roundHalfEven q <= Qfloor q + 1.
Proof.
  unfold Js.roundHalfEven. cbv zeta.
  destruct (Qcompare _ _); [destruct (Z.even _)| |]; lia.
Qed.

Lemma roundHalfEven_Z z : Js.roundHalfEven (inject_Z z) = z.
Proof.
  unfold Js.roundHalfEven. cbv zeta. rewrite Qfloor_Z.
  destruct (Qcompare (inject_Z z - inject_Z z) (1 # 2)) eqn:C; [|reflexivity|].
  - apply Qeq_alt in C. exfalso. lra.
  - apply Qgt_alt in C. exfalso. lra.
Qed.

Lemma roundHalfEven_mono p q : (p <= q)%Q -> Js.roundHalfEven p <= Js.roundHalfEven q.
Proof.
  intros Hpq. pose proof (Qfloor_resp_le _ _ Hpq) as Hf.
  pose proof (roundHalfEven_floor p) as Hp. pose proof (roundHalfEven_floor q) as Hq.
  destruct (Z.eq_dec (Qfloor p) (Qfloor q)) as [E|NE]; [|lia].
  clear Hp Hq Hf. unfold Js.roundHalfEven. cbv zeta. rewrite <- E.
  set (f := Qfloor p) in *.
  destruct (Qcompare (p - inject_Z f) (1 # 2)) eqn:Cp;
    destruct (Qcompare (q - inject_Z f) (1 # 2)) eqn:Cq;
    first [apply Qeq_alt in Cp | apply Qlt_alt in Cp | apply Qgt_alt in Cp];
    first [apply Qeq_alt in Cq | apply Qlt_alt in Cq | apply Qgt_alt in Cq];
    try (exfalso; lra); destruct (Z.even f); lia.
Qed.

Lemma two_pow_pos e : (0 < 2 ^ e)%Q.
Proof. apply Qpower_0_lt. reflexivity. Qed.

Lemma two_pow_le a b : a <= b -> (2 ^ a <= 2 ^ b)%Q.
Proof. intros H. apply Qpower_le_compat_l; [exact H|]. discriminate. Qed.

Lemma two_pow_Z n : 0 <= n -> (inject_Z (2 ^ n) == 2 ^ n)%Q.
Proof. intros H. now rewrite Zpower_Qpower. Qed.

Lemma two_pow_add a b : (2 ^ (a + b) == 2 ^ a * 2 ^ b)%Q.
Proof. apply Qpower_plus. discriminate. Qed.

Lemma two_pow_sub a b : (2 ^ (a - b) == 2 ^ a / 2 ^ b)%Q.
Proof. apply Qpower_minus. discriminate. Qed.

Lemma Qdiv_le_both (a b c d : Q) :
  (0 <= a <= c)%Q -> (0 < d <= b)%Q -> (a / b <= c / d)%Q.
Proof.
  intros [Ha Hac] [Hd Hdb].
  assert (Hb : (0 < b)%Q) by lra.
  apply Qle_shift_div_l; [exact Hd|].
  setoid_replace (a / b * d)%Q with (a * d / b)%Q by (field; lra).
  apply Qle_shift_div_r; [exact Hb|]. nra.
Qed.

Lemma Qdiv_lt_le (a b c d : Q) :
  (0 <= a < c)%Q -> (0 < d <= b)%Q -> (a / b < c / d)%Q.
Proof.
  intros [Ha Hac] [Hd Hdb].
  assert (Hb : (0 < b)%Q) by lra.
  apply Qlt_shift_div_l; [exact Hd|].
  setoid_replace (a / b * d)%Q with (a * d / b)%Q by (field; lra).
  apply Qlt_shift_div_r; [exact Hb|]. nra.
Qed.

(** The binade of a positive number. *)
Lemma binade_spec x :
  (0 < x)%Q -> (2 ^ Js.binade x <= x /\ x < 2 ^ (Js.binade x + 1))%Q.
Proof.
  intros Hx. destruct x as [n d]. unfold Js.binade. cbn [Qnum Qden].
  assert (Hn : 0 < n) by (unfold Qlt in Hx; simpl in Hx; lia).
  set (ln := Z.log2 n). set (ld := Z.log2 (Zpos d)).
  assert (Hln : 0 <= ln) by apply Z.log2_nonneg.
  assert (Hld : 0 <= ld) by apply Z.log2_nonneg.
  destruct (Z.log2_spec n Hn) as [Hn1 Hn2]. fold ln in Hn1, Hn2.
  destruct (Z.log2_spec (Zpos d) (Pos2Z.is_pos d)) as [Hd1 Hd2]. fold ld in Hd1, Hd2.
  rewrite <- Z.add_1_r in Hn2, Hd2.
  assert (Qn1 : (2 ^ ln <= inject_Z n)%Q) by (rewrite <- two_pow_Z, <- Zle_Qle; lia).
  assert (Qn2 : (inject_Z n < 2 ^ (ln + 1))%Q) by (rewrite <- two_pow_Z, <- Zlt_Qlt; lia).
  assert (Qd1 : (2 ^ ld <= inject_Z (Zpos d))%Q) by (rewrite <- two_pow_Z, <- Zle_Qle; lia).
  assert (Qd2 : (inject_Z (Zpos d) < 2 ^ (ld + 1))%Q)
    by (rewrite <- two_pow_Z, <- Zlt_Qlt; lia).
  assert (Hq : (n # d == inject_Z n / inject_Z (Zpos d))%Q) by apply Qmake_Qdiv.
  assert (Hd0 : (0 < inject_Z (Zpos d))%Q) by (unfold Qlt; simpl; lia).
  assert (Hn0 : (0 <= inject_Z n)%Q) by (unfold Qle; simpl; lia).
  pose proof (two_pow_pos ld) as Pld. pose proof (two_pow_pos (ld + 1)) as Pld1.
  pose proof (two_pow_pos ln) as Pln.
  destruct (Qle_bool (2 ^ (ln - ld)) (n # d)) eqn:T.
  - apply Qle_bool_iff in T. split; [exact T|].
    replace (ln - ld + 1) with (ln + 1 - ld) by lia.
    rewrite two_pow_sub, Hq. apply Qdiv_lt_le; lra.
  - assert (T' : (n # d < 2 ^ (ln - ld))%Q).
    { apply Qnot_le_lt. intros H. apply Qle_bool_iff in H. congruence. }
    replace (ln - ld - 1 + 1) with (ln - ld) by lia. split; [|exact T'].
    replace (ln - ld - 1) with (ln - (ld + 1)) by lia.
    rewrite two_pow_sub, Hq. apply Qdiv_le_both; lra.
Qed.

Lemma binade_mono x y : (0 < x)%Q -> (x <= y)%Q -> Js.binade x <= Js.binade y.
Proof.
  intros Hx Hxy.
  destruct (binade_spec x Hx) as [Hx1 _].
  destruct (binade_spec y) as [_ Hy2]; [lra|].
  destruct (Z_le_gt_dec (Js.binade x) (Js.binade y)) as [H|H]; [exact H|].
  exfalso. pose proof (two_pow_le (Js.binade y + 1) (Js.binade x)) as P.
  assert (Hle : Js.binade y + 1 <= Js.binade x) by lia. specialize (P Hle). lra.
Qed.

(** The scaled mantissa lies between 2^52 and 2^53. *)
Lemma mantissa_range x :
  (0 < x)%Q ->
  (inject_Z (2 ^ 52) <= x / 2 ^ (Js.binade x - 52) /\
   x / 2 ^ (Js.binade x - 52) <= inject_Z (2 ^ 53))%Q.
Proof.
  intros Hx. destruct (binade_spec x Hx) as [H1 H2].
  pose proof (two_pow_pos (Js.binade x - 52)) as Pu.
  rewrite !two_pow_Z by lia.
  assert (E1 : (2 ^ Js.binade x == 2 ^ 52 * 2 ^ (Js.binade x - 52))%Q).
  { rewrite <- two_pow_add. now replace (52 + (Js.binade x - 52)) with (Js.binade x) by lia. }
  assert (E2 : (2 ^ (Js.binade x + 1) == 2 ^ 53 * 2 ^ (Js.binade x - 52))%Q).
  { rewrite <- two_pow_add.
    now replace (53 + (Js.binade x - 52)) with (Js.binade x + 1) by lia. }
  split.
  - apply Qle_shift_div_l; [exact Pu|]. now rewrite <- E1.
  - apply Qle_shift_div_r; [exact Pu|]. rewrite <- E2. lra.
Qed.

Lemma nearest53_range x :
  (0 < x)%Q ->
  (2 ^ Js.binade x <= Js.nearest53 x /\ Js.nearest53 x <= 2 ^ (Js.binade x + 1))%Q.
Proof.
  intros Hx. destruct (mantissa_range x Hx) as [M1 M2].
  unfold Js.nearest53. cbv zeta.
  set (u := (2 ^ (Js.binade x - 52))%Q) in *.
  assert (Pu : (0 < u)%Q) by apply two_pow_pos.
  apply roundHalfEven_mono in M1, M2. rewrite roundHalfEven_Z in M1, M2.
  rewrite Zle_Qle in M1, M2. rewrite !two_pow_Z in M1, M2 by lia.
  assert (E1 : (2 ^ Js.binade x == 2 ^ 52 * u)%Q).
  { unfold u. rewrite <- two_pow_add.
    now replace (52 + (Js.binade x - 52)) with (Js.binade x) by lia. }
  assert (E2 : (2 ^ (Js.binade x + 1) == 2 ^ 53 * u)%Q).
  { unfold u. rewrite <- two_pow_add.
    now replace (53 + (Js.binade x - 52)) with (Js.binade x + 1) by lia. }
  rewrite E1, E2. split; apply Qmult_le_compat_r; lra.
Qed.

Lemma nearest53_pos x : (0 < x)%Q -> (0 < Js.nearest53 x)%Q.
Proof.
  intros Hx. destruct (nearest53_range x Hx) as [H _].
  pose proof (two_pow_pos (Js.binade x)). lra.
Qed.

Lemma nearest53_mono x y : (0 < x)%Q -> (x <= y)%Q -> (Js.nearest53 x <= Js.nearest53 y)%Q.
Proof.
  intros Hx Hxy. assert (Hy : (0 < y)%Q) by lra.
  pose proof (binade_mono x y Hx Hxy) as Hb.
  destruct (Z.eq_dec (Js.binade x) (Js.binade y)) as [E|NE].
  - unfold Js.nearest53. cbv zeta. rewrite E.
    set (u := (2 ^ (Js.binade y - 52))%Q).
    assert (Pu : (0 < u)%Q) by apply two_pow_pos.
    apply Qmult_le_compat_r; [|lra]. rewrite <- Zle_Qle.
    apply roundHalfEven_mono. apply Qmult_le_compat_r; [exact Hxy|].
    apply Qlt_le_weak, Qinv_lt_0_compat. exact Pu.
  - destruct (nearest53_range x Hx) as [_ H1]. destruct (nearest53_range y Hy) as [H2 _].
    pose proof (two_pow_le (Js.binade x + 1) (Js.binade y)) as P.
    assert (Hle : Js.binade x + 1 <= Js.binade y) by lia. specialize (P Hle). lra.
Qed.

(** Rounding to binary64. *)
Lemma b64_comp x y : (x == y)%Q -> Js.b64 x = Js.b64 y.
Proof. intros H. unfold Js.b64. now rewrite (Qred_complete x y H). Qed.

Lemma b64_zero x : (x == 0)%Q -> Js.b64 x = 0%Q.
Proof. intros H. rewrite (b64_comp x 0 H). reflexivity. Qed.

Lemma b64_positive x : (0 < x)%Q -> (Js.b64 x == Js.nearest53 (Qred x))%Q.
Proof.
  intros H. unfold Js.b64. cbv zeta.
  assert (H' : (0 < Qred x)%Q) by now rewrite Qred_correct.
  destruct (Qcompare (Qred x) 0) eqn:C.
  - apply Qeq_alt in C. exfalso. lra.
  - apply Qlt_alt in C. exfalso. lra.
  - apply Qred_correct.
Qed.

Lemma b64_negative x : (x < 0)%Q -> (Js.b64 x == - Js.nearest53 (- Qred x))%Q.
Proof.
  intros H. unfold Js.b64. cbv zeta.
  assert (H' : (Qred x < 0)%Q) by now rewrite Qred_correct.
  destruct (Qcompare (Qred x) 0) eqn:C.
  - apply Qeq_alt in C. exfalso. lra.
  - apply Qred_correct.
  - apply Qgt_alt in C. exfalso. lra.
Qed.

Lemma b64_pos x : (0 < x)%Q -> (0 < Js.b64 x)%Q.
Proof.
  intros H. rewrite (b64_positive x H). apply nearest53_pos. now rewrite Qred_correct.
Qed.

Lemma b64_neg x : (x < 0)%Q -> (Js.b64 x < 0)%Q.
Proof.
  intros H. rewrite (b64_negative x H).
  assert (P : (0 < Js.nearest53 (- Qred x))%Q).
  { apply nearest53_pos. rewrite Qred_correct. lra. }
  lra.
Qed.

Lemma b64_mono x y : (x <= y)%Q -> (Js.b64 x <= Js.b64 y)%Q.
Proof.
  intros Hxy.
  pose proof (Qred_correct x) as Ex. pose proof (Qred_correct y) as Ey.
  destruct (Q_dec x 0) as [[Hx|Hx]|Hx]; destruct (Q_dec y 0) as [[Hy|Hy]|Hy];
    try (exfalso; lra).
  - rewrite (b64_negative x Hx), (b64_negative y Hy).
    assert (M : (Js.nearest53 (- Qred y) <= Js.nearest53 (- Qred x))%Q)
      by (apply nearest53_mono; lra).
    lra.
  - pose proof (b64_neg x Hx). pose proof (b64_pos y Hy). lra.
  - pose proof (b64_neg x Hx). rewrite (b64_zero y Hy). lra.
  - rewrite (b64_positive x Hx), (b64_positive y Hy). apply nearest53_mono; lra.
  - rewrite (b64_zero x Hx). pose proof (b64_pos y Hy). lra.
  - rewrite (b64_zero x Hx), (b64_zero y Hy). lra.
Qed.

Lemma b64_nonneg x : (0 <= x)%Q -> (0 <= Js.b64 x)%Q.
Proof. intros H. exact (b64_mono 0 x H). Qed.

Lemma b64_nonpos x : (x <= 0)%Q -> (Js.b64 x <= 0)%Q.
Proof. intros H. exact (b64_mono x 0 H). Qed.

(** Integers of at most 53 bits are binary64 numbers. *)
Lemma roundHalfEven_comp p q : (p == q)%Q -> Js.roundHalfEven p = Js.roundHalfEven q.
Proof.
  intros H. unfold Js.roundHalfEven. cbv zeta.
  rewrite (Qfloor_comp p q H).
  assert (C : Qcompare (p - inject_Z (Qfloor q)) (1 # 2)
              = Qcompare (q - inject_Z (Qfloor q)) (1 # 2)) by now rewrite H.
  now rewrite C.
Qed.

Lemma Qred_inject_Z n : Qred (inject_Z n) = inject_Z n.
Proof.
  unfold inject_Z, Qred.
  pose proof (Z.ggcd_gcd n 1) as Hg. pose proof (Z.ggcd_correct_divisors n 1) as Hd.
  destruct (Z.ggcd n 1) as (g & aa & bb). cbn [fst snd] in *.
  rewrite Z.gcd_1_r in Hg. subst g. destruct Hd as [Ha Hb].
  assert (Ea : aa = n) by lia. assert (Eb : bb = 1) by lia. rewrite Ea, Eb. reflexivity.
Qed.

Lemma nearest53_int n :
  0 < n <= 2 ^ 53 -> (Js.nearest53 (inject_Z n) == inject_Z n)%Q.
Proof.
  intros [Hn Hmax].
  assert (Hx : (0 < inject_Z n)%Q) by (change 0%Q with (inject_Z 0); now rewrite <- Zlt_Qlt).
  destruct (binade_spec _ Hx) as [H1 H2].
  set (e := Js.binade (inject_Z n)) in *.
  assert (Hx1 : (1 <= inject_Z n)%Q)
    by (change 1%Q with (inject_Z 1); rewrite <- Zle_Qle; lia).
  assert (Hx53 : (inject_Z n <= 2 ^ 53)%Q)
    by (rewrite <- (two_pow_Z 53) by lia; now rewrite <- Zle_Qle).
  assert (He0 : 0 <= e).
  { destruct (Z_le_gt_dec 0 e) as [H|H]; [exact H|exfalso].
    pose proof (two_pow_le (e + 1) 0 ltac:(lia)) as P.
    change (2 ^ 0)%Q with 1%Q in P. lra. }
  assert (He53 : e <= 53).
  { destruct (Z_le_gt_dec e 53) as [H|H]; [exact H|exfalso].
    pose proof (two_pow_le 54 e ltac:(lia)) as P.
    assert (Q54 : (2 ^ 53 < 2 ^ 54)%Q) by reflexivity. lra. }
  destruct (Z.eq_dec e 53) as [E53|NE].
  - assert (n = 2 ^ 53).
    { rewrite E53 in H1. rewrite <- (two_pow_Z 53) in H1 by lia.
      rewrite <- Zle_Qle in H1. lia. }
    subst n. vm_compute. reflexivity.
  - unfold Js.nearest53. cbv zeta. fold e.
    set (k := 52 - e).
    assert (Hu : (2 ^ (e - 52) == / inject_Z (2 ^ k))%Q).
    { replace (e - 52) with (- k) by (unfold k; lia).
      rewrite Qpower_opp, two_pow_Z by (unfold k; lia). reflexivity. }
    assert (Pk : (0 < inject_Z (2 ^ k))%Q).
    { rewrite two_pow_Z by (unfold k; lia). apply two_pow_pos. }
    rewrite (roundHalfEven_comp _ (inject_Z (n * 2 ^ k))).
    + rewrite roundHalfEven_Z, Hu, inject_Z_mult. field. lra.
    + rewrite Hu, inject_Z_mult. field. lra.
Qed.

Lemma b64_int (n : Z) (q : Q) :
  Z.abs n <= 2 ^ 53 -> (q == inject_Z n)%Q -> Js.b64 q = inject_Z n.
Proof.
  intros Hn Hq. rewrite (b64_comp q (inject_Z n) Hq).
  unfold Js.b64. cbv zeta. rewrite Qred_inject_Z.
  destruct (Z.compare_spec n 0) as [E|L|G].
  - subst n. reflexivity.
  - assert (C : Qcompare (inject_Z n) 0 = Lt).
    { apply -> Qlt_alt. unfold Qlt. simpl. lia. }
    rewrite C.
    change (- inject_Z n)%Q with (inject_Z (- n)).
    rewrite <- (Qred_inject_Z n). apply Qred_complete.
    rewrite nearest53_int by lia. rewrite inject_Z_opp. ring.
  - assert (C : Qcompare (inject_Z n) 0 = Gt).
    { apply -> Qgt_alt. unfold Qlt. simpl. lia. }
    rewrite C.
    rewrite <- (Qred_inject_Z n) at 2. apply Qred_complete.
    apply nearest53_int. lia.
Qed.

Lemma gtQ_lt x y : Js.gtQ x y = true <-> (y < x)%Q.
Proof.
  unfold Js.gtQ. rewrite negb_true_iff. split.
  - intros H. apply Qnot_le_lt. intros Hle.
    apply Qle_bool_iff in Hle. congruence.
  - intros H. destruct (Qle_bool x y) eqn:E; [|reflexivity].
    apply Qle_bool_iff in E. lra.
Qed.

Lemma orElseQ_zero x : (Js.orElseQ x 0 == x)%Q.
Proof.
  unfold Js.orElseQ. destruct (Qeq_bool x 0) eqn:E; [|reflexivity].
  apply Qeq_bool_iff in E. now rewrite E.
Qed.

Lemma qualifies_iff c d item :
  DataCalculator.qualifies c d item = true <-> Spec.qualifying c d item.
Proof.
  unfold DataCalculator.qualifies, Spec.qualifying.
  rewrite !andb_true_iff, String.eqb_eq, gtQ_lt, negb_true_iff. split.
  - intros [[[H1 H2] _] H4]. auto.
  - intros (H1 & H2 & H3). repeat split; auto.
    destruct (Qeq_bool _ 0) eqn:E; [|reflexivity].
    apply Qeq_bool_iff in E. lra.
Qed.


(** Operations on numbers that denote the same real give the same number. *)
Lemma fadd_comp x x' y y' : (x == x')%Q -> (y == y')%Q -> Js.fadd x y = Js.fadd x' y'.
Proof. intros Hx Hy. apply b64_comp. now rewrite Hx, Hy. Qed.

Lemma fmul_comp x x' y y' : (x == x')%Q -> (y == y')%Q -> Js.fmul x y = Js.fmul x' y'.
Proof. intros Hx Hy. apply b64_comp. now rewrite Hx, Hy. Qed.

Lemma fdiv_comp x x' y y' : (x == x')%Q -> (y == y')%Q -> Js.fdiv x y = Js.fdiv x' y'.
Proof. intros Hx Hy. apply b64_comp. now rewrite Hx, Hy. Qed.

Lemma fadd_mono x x' y y' : (x <= x')%Q -> (y <= y')%Q -> (Js.fadd x y <= Js.fadd x' y')%Q.
Proof. intros Hx Hy. apply b64_mono. lra. Qed.

Lemma fmul_mono_l x x' w : (0 <= w)%Q -> (x <= x')%Q -> (Js.fmul x w <= Js.fmul x' w)%Q.
Proof. intros Hw Hx. apply b64_mono. now apply Qmult_le_compat_r. Qed.

Lemma fdiv_nonneg x y : (0 <= x)%Q -> (0 < y)%Q -> (0 <= Js.fdiv x y)%Q.
Proof.
  intros Hx Hy. apply b64_nonneg. apply Qle_shift_div_l; [exact Hy|]. lra.
Qed.

(** [reduce((sum, item) => sum + (item.f || 0), a)]. *)
Lemma reduce_sum64 {A} (f : A -> Q) (l : list A) (a : Q) :
  fold_left (fun sum item => Js.fadd sum (Js.orElseQ (f item) 0)) l a
  = fold_left Js.fadd (map f l) a.
Proof.
  revert a. induction l as [|x l IH]; intros a; [reflexivity|].
  cbn [fold_left map]. rewrite IH. f_equal.
  apply fadd_comp; [reflexivity|apply orElseQ_zero].
Qed.

Lemma sum64_pos_from (l : list Q) (a : Q) :
  (0 < a)%Q -> Forall (fun x => 0 < x)%Q l -> (0 < fold_left Js.fadd l a)%Q.
Proof.
  intros Ha Hl. revert a Ha. induction Hl as [|x l Hx _ IH]; intros a Ha; [exact Ha|].
  cbn [fold_left]. apply IH. apply b64_pos. lra.
Qed.

(** A sum of positive numbers is positive. *)
Lemma sum64_pos (l : list Q) :
  l <> [] -> Forall (fun x => 0 < x)%Q l -> (0 < Spec.sum64 l)%Q.
Proof.
  intros Hne Hl. destruct l as [|x l]; [congruence|].
  inversion Hl as [|? ? Hx Hl']; subst. unfold Spec.sum64. cbn [fold_left].
  apply sum64_pos_from; [|exact Hl']. apply b64_pos. lra.
Qed.

Lemma qualifying_total64_pos c d md :
  filter (DataCalculator.qualifies c d) md <> [] ->
  (0 < Spec.totalOpenInterest64 (filter (DataCalculator.qualifies c d) md))%Q.
Proof.
  intros Hne. apply sum64_pos.
  - intros E. apply map_eq_nil in E. contradiction.
  - apply Forall_forall. intros v Hv. apply in_map_iff in Hv.
    destruct Hv as (x & <- & Hx). apply filter_In in Hx. destruct Hx as [_ Hx].
    apply qualifies_iff in Hx. apply Hx.
Qed.


(** Each field of the weighted-price accumulator is the sum, in input order,
    of the corresponding price times the weight. *)
Lemma addWeighted_fold T cs acc :
  let res := fold_left (DataCalculator.addWeighted T) cs acc in
  let part (price : 行情数据.t -> Q) :=
    fun item => Js.fmul (price item) (Js.fdiv (行情数据.open_interest item) T) in
  DataCalculator.p_open res
  = fold_left Js.fadd (map (part 行情数据.open) cs) (DataCalculator.p_open acc) /\
  DataCalculator.p_high res
  = fold_left Js.fadd (map (part 行情数据.high) cs) (DataCalculator.p_high acc) /\
  DataCalculator.p_low res
  = fold_left Js.fadd (map (part 行情数据.low) cs) (DataCalculator.p_low acc) /\
  DataCalculator.p_close res
  = fold_left Js.fadd (map (part 行情数据.close) cs) (DataCalculator.p_close acc) /\
  DataCalculator.p_settle res
  = fold_left Js.fadd (map (part 行情数据.settle) cs) (DataCalculator.p_settle acc).
Proof.
  cbv zeta. revert acc. induction cs as [|x cs IH]; intros acc.
  - repeat split; reflexivity.
  - cbn [fold_left map].
    destruct (IH (DataCalculator.addWeighted T acc x)) as (H1 & H2 & H3 & H4 & H5).
    rewrite H1, H2, H3, H4, H5. unfold DataCalculator.addWeighted. cbv zeta.
    cbn [DataCalculator.p_open DataCalculator.p_high DataCalculator.p_low
         DataCalculator.p_close DataCalculator.p_settle].
    assert (Hw : Js.fdiv (Js.orElseQ (行情数据.open_interest x) 0) T
                 = Js.fdiv (行情数据.open_interest x) T)
      by (apply fdiv_comp; [apply orElseQ_zero|reflexivity]).
    rewrite Hw.
    assert (Hp : forall v w, Js.fmul (Js.orElseQ v 0) w = Js.fmul v w)
      by (intros v w; apply fmul_comp; [apply orElseQ_zero|reflexivity]).
    rewrite !Hp. repeat split; reflexivity.
Qed.

(** What [calculateWeightedContract] returns when some record qualifies. *)
Lemma calculateWeightedContract_some md c d :
  let cs := filter (DataCalculator.qualifies c d) md in
  cs <> [] ->
  exists out,
    DataCalculator.calculateWeightedContract md c d = Some out /\
    加权合约数据.trade_date out = d /\
    加权合约数据.commodity_id out = c /\
    加权合约数据.open out = Spec.roundedTo2 (Spec.weighted64 行情数据.open cs) /\
    加权合约数据.high out = Spec.roundedTo2 (Spec.weighted64 行情数据.high cs) /\
    加权合约数据.low out = Spec.roundedTo2 (Spec.weighted64 行情数据.low cs) /\
    加权合约数据.close out = Spec.roundedTo2 (Spec.weighted64 行情数据.close cs) /\
    加权合约数据.settle out = Spec.roundedTo2 (Spec.weighted64 行情数据.settle cs) /\
    加权合约数据.volume out = Spec.sum64 (map 行情数据.volume cs) /\
    加权合约数据.open_interest out = Spec.totalOpenInterest64 cs.
Proof.
  intros cs Hne.
  pose proof (qualifying_total64_pos c d md Hne) as Hpos. fold cs in Hpos.
  unfold DataCalculator.calculateWeightedContract. fold cs.
  destruct cs as [|first rest] eqn:Ecs; [congruence|]. cbv zeta.
  rewrite (reduce_sum64 行情数据.open_interest (first :: rest) 0),
    (reduce_sum64 行情数据.volume (first :: rest) 0).
  fold (Spec.sum64 (map 行情数据.open_interest (first :: rest))).
  fold (Spec.totalOpenInterest64 (first :: rest)).
  fold (Spec.sum64 (map 行情数据.volume (first :: rest))).
  set (T := Spec.totalOpenInterest64 (first :: rest)) in *.
  destruct (Qeq_bool T 0) eqn:E; [apply Qeq_bool_iff in E; lra|].
  eexists. split; [reflexivity|].
  cbn [加权合约数据.trade_date 加权合约数据.commodity_id 加权合约数据.open
       加权合约数据.high 加权合约数据.low 加权合约数据.close 加权合约数据.settle
       加权合约数据.volume 加权合约数据.open_interest].
  destruct (addWeighted_fold T (first :: rest) (DataCalculator.mkPrices 0 0 0 0 0))
    as (H1 & H2 & H3 & H4 & H5).
  rewrite H1, H2, H3, H4, H5.
  repeat split; reflexivity.
Qed.





(** ** Profit and loss *)

Lemma addDailyProfit_fold positions contractUnit (l : list nat) (a : Q) :
  Forall (fun t => (1 <= t < List.length positions)%nat) l ->
  fold_left (IndicatorCalculator.addDailyProfit positions contractUnit) l a
  = fold_left Js.fadd (map (Spec.dailyProfit64 positions contractUnit) l) a.
Proof.
  intros Hl. revert a. induction Hl as [|t l Ht Hl IH]; intros a; [reflexivity|].
  cbn [fold_left map]. rewrite IH. f_equal.
  unfold IndicatorCalculator.addDailyProfit, Spec.dailyProfit64.
  destruct (nth_error positions t) eqn:E1; [|apply nth_error_None in E1; lia].
  destruct (nth_error positions (t - 1)) eqn:E2; [|apply nth_error_None in E2; lia].
  reflexivity.
Qed.

(** What [calculateProfitLoss] adds up on a history at least as long as the
    period: the daily profits of the last [period - 1] trading days, one
    after the other in binary64. *)
Lemma calculateProfitLoss_terms positions contractUnit period :
  (IndicatorCalculator.profitDays period <= List.length positions)%nat ->
  let len := List.length positions in
  let days := IndicatorCalculator.profitDays period in
  IndicatorCalculator.calculateProfitLoss positions contractUnit period
  = Js.round
      (Spec.sum64 (map (Spec.dailyProfit64 positions contractUnit)
                     (seq (len - days + 1) (days - 1)))).
Proof.
  intros Hlen len days. unfold IndicatorCalculator.calculateProfitLoss.
  assert (Hd : (15 <= days)%nat) by (unfold days; destruct period; simpl; lia).
  fold len days. fold days in Hlen. fold len in Hlen.
  replace (len <? 2)%nat with false by (symmetry; apply Nat.ltb_ge; lia).
  replace (Z.to_nat (Z.max 0 (Z.of_nat (len - 1) - Z.of_nat days + 1)))
    with (len - days)%nat by lia.
  replace (len - 1 - (len - days))%nat with (days - 1)%nat by lia.
  rewrite addDailyProfit_fold; [reflexivity|].
  apply Forall_forall. intros t Ht. apply in_seq in Ht. fold len. lia.
Qed.

(** The history rows that enter the profit computation are those whose
    date has a settlement price, and that price is positive; the other
    dates are left out. *)
Lemma positionPriceData_matched seatHistory priceData pos :
  In pos (IndicatorCalculator.positionPriceData seatHistory priceData) ->
  (0 < IndicatorCalculator.settlePrice pos)%Q /\
  exists item p,
    In item seatHistory /\ In p priceData /\
    IndicatorCalculator.date pos = 席位分析数据.trade_date item /\
    IndicatorCalculator.netVol pos = 席位分析数据.net_vol item /\
    IndicatorCalculator.price_date p = 席位分析数据.trade_date item /\
    (IndicatorCalculator.settlePrice pos == IndicatorCalculator.price_settle p)%Q.
Proof.
  unfold IndicatorCalculator.positionPriceData. rewrite filter_In, in_map_iff.
  intros [(item & <- & Hitem) Hpos]. apply gtQ_lt in Hpos. simpl in *.
  split; [exact Hpos|].
  destruct (find _ priceData) as [p|] eqn:F; [|lra].
  apply find_some in F. destruct F as [Hp Hd]. apply String.eqb_eq in Hd.
  exists item, p. repeat split; auto. apply orElseQ_zero.
Qed.

(** C7: on a history of sixteen trading days and the period 15,
    [calculateProfitLoss] adds the daily profits of the last fourteen days
    only and returns 0, where the daily profits of the last fifteen trading
    days add up to 1000: the day on which the seat opened its position is
    left out. *)
Theorem calculateProfitLoss_window_short_by_one :
  List.length Sample.history = 16%nat /\
  IndicatorCalculator.calculateProfitLoss Sample.history 1 IndicatorCalculator.P15 = 0 /\
  Spec.profitOverLastDays Sample.history 1 15 = 1000 /\
  (Spec.dailyProfit Sample.history 1 1 == 1000)%Q /\
  IndicatorCalculator.calculateProfitLoss Sample.history 1 IndicatorCalculator.P15
  = Js.round (Js.sumQ (map (Spec.dailyProfit Sample.history 1) (seq 2 14))).
Proof.
  repeat split; vm_compute; reflexivity.
Qed.

(** ** Distribution Generator *)

Lemma positionSlices_entries day :
  map Spec.nameValue (IndicatorCalculator.positionSlices day)
  = Spec.distributionWithOther Spec.absNetVol
      (Js.sort IndicatorCalculator.byAbsNetVol day).
Proof.
  unfold IndicatorCalculator.positionSlices, Spec.distributionWithOther. cbv zeta.
  set (ranked := Js.sort IndicatorCalculator.byAbsNetVol day).
  unfold Js.slice0, Js.sliceFrom.
  rewrite (reduce_sumZ (fun seat => Z.abs (席位分析数据.net_vol seat))
             (skipn 10 ranked) 0), Z.add_0_l.
  change (fun seat => Z.abs (席位分析数据.net_vol seat)) with Spec.absNetVol.
  set (items := map _ (firstn 10 ranked)).
  assert (Hmap : map Spec.nameValue items
                 = map (Spec.entryOf Spec.absNetVol) (firstn 10 ranked))
    by (unfold items; rewrite map_map; reflexivity).
  destruct (skipn 10 ranked) as [|x rest] eqn:E.
  - cbn [List.length Nat.ltb Nat.leb map Js.sumZ fold_right Z.ltb Z.compare].
    now rewrite Hmap, app_nil_r.
  - cbn [List.length Nat.ltb Nat.leb].
    destruct (0 <? Js.sumZ (map Spec.absNetVol (x :: rest))).
    + rewrite map_app, Hmap. reflexivity.
    + now rewrite Hmap, app_nil_r.
Qed.

Lemma changeSlices_entries day :
  map Spec.nameValue (IndicatorCalculator.changeSlices day)
  = Spec.distributionWithoutOther (Js.sort IndicatorCalculator.byAbsNetChg day).
Proof.
  unfold IndicatorCalculator.changeSlices, Spec.distributionWithoutOther, Js.slice0.
  cbv zeta. rewrite map_map. reflexivity.
Qed.

Lemma withRatios_entries items :
  map Spec.nameValue (IndicatorCalculator.withRatios items) = map Spec.nameValue items.
Proof.
  unfold IndicatorCalculator.withRatios. cbv zeta. rewrite map_map. reflexivity.
Qed.

Lemma withRatios_ratio items item :
  In item (IndicatorCalculator.withRatios items) ->
  let total := Js.sumZ (map 饼图项.value items) in
  饼图项.ratio item
  = if 0 <? total
    then Js.fmul (Js.fdiv (inject_Z (饼图项.value item)) (inject_Z total)) 100
    else 0%Q.
Proof.
  unfold IndicatorCalculator.withRatios. cbv zeta.
  rewrite (reduce_sumZ 饼图项.value items 0), Z.add_0_l.
  rewrite in_map_iff. intros (it & <- & _). reflexivity.
Qed.

(** C8, as stated, fails: on a day with eleven seats whose net changes are
    11, 10, ..., 1 the change distribution consists of the ten largest
    changes and has no bucket for the remaining one, whose value 1 would be
    above one percent of the total. *)
Lemma generatePieChartData_change_has_no_other :
  let dayData := Spec.dayOf Sample.changeDay "2024-01-02" in
  let ranked := Js.sort IndicatorCalculator.byAbsNetChg dayData in
  let out := IndicatorCalculator.generatePieChartData Sample.changeDay "2024-01-02" in
  Spec.distributionClaimed Spec.absNetChg ranked
  = [ ("S11", 11); ("S10", 10); ("S09", 9); ("S08", 8); ("S07", 7); ("S06", 6);
      ("S05", 5); ("S04", 4); ("S03", 3); ("S02", 2); (IndicatorCalculator.其他, 1) ]%string /\
  map Spec.nameValue (饼图数据.持仓变化 out)
  = [ ("S11", 11); ("S10", 10); ("S09", 9); ("S08", 8); ("S07", 7); ("S06", 6);
      ("S05", 5); ("S04", 4); ("S03", 3); ("S02", 2) ]%string /\
  map Spec.nameValue (IndicatorCalculator.changeSlices dayData)
  = map Spec.nameValue (饼图数据.持仓变化 out) /\
  Js.mem IndicatorCalculator.其他 (map 饼图项.name (饼图数据.持仓变化 out)) = false /\
  Qle_bool 1 (Js.fmul (Js.fdiv 1 66) 100) = true.
Proof.
  cbv zeta. repeat split; vm_compute; reflexivity.
Qed.

(** C8, amended: the seats of the date are ranked by absolute net position
    and, separately, by absolute net change, largest first.  The position
    distribution is the ten first entries of its ranking and one bucket
    "其他" holding the sum of the absolute net positions of the remaining
    entries, present when that sum is positive.  The change distribution is
    the ten first entries of its ranking that have a net change, without a
    bucket for the others.  Each entry's ratio is its share of the listed
    values in percent, and the entries below one percent are dropped from
    the result. *)
Theorem generatePieChartData_distributions
    (seatData : list 席位分析数据.t) (tradeDate : string) :
  let dayData := Spec.dayOf seatData tradeDate in
  let byVol := Js.sort IndicatorCalculator.byAbsNetVol dayData in
  let byChg := Js.sort IndicatorCalculator.byAbsNetChg dayData in
  let position := IndicatorCalculator.withRatios (IndicatorCalculator.positionSlices dayData) in
  let change := IndicatorCalculator.withRatios (IndicatorCalculator.changeSlices dayData) in
  let out := IndicatorCalculator.generatePieChartData seatData tradeDate in
  (Permutation byVol dayData /\
   StronglySorted (fun a b => Spec.absNetVol b <= Spec.absNetVol a) byVol) /\
  (Permutation byChg dayData /\
   StronglySorted (fun a b => Spec.absNetChg b <= Spec.absNetChg a) byChg) /\
  map Spec.nameValue position = Spec.distributionWithOther Spec.absNetVol byVol /\
  map Spec.nameValue change = Spec.distributionWithoutOther byChg /\
  Forall
    (fun item =>
       let total := Js.sumZ (map 饼图项.value position) in
       饼图项.ratio item
       = if 0 <? total
         then Js.fmul (Js.fdiv (inject_Z (饼图项.value item)) (inject_Z total)) 100
         else 0%Q)
    position /\
  Forall
    (fun item =>
       let total := Js.sumZ (map 饼图项.value change) in
       饼图项.ratio item
       = if 0 <? total
         then Js.fmul (Js.fdiv (inject_Z (饼图项.value item)) (inject_Z total)) 100
         else 0%Q)
    change /\
  饼图数据.持仓分布 out = filter (fun item => Qle_bool 1 (饼图项.ratio item)) position /\
  饼图数据.持仓变化 out = filter (fun item => Qle_bool 1 (饼图项.ratio item)) change.
Proof.
  cbv zeta.
  assert (Hv : forall items, map 饼图项.value (IndicatorCalculator.withRatios items)
                             = map 饼图项.value items).
  { intros items. unfold IndicatorCalculator.withRatios. cbv zeta.
    rewrite map_map. reflexivity. }
  repeat split.
  - symmetry. apply sort_perm.
  - apply (sort_descending Spec.absNetVol).
  - symmetry. apply sort_perm.
  - apply (sort_descending Spec.absNetChg).
  - rewrite withRatios_entries. apply positionSlices_entries.
  - rewrite withRatios_entries. apply changeSlices_entries.
  - apply Forall_forall. intros item Hin. rewrite Hv.
    now apply withRatios_ratio.
  - apply Forall_forall. intros item Hin. rewrite Hv.
    now apply withRatios_ratio.
Qed.

(** ** Screening and scoring *)

Lemma applyOutcome_fold (l : list Spec.Outcome) (st : FilterService.MatchState) :
  fold_left Spec.applyOutcome l st
  = (fst st ++ Spec.matchedOf (filter Spec.holds l),
     snd st + Spec.scoreOf (filter Spec.holds l)).
Proof.
  revert st. induction l as [|o l IH]; intros [m s].
  - unfold Spec.scoreOf. simpl. rewrite app_nil_r. f_equal. lia.
  - cbn [fold_left filter]. rewrite IH.
    unfold Spec.applyOutcome, FilterService.recordMatch.
    destruct (Spec.holds o); cbn [fst snd]; [|reflexivity].
    unfold Spec.matchedOf, Spec.scoreOf. cbn [map Js.sumZ fold_right].
    rewrite <- app_assoc. f_equal. fold (Js.sumZ (map Spec.weightOf (filter Spec.holds l))). lia.
Qed.

Lemma extremeStep_outcome ds c st cond :
  FilterService.extremeStep ds c st cond
  = Spec.applyOutcome st (Spec.extremeOutcomeOf ds c cond).
Proof.
  destruct cond as [[key ty] [ps|]]; unfold FilterService.extremeStep,
    Spec.applyOutcome, Spec.extremeOutcomeOf, Spec.extremeOutcome;
    cbn [Spec.holds Spec.condition Spec.weightOf fst snd].
  - destruct (FilterService.extreme_enabled ps); reflexivity.
  - reflexivity.
Qed.

Lemma extremeStep_fold ds c conds st :
  fold_left (FilterService.extremeStep ds c) conds st
  = fold_left Spec.applyOutcome (map (Spec.extremeOutcomeOf ds c) conds) st.
Proof.
  revert st. induction conds as [|cond conds IH]; intros st; [reflexivity|].
  cbn [fold_left map]. now rewrite extremeStep_outcome, IH.
Qed.

(** The loop body of [executeFilter] computes the matched conditions and
    the score of the satisfied conditions. *)
Lemma evaluate_spec ds params c contracts :
  FilterService.evaluate ds params c contracts
  = (Spec.matchedOf (Spec.satisfied ds params c contracts),
     Spec.scoreOf (Spec.satisfied ds params c contracts)).
Proof.
  unfold Spec.satisfied, Spec.outcomes, FilterService.evaluate. cbv zeta.
  rewrite extremeStep_fold.
  set (ex := map (Spec.extremeOutcomeOf ds c) (FilterService.extremeConditions params)).
  transitivity
    (fold_left Spec.applyOutcome
       ([ Spec.mkOutcome price_condition 10 (Spec.priceOutcome params contracts);
          Spec.mkOutcome real_compare 15 (Spec.realCompareOutcome ds params c);
          Spec.mkOutcome net_compare 15 (Spec.netCompareOutcome ds params c) ] ++ ex)
       ([], 0)).
  - rewrite fold_left_app. f_equal. cbn [fold_left].
    unfold Spec.applyOutcome, Spec.priceOutcome, Spec.realCompareOutcome,
      Spec.netCompareOutcome. cbn [Spec.holds Spec.condition Spec.weightOf].
    destruct (FilterService.p_收盘价条件 params) as [p1|];
      [destruct (FilterService.price_enabled p1)|];
      (destruct (FilterService.p_实多空比较 params) as [p2|];
         [destruct (FilterService.compare_enabled p2)|]);
      (destruct (FilterService.p_净多空比较 params) as [p3|];
         [destruct (FilterService.compare_enabled p3)|]);
      reflexivity.
  - rewrite applyOutcome_fold. reflexivity.
Qed.

Lemma filterStep_app ds params wcs acc c :
  FilterService.filterStep ds params wcs acc c
  = acc ++ FilterService.filterStep ds params wcs [] c.
Proof.
  unfold FilterService.filterStep.
  destruct (filter _ wcs) as [|x l]; [now rewrite app_nil_r|].
  cbv zeta.
  destruct (0 <? List.length (fst _))%nat; [|now rewrite app_nil_r].
  destruct (Js.sort _ (x :: l)); [now rewrite app_nil_r|reflexivity].
Qed.

Lemma filterStep_fold ds params wcs ids acc :
  fold_left (FilterService.filterStep ds params wcs) ids acc
  = acc ++ flat_map (FilterService.filterStep ds params wcs []) ids.
Proof.
  revert acc. induction ids as [|c ids IH]; intros acc; simpl.
  - now rewrite app_nil_r.
  - rewrite IH, filterStep_app, <- app_assoc. reflexivity.
Qed.

(** The rows a commodity of the weighted contracts adds to the results:
    one row when some condition is satisfied, none otherwise. *)
Lemma filterStep_row ds params wcs c :
  In c (map 加权合约数据.commodity_id wcs) ->
  let sat := Spec.satisfied ds params c (Spec.contractsOf wcs c) in
  (sat = [] /\ FilterService.filterStep ds params wcs [] c = []) \/
  (sat <> [] /\
   exists name,
     FilterService.filterStep ds params wcs [] c
     = [ {| 筛选结果.commodity_id := c;
            筛选结果.commodity_name := name;
            筛选结果.match_conditions := Spec.matchedOf sat;
            筛选结果.score := Spec.scoreOf sat |} ]).
Proof.
  intros Hc sat. unfold FilterService.filterStep.
  assert (Hne : filter (fun item => String.eqb (加权合约数据.commodity_id item) c) wcs <> []).
  { apply in_map_iff in Hc. destruct Hc as (x & Hx & Hin). intros E.
    assert (H : In x (filter (fun item => String.eqb (加权合约数据.commodity_id item) c) wcs)).
    { apply filter_In. split; [exact Hin|]. now apply String.eqb_eq. }
    rewrite E in H. destruct H. }
  destruct (filter _ wcs) as [|x l] eqn:E; [congruence|]. cbv zeta.
  rewrite <- E. fold (Spec.contractsOf wcs c). rewrite evaluate_spec. fold sat.
  cbn [fst snd].
  assert (Hs : Spec.contractsOf wcs c <> []).
  { intros H. apply (f_equal (@List.length _)) in H.
    unfold Spec.contractsOf in H. rewrite sort_length, E in H. discriminate. }
  destruct (Spec.contractsOf wcs c) as [|first rest]; [congruence|].
  destruct sat as [|o sat'].
  - left. split; reflexivity.
  - right. split; [discriminate|]. exists (加权合约数据.commodity_name first).
    reflexivity.
Qed.

Lemma executeFilter_results wcs realQ netQ params :
  let ds := FilterService.mkDataService (Some wcs) realQ netQ in
  FilterService.executeFilter ds params
  = Some (Js.sort FilterService.byScore
            (flat_map (FilterService.filterStep ds params wcs [])
               (Js.setOf (map 加权合约数据.commodity_id wcs)))).
Proof.
  cbv zeta. unfold FilterService.executeFilter.
  cbn [FilterService.getAllWeightedContracts]. now rewrite filterStep_fold.
Qed.

Lemma result_row_inv ds params wcs r :
  In r (flat_map (FilterService.filterStep ds params wcs [])
          (Js.setOf (map 加权合约数据.commodity_id wcs))) ->
  let sat :=
    Spec.satisfied ds params (筛选结果.commodity_id r)
      (Spec.contractsOf wcs (筛选结果.commodity_id r)) in
  In (筛选结果.commodity_id r) (map 加权合约数据.commodity_id wcs) /\
  sat <> [] /\
  筛选结果.match_conditions r = Spec.matchedOf sat /\
  筛选结果.score r = Spec.scoreOf sat.
Proof.
  rewrite in_flat_map. intros (c & Hc & Hr). rewrite setOf_In in Hc.
  destruct (filterStep_row ds params wcs c Hc) as [[_ E]|[Hne (name & E)]];
    rewrite E in Hr; [destruct Hr|].
  destruct Hr as [<-|[]]. cbn [筛选结果.commodity_id 筛选结果.match_conditions
                               筛选结果.score]. auto.
Qed.

Lemma checkPriceCondition_short contracts days type :
  (List.length contracts < FilterService.daysOf days)%nat ->
  FilterService.checkPriceCondition contracts days type = false.
Proof.
  intros H. unfold FilterService.checkPriceCondition.
  apply Nat.ltb_lt in H. now rewrite H.
Qed.

Lemma checkExtremeCondition_short ds c key period days type data valueKey :
  FilterService.extremeSource ds c key = Some (data, valueKey) ->
  (List.length data < FilterService.daysOf days)%nat ->
  FilterService.checkExtremeCondition ds c key period days type = false.
Proof.
  intros Hsrc H. unfold FilterService.checkExtremeCondition.
  rewrite Hsrc. apply Nat.ltb_lt in H. now rewrite H.
Qed.

Lemma extremeSource_real ds c key data :
  In key ["实多极值"; "实空极值"; "实差极值"]%string ->
  FilterService.getRealLongShortData ds c = Some data ->
  exists valueKey,
    FilterService.extremeSource ds c key = Some (map FilterService.RealRow data, valueKey).
Proof.
  intros Hkey Hdata. unfold FilterService.extremeSource.
  destruct Hkey as [<-|[<-|[<-|[]]]].
  - replace (Js.includes "实多极值" "实") with true by reflexivity.
    rewrite Hdata. eexists. reflexivity.
  - replace (Js.includes "实空极值" "实") with true by reflexivity.
    rewrite Hdata. eexists. reflexivity.
  - replace (Js.includes "实差极值" "实") with true by reflexivity.
    rewrite Hdata. eexists. reflexivity.
Qed.

Lemma extremeSource_net ds c key data :
  In key ["净多极值"; "净空极值"; "净差极值"]%string ->
  FilterService.getNetLongShortData ds c = Some data ->
  exists valueKey,
    FilterService.extremeSource ds c key = Some (map FilterService.NetRow data, valueKey).
Proof.
  intros Hkey Hdata. unfold FilterService.extremeSource.
  destruct Hkey as [<-|[<-|[<-|[]]]].
  - replace (Js.includes "净多极值" "实") with false by reflexivity.
    replace (Js.includes "净多极值" "净") with true by reflexivity.
    rewrite Hdata. eexists. reflexivity.
  - replace (Js.includes "净空极值" "实") with false by reflexivity.
    replace (Js.includes "净空极值" "净") with true by reflexivity.
    rewrite Hdata. eexists. reflexivity.
  - replace (Js.includes "净差极值" "实") with false by reflexivity.
    replace (Js.includes "净差极值" "净") with true by reflexivity.
    rewrite Hdata. eexists. reflexivity.
Qed.

Lemma extremeStep_unsatisfied ds c st key ty enabled period days type :
  FilterService.checkExtremeCondition ds c key period days type = false ->
  FilterService.extremeStep ds c st
    (key, ty, Some (FilterService.mkExtremeParams enabled period days type)) = st.
Proof.
  intros H. unfold FilterService.extremeStep.
  cbn [FilterService.extreme_enabled FilterService.period FilterService.extreme_days
       FilterService.extreme_type].
  rewrite H. now destruct enabled.
Qed.

(** C10: a price condition over more days than the commodity has weighted
    contracts, and an extremum condition over more days than the commodity
    has indicator rows, evaluate to [false]; the loop state is left as it
    was, so the evaluation of the commodity is the one without that
    condition, and [executeFilter] returns its results whenever the
    weighted contracts can be read. *)
Theorem insufficient_history_unsatisfied
    (ds : FilterService.DataService) (params : FilterService.筛选参数)
    (commodityId : string) (contracts : list 加权合约数据.t) :
  (forall days type,
     (List.length contracts < FilterService.daysOf days)%nat ->
     FilterService.checkPriceCondition contracts days type = false) /\
  (forall ps,
     FilterService.p_收盘价条件 params = Some ps ->
     (List.length contracts < FilterService.daysOf (FilterService.price_days ps))%nat ->
     FilterService.evaluate ds params commodityId contracts
     = FilterService.evaluate ds (Spec.withoutPrice params) commodityId contracts) /\
  (forall key period days type data,
     In key ["实多极值"; "实空极值"; "实差极值"]%string ->
     FilterService.getRealLongShortData ds commodityId = Some data ->
     (List.length data < FilterService.daysOf days)%nat ->
     FilterService.checkExtremeCondition ds commodityId key period days type = false /\
     forall st ty enabled,
       FilterService.extremeStep ds commodityId st
         (key, ty, Some (FilterService.mkExtremeParams enabled period days type)) = st) /\
  (forall key period days type data,
     In key ["净多极值"; "净空极值"; "净差极值"]%string ->
     FilterService.getNetLongShortData ds commodityId = Some data ->
     (List.length data < FilterService.daysOf days)%nat ->
     FilterService.checkExtremeCondition ds commodityId key period days type = false /\
     forall st ty enabled,
       FilterService.extremeStep ds commodityId st
         (key, ty, Some (FilterService.mkExtremeParams enabled period days type)) = st) /\
  (forall weightedContracts,
     FilterService.getAllWeightedContracts ds = Some weightedContracts ->
     exists results, FilterService.executeFilter ds params = Some results).
Proof.
  split; [|split; [|split; [|split]]].
  - intros days type. apply checkPriceCondition_short.
  - intros ps Hps Hshort. unfold FilterService.evaluate. cbv zeta.
    rewrite Hps, (checkPriceCondition_short _ _ _ Hshort).
    cbn [Spec.withoutPrice FilterService.p_收盘价条件 FilterService.p_实多空比较
         FilterService.p_净多空比较 FilterService.recordMatch].
    replace (FilterService.extremeConditions (Spec.withoutPrice params))
      with (FilterService.extremeConditions params) by reflexivity.
    now destruct (FilterService.price_enabled ps).
  - intros key period days type data Hkey Hdata Hshort.
    destruct (extremeSource_real ds commodityId key data Hkey Hdata) as (vk & Hsrc).
    assert (Hf : FilterService.checkExtremeCondition ds commodityId key period days type
                 = false).
    { eapply checkExtremeCondition_short; [exact Hsrc|]. now rewrite length_map. }
    split; [exact Hf|]. intros st ty enabled. now apply extremeStep_unsatisfied.
  - intros key period days type data Hkey Hdata Hshort.
    destruct (extremeSource_net ds commodityId key data Hkey Hdata) as (vk & Hsrc).
    assert (Hf : FilterService.checkExtremeCondition ds commodityId key period days type
                 = false).
    { eapply checkExtremeCondition_short; [exact Hsrc|]. now rewrite length_map. }
    split; [exact Hf|]. intros st ty enabled. now apply extremeStep_unsatisfied.
  - intros wcs Hw. unfold FilterService.executeFilter. rewrite Hw. eauto.
Qed.

(** C10 on the sample data: CU has five weighted contracts and one row of
    real indicators, so neither the 8-day price condition nor the 8-day
    maximum of real long is satisfied, and the screening still returns CU
    with its two other conditions. *)
Lemma insufficient_history_sample :
  FilterService.checkPriceCondition
    (Spec.contractsOf Sample.weightedContracts "CU") FilterService.D8
    FilterService.highest = false /\
  FilterService.checkExtremeCondition Sample.dataService "CU" "实多极值"
    FilterService.Per10 FilterService.D8 FilterService.max = false /\
  exists results,
    FilterService.executeFilter Sample.dataService Sample.params = Some results.
Proof.
  pose proof (insufficient_history_unsatisfied Sample.dataService Sample.params "CU"
                (Spec.contractsOf Sample.weightedContracts "CU"))
    as (Hprice & _ & Hreal & _ & Htotal).
  split; [|split].
  - apply Hprice. vm_compute. lia.
  - eapply (proj1 (Hreal "实多极值"%string FilterService.Per10 FilterService.D8
                     FilterService.max _ (or_introl eq_refl) eq_refl _)).
  - eapply Htotal. reflexivity.
  Unshelve. vm_compute. lia.
Defined.

(** ** The calculators on the sample inputs *)

Example calculateSeatAnalysis_sample :
  map (fun r => (席位分析数据.seat_name r, 席位分析数据.long_vol r,
                 席位分析数据.short_vol r, 席位分析数据.net_vol r, 席位分析数据.net_chg r))
    (DataCalculator.calculateSeatAnalysis Sample.holdings "CU" "2024-01-02")
  = [ ("C", 20, 0, 20, 3); ("B", 11, 5, 6, 1); ("A", 3, 9, -6, -1) ]%string.
Proof. vm_compute. reflexivity. Qed.

(** When every seat has one row on the day, [Spec.netVolOf] is the net
    position of that row. *)
Lemma netVolOf_unique day r :
  NoDup (map 席位分析数据.seat_name day) -> In r day ->
  Spec.netVolOf day (席位分析数据.seat_name r) = 席位分析数据.net_vol r.
Proof.
  induction day as [|x day IH] using rev_ind; intros ND Hin; [destruct Hin|].
  rewrite netVolOf_snoc. rewrite map_app in ND. cbn [map] in ND.
  apply in_app_or in Hin. destruct Hin as [Hin|[<-|[]]].
  - destruct (String.eqb (席位分析数据.seat_name x) (席位分析数据.seat_name r)) eqn:E.
    + apply String.eqb_eq in E. exfalso.
      apply NoDup_remove_2 in ND. apply ND. rewrite app_nil_r, E.
      now apply in_map.
    + apply IH; [|exact Hin]. apply NoDup_remove_1 in ND. now rewrite app_nil_r in ND.
  - now rewrite String.eqb_refl.
Qed.

(** C6 on the sample holdings: B and A have the absolute net position 6,
    B is met before A among the CU holdings of the day, and B's row comes
    before A's. *)
Lemma calculateSeatAnalysis_tie_sample :
  map 席位分析数据.seat_name
    (DataCalculator.calculateSeatAnalysis Sample.holdings "CU" "2024-01-02")
  = ["C"; "B"; "A"]%string /\
  Spec.firstBefore "B" "A" ["B"; "A"; "B"; "C"]%string.
Proof.
  split; [reflexivity|].
  pose proof (proj2 (calculateSeatAnalysis_sorted_stable Sample.holdings "CU" "2024-01-02"))
    as H.
  cbv zeta in H.
  apply (H [Sample.seat "2024-01-02" "C" 20 0 3 0]
           {| 席位分析数据.trade_date := "2024-01-02";
              席位分析数据.commodity_id := "CU";
              席位分析数据.commodity_name := "沪铜";
              席位分析数据.seat_name := "B";
              席位分析数据.long_vol := 11;
              席位分析数据.short_vol := 5;
              席位分析数据.long_chg := 2;
              席位分析数据.short_chg := 1;
              席位分析数据.net_vol := 6;
              席位分析数据.net_chg := 1 |}
           []
           {| 席位分析数据.trade_date := "2024-01-02";
              席位分析数据.commodity_id := "CU";
              席位分析数据.commodity_name := "沪铜";
              席位分析数据.seat_name := "A";
              席位分析数据.long_vol := 3;
              席位分析数据.short_vol := 9;
              席位分析数据.long_chg := 0;
              席位分析数据.short_chg := 1;
              席位分析数据.net_vol := -6;
              席位分析数据.net_chg := -1 |}
           []); reflexivity.
Defined.

(** * Part III: further properties of the calculators *)

(** ** Net long/short *)

Lemma sumNetVol_nonneg p l :
  (forall x, p x = true -> 0 <= 席位分析数据.net_vol x) ->
  0 <= IndicatorCalculator.sumNetVol p l.
Proof.
  intros Hp. induction l as [|x l IH].
  - rewrite sumNetVol_sumZ. simpl. lia.
  - rewrite sumNetVol_cons. destruct (p x) eqn:E; [apply Hp in E|]; lia.
Qed.

Lemma sumNetVol_app p l1 l2 :
  IndicatorCalculator.sumNetVol p (l1 ++ l2)
  = IndicatorCalculator.sumNetVol p l1 + IndicatorCalculator.sumNetVol p l2.
Proof.
  rewrite !sumNetVol_sumZ, filter_app, map_app. apply sumZ_app.
Qed.

Lemma sumNetVol_perm p l1 l2 :
  Permutation l1 l2 ->
  IndicatorCalculator.sumNetVol p l1 = IndicatorCalculator.sumNetVol p l2.
Proof.
  intros H. rewrite !sumNetVol_sumZ. apply sumZ_perm, Permutation_map.
  induction H; simpl.
  - constructor.
  - destruct (p x); [now constructor|assumption].
  - destruct (p x), (p y); try reflexivity; now constructor.
  - etransitivity; eassumption.
Qed.

Lemma isLong_isShort_sum l :
  IndicatorCalculator.sumNetVol Spec.isLong l + IndicatorCalculator.sumNetVol Spec.isShort l
  = Js.sumZ (map 席位分析数据.net_vol l).
Proof.
  induction l as [|x l IH]; [rewrite !sumNetVol_sumZ; reflexivity|].
  rewrite !sumNetVol_cons. cbn [map Js.sumZ fold_right].
  fold (Js.sumZ (map 席位分析数据.net_vol l)). rewrite <- IH.
  unfold Spec.isLong, Spec.isShort.
  destruct (0 <? 席位分析数据.net_vol x) eqn:P, (席位分析数据.net_vol x <? 0) eqn:N;
    rewrite ?Z.ltb_lt, ?Z.ltb_ge in P, N; lia.
Qed.

Lemma isLong_sum l :
  IndicatorCalculator.sumNetVol Spec.isLong l
  = Js.sumZ (map (fun r => Spec.longPart (席位分析数据.net_vol r)) l).
Proof.
  induction l as [|x l IH]; [rewrite sumNetVol_sumZ; reflexivity|].
  rewrite sumNetVol_cons, IH. reflexivity.
Qed.

Lemma isShort_sum l :
  Z.abs (IndicatorCalculator.sumNetVol Spec.isShort l)
  = Js.sumZ (map (fun r => Spec.shortPart (席位分析数据.net_vol r)) l).
Proof.
  assert (H : - IndicatorCalculator.sumNetVol Spec.isShort l
              = Js.sumZ (map (fun r => Spec.shortPart (席位分析数据.net_vol r)) l)).
  { induction l as [|x l IH]; [rewrite sumNetVol_sumZ; reflexivity|].
    rewrite sumNetVol_cons. cbn [map Js.sumZ fold_right].
    fold (Js.sumZ (map (fun r => Spec.shortPart (席位分析数据.net_vol r)) l)).
    rewrite <- IH. unfold Spec.isShort, Spec.shortPart.
    destruct (席位分析数据.net_vol x <? 0) eqn:N; rewrite ?Z.ltb_lt in N; lia. }
  rewrite <- H.
  assert (IndicatorCalculator.sumNetVol Spec.isShort l <= 0); [|lia].
  apply sumNetVol_nonpos. intros x Hx. now apply Z.ltb_lt in Hx.
Qed.

Lemma longPart_nonneg v : 0 <= Spec.longPart v.
Proof. unfold Spec.longPart. destruct (0 <? v) eqn:E; rewrite ?Z.ltb_lt in E; lia. Qed.

Lemma shortPart_nonneg v : 0 <= Spec.shortPart v.
Proof. unfold Spec.shortPart. destruct (v <? 0); lia. Qed.

Lemma long_short_parts v : Spec.longPart v - Spec.shortPart v = v.
Proof.
  unfold Spec.longPart, Spec.shortPart.
  destruct (0 <? v) eqn:P, (v <? 0) eqn:N; rewrite ?Z.ltb_lt, ?Z.ltb_ge in P, N; lia.
Qed.

(** The values of [netForTopN] in closed form. *)
Lemma netForTopN_sums sorted n :
  let sel := IndicatorCalculator.selectTop n sorted in
  IndicatorCalculator.netForTopN sorted n
  = IndicatorCalculator.mkNet
      (Js.sumZ (map (fun r => Spec.longPart (席位分析数据.net_vol r)) sel))
      (Js.sumZ (map (fun r => Spec.shortPart (席位分析数据.net_vol r)) sel))
      (Js.sumZ (map 席位分析数据.net_vol sel)).
Proof.
  cbv zeta. unfold IndicatorCalculator.netForTopN. cbv zeta.
  fold Spec.isLong Spec.isShort.
  set (sel := IndicatorCalculator.selectTop n sorted).
  rewrite isShort_sum, isLong_sum. f_equal.
  induction sel as [|x sel IH]; [reflexivity|].
  cbn [map Js.sumZ fold_right].
  fold (Js.sumZ (map (fun r => Spec.longPart (席位分析数据.net_vol r)) sel)).
  fold (Js.sumZ (map (fun r => Spec.shortPart (席位分析数据.net_vol r)) sel)).
  fold (Js.sumZ (map 席位分析数据.net_vol sel)).
  pose proof (long_short_parts (席位分析数据.net_vol x)). lia.
Qed.

Lemma sumZ_nonneg l : Forall (fun x => 0 <= x) l -> 0 <= Js.sumZ l.
Proof. induction 1; simpl; lia. Qed.

Lemma sumZ_map_nonneg {A} (f : A -> Z) l :
  (forall x, 0 <= f x) -> 0 <= Js.sumZ (map f l).
Proof.
  intros H. apply sumZ_nonneg, Forall_forall. intros y Hy.
  apply in_map_iff in Hy. destruct Hy as (x & <- & _). apply H.
Qed.

Lemma firstn_split {A} (n m : nat) (l : list A) :
  (n <= m)%nat -> firstn m l = firstn n l ++ firstn (m - n) (skipn n l).
Proof.
  revert m l. induction n as [|n IH]; intros m l Hle.
  - simpl. now rewrite Nat.sub_0_r.
  - destruct m as [|m]; [lia|]. destruct l as [|x l].
    + simpl. now rewrite firstn_nil.
    + simpl. f_equal. apply IH. lia.
Qed.

(** A sum of non-negative terms over the first [n] elements grows with
    [n], and stays below the sum over the whole list. *)
Lemma sum_firstn_mono {A} (f : A -> Z) (n m : nat) (l : list A) :
  (forall x, 0 <= f x) -> (n <= m)%nat ->
  Js.sumZ (map f (firstn n l)) <= Js.sumZ (map f (firstn m l)) /\
  Js.sumZ (map f (firstn m l)) <= Js.sumZ (map f l).
Proof.
  intros Hf Hle. split.
  - rewrite (firstn_split n m l Hle), map_app, sumZ_app.
    pose proof (sumZ_map_nonneg f (firstn (m - n) (skipn n l)) Hf). lia.
  - rewrite <- (firstn_skipn m l) at 2. rewrite map_app, sumZ_app.
    pose proof (sumZ_map_nonneg f (skipn m l) Hf). lia.
Qed.

Lemma result_rows_of_groups {A B} (f : string * A -> B) (cmp : B -> B -> Z)
    (groups : JsMap.t A) (r : B) :
  In r (Js.sort cmp (map f groups)) -> exists g, In g groups /\ r = f g.
Proof.
  rewrite sort_In, in_map_iff. intros (g & <- & Hg). eauto.
Qed.

(** X1: every row of [calculateNetLongShort] is for a trading date of the
    input, and the rows come in ascending order of date.  At breadth all,
    netLong is the sum of the positive net positions of the date, netShort
    the sum of the absolute values of the negative ones, and netDiff is the
    sum of all net positions of the date, whatever their order. *)
Theorem calculateNetLongShort_totals (seatData : list 席位分析数据.t) :
  let results := IndicatorCalculator.calculateNetLongShort seatData in
  StronglySorted
    (fun a b => Spec.dateLe (净多空指标数据.trade_date a) (净多空指标数据.trade_date b))
    results /\
  (forall d, In d (map 净多空指标数据.trade_date results)
             <-> In d (map 席位分析数据.trade_date seatData)) /\
  Forall
    (fun r =>
       let dayData := Spec.dayOf seatData (净多空指标数据.trade_date r) in
       净多空指标数据.net_long_all r
       = Js.sumZ (map (fun s => Spec.longPart (席位分析数据.net_vol s)) dayData) /\
       净多空指标数据.net_short_all r
       = Js.sumZ (map (fun s => Spec.shortPart (席位分析数据.net_vol s)) dayData) /\
       净多空指标数据.net_diff_all r = Js.sumZ (map 席位分析数据.net_vol dayData))
    results.
Proof.
  cbv zeta. unfold IndicatorCalculator.calculateNetLongShort.
  destruct (groupByDate_grouped seatData) as [Hkeys Hval].
  set (G := IndicatorCalculator.groupByDate seatData) in *.
  set (cmp := fun a b : 净多空指标数据.t => Js.localeCompare _ _).
  assert (Hperm : Permutation (JsMap.keys G)
                    (map 净多空指标数据.trade_date
                       (Js.sort cmp (map IndicatorCalculator.netOfDay G)))).
  { apply results_dates_perm. now intros [d day]. }
  split; [|split].
  - apply (sort_by_date 净多空指标数据.trade_date).
  - intros d. split; intros H.
    + apply (Permutation_in _ (Permutation_sym Hperm)) in H.
      now rewrite Hkeys, setOf_In in H.
    + apply (Permutation_in _ Hperm). now rewrite Hkeys, setOf_In.
  - apply Forall_forall. intros r Hr.
    apply result_rows_of_groups in Hr. destruct Hr as ([d day] & Hin & ->).
    unfold IndicatorCalculator.netOfDay. cbv zeta.
    cbn [fst snd 净多空指标数据.trade_date 净多空指标数据.net_long_all
         净多空指标数据.net_short_all 净多空指标数据.net_diff_all].
    rewrite netForTopN_sums. cbv zeta.
    cbn [IndicatorCalculator.selectTop IndicatorCalculator.netLong
         IndicatorCalculator.netShort IndicatorCalculator.netDiff].
    rewrite <- (Hval _ _ Hin).
    pose proof (sort_perm IndicatorCalculator.byAbsNetVol day) as Hp.
    repeat split; symmetry; apply sumZ_perm, Permutation_map, Hp.
Qed.

(** X2: in every row of [calculateNetLongShort] the values are
    non-negative, they grow with the breadth (10, then 20, then all), and
    at each breadth netDiff is netLong minus netShort. *)
Theorem calculateNetLongShort_breadth (seatData : list 席位分析数据.t) :
  Forall
    (fun r =>
       (0 <= 净多空指标数据.net_long_10 r /\
        净多空指标数据.net_long_10 r <= 净多空指标数据.net_long_20 r /\
        净多空指标数据.net_long_20 r <= 净多空指标数据.net_long_all r) /\
       (0 <= 净多空指标数据.net_short_10 r /\
        净多空指标数据.net_short_10 r <= 净多空指标数据.net_short_20 r /\
        净多空指标数据.net_short_20 r <= 净多空指标数据.net_short_all r) /\
       净多空指标数据.net_diff_10 r
       = 净多空指标数据.net_long_10 r - 净多空指标数据.net_short_10 r /\
       净多空指标数据.net_diff_20 r
       = 净多空指标数据.net_long_20 r - 净多空指标数据.net_short_20 r /\
       净多空指标数据.net_diff_all r
       = 净多空指标数据.net_long_all r - 净多空指标数据.net_short_all r)
    (IndicatorCalculator.calculateNetLongShort seatData).
Proof.
  apply Forall_forall. intros r Hr.
  apply result_rows_of_groups in Hr. destruct Hr as ([d day] & _ & ->).
  unfold IndicatorCalculator.netOfDay. cbv zeta. cbn [fst snd].
  set (sorted := Js.sort IndicatorCalculator.byAbsNetVol day).
  cbn [净多空指标数据.net_long_10 净多空指标数据.net_long_20 净多空指标数据.net_long_all
       净多空指标数据.net_short_10 净多空指标数据.net_short_20 净多空指标数据.net_short_all
       净多空指标数据.net_diff_10 净多空指标数据.net_diff_20 净多空指标数据.net_diff_all].
  split; [|split; [|repeat split; reflexivity]].
  - rewrite !netForTopN_sums. cbv zeta.
    cbn [IndicatorCalculator.selectTop IndicatorCalculator.netLong]. unfold Js.slice0.
    set (f := fun r => Spec.longPart (席位分析数据.net_vol r)).
    assert (Hf : forall x, 0 <= f x) by (intros; apply longPart_nonneg).
    pose proof (sum_firstn_mono f 10 20 sorted Hf ltac:(lia)) as [H1 H2].
    pose proof (sumZ_map_nonneg f (firstn 10 sorted) Hf). lia.
  - rewrite !netForTopN_sums. cbv zeta.
    cbn [IndicatorCalculator.selectTop IndicatorCalculator.netShort]. unfold Js.slice0.
    set (f := fun r => Spec.shortPart (席位分析数据.net_vol r)).
    assert (Hf : forall x, 0 <= f x) by (intros; apply shortPart_nonneg).
    pose proof (sum_firstn_mono f 10 20 sorted Hf ltac:(lia)) as [H1 H2].
    pose proof (sumZ_map_nonneg f (firstn 10 sorted) Hf). lia.
Qed.

(** ** Real long/short: breadth, and the link with net long/short *)

Lemma sumZ_incl (f : string -> Z) (l1 l2 : list string) :
  NoDup l1 -> incl l1 l2 -> (forall x, 0 <= f x) ->
  Js.sumZ (map f l1) <= Js.sumZ (map f l2).
Proof.
  intros ND. revert l2. induction ND as [|x l1 Hx ND IH]; intros l2 Hincl Hf.
  - simpl. now apply sumZ_map_nonneg.
  - assert (Hin : In x l2) by (apply Hincl; now left).
    destruct (in_split _ _ Hin) as (a & b & ->).
    assert (Hincl' : incl l1 (a ++ b)).
    { intros y Hy. assert (Hy2 : In y (a ++ x :: b)) by (apply Hincl; now right).
      apply in_app_or in Hy2. apply in_or_app.
      destruct Hy2 as [?|[<-|?]]; [now left|contradiction|now right]. }
    specialize (IH _ Hincl' Hf).
    rewrite !map_app, !sumZ_app in *. simpl. lia.
Qed.

Lemma firstn_incl {A} (n m : nat) (l : list A) :
  (n <= m)%nat -> incl (firstn n l) (firstn m l).
Proof.
  intros Hle x Hx. rewrite (firstn_split n m l Hle). apply in_or_app. now left.
Qed.

Lemma distinctSeats_incl l1 l2 :
  incl l1 l2 -> incl (Spec.distinctSeats l1) (Spec.distinctSeats l2).
Proof.
  intros H s. unfold Spec.distinctSeats. rewrite !nodup_In, !in_map_iff.
  intros (e & <- & He). exists e. split; [reflexivity|now apply H].
Qed.

Lemma realRows_of_days seatData r :
  In r (IndicatorCalculator.calculateRealLongShort seatData) ->
  exists d day, r = Spec.realRowSpec d day.
Proof.
  unfold IndicatorCalculator.calculateRealLongShort. intros Hr.
  apply result_rows_of_groups in Hr. destruct Hr as ([d day] & _ & ->).
  exists d, day. apply realOfDay_spec.
Qed.

(** X3: in every row of [calculateRealLongShort] realLong and realShort are
    non-negative and grow with the breadth (10, then 20, then all), and at
    each breadth realDiff is realLong minus realShort. *)
Theorem calculateRealLongShort_breadth (seatData : list 席位分析数据.t) :
  Forall
    (fun r =>
       (0 <= 实多空指标数据.real_long_10 r /\
        实多空指标数据.real_long_10 r <= 实多空指标数据.real_long_20 r /\
        实多空指标数据.real_long_20 r <= 实多空指标数据.real_long_all r) /\
       (0 <= 实多空指标数据.real_short_10 r /\
        实多空指标数据.real_short_10 r <= 实多空指标数据.real_short_20 r /\
        实多空指标数据.real_short_20 r <= 实多空指标数据.real_short_all r) /\
       实多空指标数据.real_diff_10 r
       = 实多空指标数据.real_long_10 r - 实多空指标数据.real_short_10 r /\
       实多空指标数据.real_diff_20 r
       = 实多空指标数据.real_long_20 r - 实多空指标数据.real_short_20 r /\
       实多空指标数据.real_diff_all r
       = 实多空指标数据.real_long_all r - 实多空指标数据.real_short_all r)
    (IndicatorCalculator.calculateRealLongShort seatData).
Proof.
  apply Forall_forall. intros r Hr.
  destruct (realRows_of_days seatData r Hr) as (d & day & ->).
  unfold Spec.realRowSpec, Spec.realSpec. cbv zeta.
  cbn [实多空指标数据.real_long_10 实多空指标数据.real_long_20 实多空指标数据.real_long_all
       实多空指标数据.real_short_10 实多空指标数据.real_short_20
       实多空指标数据.real_short_all 实多空指标数据.real_diff_10
       实多空指标数据.real_diff_20 实多空指标数据.real_diff_all
       IndicatorCalculator.realLong IndicatorCalculator.realShort
       IndicatorCalculator.realDiff IndicatorCalculator.selectTop].
  set (pool := IndicatorCalculator.combinedVolumes day). unfold Js.slice0.
  assert (H1 : incl (Spec.distinctSeats (firstn 10 pool)) (Spec.distinctSeats (firstn 20 pool)))
    by (apply distinctSeats_incl, firstn_incl; lia).
  assert (H2 : incl (Spec.distinctSeats (firstn 20 pool)) (Spec.distinctSeats pool)).
  { apply distinctSeats_incl. intros x. apply firstn_In. }
  assert (ND : forall l, NoDup (Spec.distinctSeats l)) by (intros; apply NoDup_nodup).
  split; [|split; [|repeat split; reflexivity]].
  - set (f := fun s => Spec.longPart (Spec.netVolOf day s)).
    assert (Hf : forall x, 0 <= f x) by (intros; apply longPart_nonneg).
    pose proof (sumZ_incl f _ _ (ND _) H1 Hf).
    pose proof (sumZ_incl f _ _ (ND _) H2 Hf).
    pose proof (sumZ_map_nonneg f (Spec.distinctSeats (firstn 10 pool)) Hf). lia.
  - set (f := fun s => Spec.shortPart (Spec.netVolOf day s)).
    assert (Hf : forall x, 0 <= f x) by (intros; apply shortPart_nonneg).
    pose proof (sumZ_incl f _ _ (ND _) H1 Hf).
    pose proof (sumZ_incl f _ _ (ND _) H2 Hf).
    pose proof (sumZ_map_nonneg f (Spec.distinctSeats (firstn 10 pool)) Hf). lia.
Qed.

Lemma insert_map {A B} (h : A -> B) (cmp : B -> B -> Z) (x : A) (l : list A) :
  Js.insert cmp (h x) (map h l)
  = map h (Js.insert (fun a b => cmp (h a) (h b)) x l).
Proof.
  induction l as [|y l IH]; simpl; [reflexivity|].
  destruct (cmp (h x) (h y) <=? 0); simpl; [reflexivity|]. now rewrite IH.
Qed.

(** Sorting the images of a list is sorting the list by the images. *)
Lemma sort_map {A B} (h : A -> B) (cmp : B -> B -> Z) (l : list A) :
  Js.sort cmp (map h l) = map h (Js.sort (fun a b => cmp (h a) (h b)) l).
Proof.
  induction l as [|x l IH]; [reflexivity|].
  change (Js.sort cmp (map h (x :: l)))
    with (Js.insert cmp (h x) (Js.sort cmp (map h l))).
  rewrite IH. apply insert_map.
Qed.

Lemma distinctSeats_all_perm day :
  NoDup (map 席位分析数据.seat_name day) ->
  Permutation (Spec.distinctSeats (IndicatorCalculator.combinedVolumes day))
    (map 席位分析数据.seat_name day).
Proof.
  intros ND. apply NoDup_Permutation; [apply NoDup_nodup|exact ND|].
  intros s. unfold Spec.distinctSeats. rewrite nodup_In. split.
  - rewrite in_map_iff. intros (e & <- & He). now apply pool_seat_in_day.
  - rewrite !in_map_iff. intros (r & <- & Hr).
    exists {| IndicatorCalculator.seat_name := 席位分析数据.seat_name r;
              IndicatorCalculator.volume := 席位分析数据.long_vol r;
              IndicatorCalculator.type := IndicatorCalculator.long;
              IndicatorCalculator.net_vol := 席位分析数据.net_vol r |}.
    split; [reflexivity|].
    unfold IndicatorCalculator.combinedVolumes. rewrite sort_In, in_flat_map.
    exists r. split; [exact Hr|now left].
Qed.

Lemma real_all_is_net_all day :
  NoDup (map 席位分析数据.seat_name day) ->
  let real := Spec.realSpec day IndicatorCalculator.All in
  let net :=
    IndicatorCalculator.netForTopN (Js.sort IndicatorCalculator.byAbsNetVol day)
      IndicatorCalculator.All in
  IndicatorCalculator.realLong real = IndicatorCalculator.netLong net /\
  IndicatorCalculator.realShort real = IndicatorCalculator.netShort net /\
  IndicatorCalculator.realDiff real = IndicatorCalculator.netDiff net.
Proof.
  intros ND. cbv zeta. rewrite netForTopN_sums. cbv zeta.
  unfold Spec.realSpec. cbv zeta.
  cbn [IndicatorCalculator.selectTop IndicatorCalculator.realLong
       IndicatorCalculator.realShort IndicatorCalculator.realDiff
       IndicatorCalculator.netLong IndicatorCalculator.netShort
       IndicatorCalculator.netDiff].
  pose proof (distinctSeats_all_perm day ND) as Hperm.
  pose proof (sort_perm IndicatorCalculator.byAbsNetVol day) as Hsort.
  assert (H : forall f : Z -> Z,
             Js.sumZ (map (fun s => f (Spec.netVolOf day s))
                        (Spec.distinctSeats (IndicatorCalculator.combinedVolumes day)))
             = Js.sumZ (map (fun r => f (席位分析数据.net_vol r))
                          (Js.sort IndicatorCalculator.byAbsNetVol day))).
  { intros f. rewrite (sumZ_perm _ _ (Permutation_map _ Hperm)).
    rewrite <- (sumZ_perm _ _ (Permutation_map _ Hsort)).
    rewrite map_map. f_equal. apply map_ext_in. intros r Hr.
    now rewrite netVolOf_unique. }
  rewrite (H Spec.longPart), (H Spec.shortPart).
  split; [reflexivity|split; [reflexivity|]].
  set (sorted := Js.sort IndicatorCalculator.byAbsNetVol day).
  clear. induction sorted as [|x l IH]; [reflexivity|].
  cbn [map Js.sumZ fold_right].
  fold (Js.sumZ (map (fun r => Spec.longPart (席位分析数据.net_vol r)) l)).
  fold (Js.sumZ (map (fun r => Spec.shortPart (席位分析数据.net_vol r)) l)).
  fold (Js.sumZ (map 席位分析数据.net_vol l)).
  pose proof (long_short_parts (席位分析数据.net_vol x)). lia.
Qed.

(** X4: when no seat has two rows on one date, real long/short and net
    long/short agree at breadth all: the two calculators return the same
    dates in the same order with the same long, short and diff values. *)
Theorem real_all_equals_net_all (seatData : list 席位分析数据.t) :
  (forall d, NoDup (map 席位分析数据.seat_name (Spec.dayOf seatData d))) ->
  map (fun r => (实多空指标数据.trade_date r, 实多空指标数据.real_long_all r,
                 实多空指标数据.real_short_all r, 实多空指标数据.real_diff_all r))
    (IndicatorCalculator.calculateRealLongShort seatData)
  = map (fun r => (净多空指标数据.trade_date r, 净多空指标数据.net_long_all r,
                   净多空指标数据.net_short_all r, 净多空指标数据.net_diff_all r))
      (IndicatorCalculator.calculateNetLongShort seatData).
Proof.
  intros Huniq.
  unfold IndicatorCalculator.calculateRealLongShort,
    IndicatorCalculator.calculateNetLongShort. cbv zeta.
  destruct (groupByDate_grouped seatData) as [_ Hval].
  set (G := IndicatorCalculator.groupByDate seatData) in *.
  rewrite !sort_map, !map_map.
  change (fun a b : string * list 席位分析数据.t =>
            Js.localeCompare
              (实多空指标数据.trade_date (IndicatorCalculator.realOfDay a))
              (实多空指标数据.trade_date (IndicatorCalculator.realOfDay b)))
    with (fun a b : string * list 席位分析数据.t => Js.localeCompare (fst a) (fst b)).
  change (fun a b : string * list 席位分析数据.t =>
            Js.localeCompare
              (净多空指标数据.trade_date (IndicatorCalculator.netOfDay a))
              (净多空指标数据.trade_date (IndicatorCalculator.netOfDay b)))
    with (fun a b : string * list 席位分析数据.t => Js.localeCompare (fst a) (fst b)).
  apply map_ext_in. intros [d day] Hin. apply sort_In in Hin.
  rewrite realOfDay_spec.
  assert (ND : NoDup (map 席位分析数据.seat_name day)).
  { rewrite (Hval _ _ Hin). apply Huniq. }
  destruct (real_all_is_net_all day ND) as (H1 & H2 & H3).
  unfold Spec.realRowSpec, IndicatorCalculator.netOfDay. cbv zeta. cbn [fst snd].
  cbn [实多空指标数据.trade_date 实多空指标数据.real_long_all
       实多空指标数据.real_short_all 实多空指标数据.real_diff_all
       净多空指标数据.trade_date 净多空指标数据.net_long_all
       净多空指标数据.net_short_all 净多空指标数据.net_diff_all].
  now rewrite H1, H2, H3.
Qed.

(** X4 on the sample rows. *)
Lemma real_all_equals_net_all_sample :
  map (fun r => (实多空指标数据.trade_date r, 实多空指标数据.real_long_all r,
                 实多空指标数据.real_short_all r, 实多空指标数据.real_diff_all r))
    (IndicatorCalculator.calculateRealLongShort Sample.realData)
  = [ ("2024-01-02", 25, 0, 25); ("2024-01-03", 125, 97, 28) ]%string /\
  map (fun r => (净多空指标数据.trade_date r, 净多空指标数据.net_long_all r,
                 净多空指标数据.net_short_all r, 净多空指标数据.net_diff_all r))
    (IndicatorCalculator.calculateNetLongShort Sample.realData)
  = [ ("2024-01-02", 25, 0, 25); ("2024-01-03", 125, 97, 28) ]%string.
Proof.
  assert (H : forall d, NoDup (map 席位分析数据.seat_name (Spec.dayOf Sample.realData d))).
  { intros d. destruct (String.eqb "2024-01-03" d) eqn:E1.
    - apply String.eqb_eq in E1. subst d. cbn.
      repeat constructor; simpl; intuition discriminate.
    - destruct (String.eqb "2024-01-02" d) eqn:E2.
      + apply String.eqb_eq in E2. subst d. cbn.
        repeat constructor; simpl; intuition discriminate.
      + unfold Spec.dayOf, Sample.realData, Spec.onDate. cbn [filter].
        cbn [Sample.seat 席位分析数据.trade_date]. rewrite E1, E2. constructor. }
  pose proof (real_all_equals_net_all Sample.realData H) as E.
  split; [reflexivity|]. rewrite <- E. reflexivity.
Defined.

(** ** Flow long/short: signs, and the link with net long/short *)

Lemma flowForTopN_signs sorted n :
  let flow := IndicatorCalculator.flowForTopN sorted n in
  0 <= IndicatorCalculator.addLong flow /\
  0 <= IndicatorCalculator.addShort flow /\
  IndicatorCalculator.reduceLong flow <= 0 /\
  IndicatorCalculator.reduceShort flow <= 0.
Proof.
  cbv zeta. unfold IndicatorCalculator.flowForTopN. cbv zeta.
  cbn [IndicatorCalculator.addLong IndicatorCalculator.addShort
       IndicatorCalculator.reduceLong IndicatorCalculator.reduceShort].
  set (sel := IndicatorCalculator.selectTop n sorted).
  repeat split.
  - apply sumNetVol_nonneg. intros x Hx. apply andb_prop in Hx.
    destruct Hx as [Hx _]. apply Z.ltb_lt in Hx. lia.
  - apply Z.abs_nonneg.
  - assert (0 <= IndicatorCalculator.sumNetVol
                   (fun seat => (0 <? 席位分析数据.net_vol seat)
                                && (席位分析数据.net_chg seat <? 0)) sel); [|lia].
    apply sumNetVol_nonneg. intros x Hx. apply andb_prop in Hx.
    destruct Hx as [Hx _]. apply Z.ltb_lt in Hx. lia.
  - apply sumNetVol_nonpos. intros x Hx. apply andb_prop in Hx.
    destruct Hx as [Hx _]. now apply Z.ltb_lt in Hx.
Qed.

(** X5: in every row of [calculateFlowLongShort] and at every breadth,
    addLong and addShort are non-negative and reduceLong and reduceShort
    are non-positive. *)
Theorem calculateFlowLongShort_signs (seatData : list 席位分析数据.t) :
  Forall
    (fun r =>
       (0 <= 流多空指标数据.add_long_10 r /\ 0 <= 流多空指标数据.add_long_20 r /\
        0 <= 流多空指标数据.add_long_all r) /\
       (0 <= 流多空指标数据.add_short_10 r /\ 0 <= 流多空指标数据.add_short_20 r /\
        0 <= 流多空指标数据.add_short_all r) /\
       (流多空指标数据.reduce_long_10 r <= 0 /\ 流多空指标数据.reduce_long_20 r <= 0 /\
        流多空指标数据.reduce_long_all r <= 0) /\
       (流多空指标数据.reduce_short_10 r <= 0 /\ 流多空指标数据.reduce_short_20 r <= 0 /\
        流多空指标数据.reduce_short_all r <= 0))
    (IndicatorCalculator.calculateFlowLongShort seatData).
Proof.
  apply Forall_forall. intros r Hr.
  unfold IndicatorCalculator.calculateFlowLongShort in Hr.
  apply result_rows_of_groups in Hr. destruct Hr as ([d day] & _ & ->).
  unfold IndicatorCalculator.flowOfDay. cbv zeta. cbn [fst snd].
  set (sorted := Js.sort IndicatorCalculator.byAbsNetVol day).
  destruct (flowForTopN_signs sorted (IndicatorCalculator.Top 10)) as (A1 & B1 & C1 & D1).
  destruct (flowForTopN_signs sorted (IndicatorCalculator.Top 20)) as (A2 & B2 & C2 & D2).
  destruct (flowForTopN_signs sorted IndicatorCalculator.All) as (A3 & B3 & C3 & D3).
  cbn [流多空指标数据.add_long_10 流多空指标数据.add_long_20 流多空指标数据.add_long_all
       流多空指标数据.add_short_10 流多空指标数据.add_short_20 流多空指标数据.add_short_all
       流多空指标数据.reduce_long_10 流多空指标数据.reduce_long_20
       流多空指标数据.reduce_long_all 流多空指标数据.reduce_short_10
       流多空指标数据.reduce_short_20 流多空指标数据.reduce_short_all].
  repeat split; assumption.
Qed.

(** The seats that add to or reduce a long position are long seats, and
    likewise for short: flow never exceeds net. *)
Lemma flow_within_net sorted n :
  let flow := IndicatorCalculator.flowForTopN sorted n in
  let net := IndicatorCalculator.netForTopN sorted n in
  IndicatorCalculator.addLong flow - IndicatorCalculator.reduceLong flow
  <= IndicatorCalculator.netLong net /\
  IndicatorCalculator.addShort flow - IndicatorCalculator.reduceShort flow
  <= IndicatorCalculator.netShort net /\
  ((forall seat, In seat (IndicatorCalculator.selectTop n sorted) ->
                 席位分析数据.net_chg seat <> 0) ->
   IndicatorCalculator.addLong flow - IndicatorCalculator.reduceLong flow
   = IndicatorCalculator.netLong net /\
   IndicatorCalculator.addShort flow - IndicatorCalculator.reduceShort flow
   = IndicatorCalculator.netShort net).
Proof.
  cbv zeta. unfold IndicatorCalculator.flowForTopN, IndicatorCalculator.netForTopN.
  cbv zeta.
  cbn [IndicatorCalculator.addLong IndicatorCalculator.addShort
       IndicatorCalculator.reduceLong IndicatorCalculator.reduceShort
       IndicatorCalculator.netLong IndicatorCalculator.netShort].
  fold Spec.flowAddLong Spec.flowAddShort Spec.flowReduceLong Spec.flowReduceShort
    Spec.isLong Spec.isShort.
  set (sel := IndicatorCalculator.selectTop n sorted).
  assert (HS : IndicatorCalculator.sumNetVol Spec.isShort sel <= 0).
  { apply sumNetVol_nonpos. intros x Hx. now apply Z.ltb_lt in Hx. }
  assert (HA : IndicatorCalculator.sumNetVol Spec.flowAddShort sel <= 0).
  { apply sumNetVol_nonpos. intros x Hx. apply andb_prop in Hx.
    destruct Hx as [Hx _]. now apply Z.ltb_lt in Hx. }
  assert (HL : IndicatorCalculator.sumNetVol Spec.flowAddLong sel
               + IndicatorCalculator.sumNetVol Spec.flowReduceLong sel
               <= IndicatorCalculator.sumNetVol Spec.isLong sel /\
               IndicatorCalculator.sumNetVol Spec.isShort sel
               <= IndicatorCalculator.sumNetVol Spec.flowAddShort sel
                  + IndicatorCalculator.sumNetVol Spec.flowReduceShort sel /\
               ((forall seat, In seat sel -> 席位分析数据.net_chg seat <> 0) ->
                IndicatorCalculator.sumNetVol Spec.flowAddLong sel
                + IndicatorCalculator.sumNetVol Spec.flowReduceLong sel
                = IndicatorCalculator.sumNetVol Spec.isLong sel /\
                IndicatorCalculator.sumNetVol Spec.isShort sel
                = IndicatorCalculator.sumNetVol Spec.flowAddShort sel
                  + IndicatorCalculator.sumNetVol Spec.flowReduceShort sel)).
  { clear HS HA. induction sel as [|x sel IH].
    - rewrite !sumNetVol_sumZ. simpl. lia.
    - rewrite !sumNetVol_cons. destruct IH as (I1 & I2 & I3).
      unfold Spec.flowAddLong at 1 3, Spec.flowReduceLong at 1 3, Spec.isLong at 1 3,
        Spec.flowAddShort at 1 3, Spec.flowReduceShort at 1 3, Spec.isShort at 1 3.
      assert (Hc : 席位分析数据.net_chg x = 0 \/ 席位分析数据.net_chg x <> 0) by lia.
      destruct (0 <? 席位分析数据.net_vol x) eqn:V1,
               (席位分析数据.net_vol x <? 0) eqn:V2,
               (0 <? 席位分析数据.net_chg x) eqn:C1,
               (席位分析数据.net_chg x <? 0) eqn:C2;
        cbn [andb];
        rewrite ?Z.ltb_lt, ?Z.ltb_ge in V1, V2, C1, C2;
        try lia;
        (split; [lia|split; [lia|]]; intros Hnz;
         assert (Hx : 席位分析数据.net_chg x <> 0) by (apply Hnz; now left);
         specialize (I3 (fun s Hs => Hnz s (or_intror Hs))); lia). }
  destruct HL as (H1 & H2 & H3).
  split; [lia|split; [lia|]]. intros Hnz. specialize (H3 Hnz). lia.
Qed.

Lemma same_day_of_groups seatData d day day' :
  In (d, day) (IndicatorCalculator.groupByDate seatData) ->
  In (d, day') (IndicatorCalculator.groupByDate seatData) -> day = day'.
Proof.
  destruct (groupByDate_grouped seatData) as [_ Hval].
  intros H1 H2. now rewrite (Hval _ _ H1), (Hval _ _ H2).
Qed.

(** X6: on every trading date and at every breadth, the long flow
    (addLong minus reduceLong) is at most netLong and the short flow
    (addShort minus reduceShort) is at most netShort. *)
Theorem flow_is_within_net (seatData : list 席位分析数据.t) :
  Forall
    (fun flow =>
       Forall
         (fun net =>
            流多空指标数据.trade_date flow = 净多空指标数据.trade_date net ->
            (流多空指标数据.add_long_10 flow - 流多空指标数据.reduce_long_10 flow
             <= 净多空指标数据.net_long_10 net /\
             流多空指标数据.add_long_20 flow - 流多空指标数据.reduce_long_20 flow
             <= 净多空指标数据.net_long_20 net /\
             流多空指标数据.add_long_all flow - 流多空指标数据.reduce_long_all flow
             <= 净多空指标数据.net_long_all net) /\
            (流多空指标数据.add_short_10 flow - 流多空指标数据.reduce_short_10 flow
             <= 净多空指标数据.net_short_10 net /\
             流多空指标数据.add_short_20 flow - 流多空指标数据.reduce_short_20 flow
             <= 净多空指标数据.net_short_20 net /\
             流多空指标数据.add_short_all flow - 流多空指标数据.reduce_short_all flow
             <= 净多空指标数据.net_short_all net))
         (IndicatorCalculator.calculateNetLongShort seatData))
    (IndicatorCalculator.calculateFlowLongShort seatData).
Proof.
  apply Forall_forall. intros rf Hf. apply Forall_forall. intros rn Hn.
  unfold IndicatorCalculator.calculateFlowLongShort in Hf.
  unfold IndicatorCalculator.calculateNetLongShort in Hn.
  apply result_rows_of_groups in Hf. destruct Hf as ([d day] & Hin & ->).
  apply result_rows_of_groups in Hn. destruct Hn as ([d' day'] & Hin' & ->).
  cbn [IndicatorCalculator.flowOfDay IndicatorCalculator.netOfDay
       流多空指标数据.trade_date 净多空指标数据.trade_date fst snd].
  intros <-. rewrite <- (same_day_of_groups seatData d day day' Hin Hin').
  set (sorted := Js.sort IndicatorCalculator.byAbsNetVol day).
  destruct (flow_within_net sorted (IndicatorCalculator.Top 10)) as (A1 & B1 & _).
  destruct (flow_within_net sorted (IndicatorCalculator.Top 20)) as (A2 & B2 & _).
  destruct (flow_within_net sorted IndicatorCalculator.All) as (A3 & B3 & _).
  repeat split; assumption.
Qed.

(** ** Trend *)

Lemma fold_min_spec (t : list Z) (x : Z) :
  let m := fold_left Z.min t x in
  In m (x :: t) /\ forall y, In y (x :: t) -> m <= y.
Proof.
  cbv zeta. revert x. induction t as [|a t IH]; intros x; simpl.
  - split; [now left|]. intros y [<-|[]]. lia.
  - destruct (IH (Z.min x a)) as [Hin Hle]. split.
    + destruct Hin as [E|Hin]; [|now right; right].
      rewrite <- E. destruct (Z.min_spec x a) as [[_ ->]|[_ ->]]; [now left|right; now left].
    + intros y Hy.
      assert (Hm := Hle (Z.min x a) (or_introl eq_refl)).
      destruct Hy as [<-|[<-|Hy]]; [lia|lia|]. apply Hle. now right.
Qed.

Lemma fold_max_spec (t : list Z) (x : Z) :
  let m := fold_left Z.max t x in
  In m (x :: t) /\ forall y, In y (x :: t) -> y <= m.
Proof.
  cbv zeta. revert x. induction t as [|a t IH]; intros x; simpl.
  - split; [now left|]. intros y [<-|[]]. lia.
  - destruct (IH (Z.max x a)) as [Hin Hle]. split.
    + destruct Hin as [E|Hin]; [|now right; right].
      rewrite <- E. destruct (Z.max_spec x a) as [[_ ->]|[_ ->]]; [right; now left|now left].
    + intros y Hy.
      assert (Hm := Hle (Z.max x a) (or_introl eq_refl)).
      destruct Hy as [<-|[<-|Hy]]; [lia|lia|]. apply Hle. now right.
Qed.

Lemma minZ_spec l m :
  Js.minZ l = Some m -> In m l /\ forall y, In y l -> m <= y.
Proof.
  destruct l as [|x t]; [discriminate|]. intros [= <-]. apply fold_min_spec.
Qed.

Lemma maxZ_spec l m :
  Js.maxZ l = Some m -> In m l /\ forall y, In y l -> y <= m.
Proof.
  destruct l as [|x t]; [discriminate|]. intros [= <-]. apply fold_max_spec.
Qed.

Lemma last_snoc {A} (l : list A) (x d : A) : last (l ++ [x]) d = x.
Proof. apply last_last. Qed.

(** The trend of a history that ends with [prev ++ [cur]], [prev] being the
    observations of the period. *)
Lemma trend_decomposed before prev cur period :
  List.length prev = IndicatorCalculator.trendDays period ->
  exists lo hi,
    Js.minZ prev = Some lo /\ Js.maxZ prev = Some hi /\
    IndicatorCalculator.calculateTrendIndicator (before ++ prev ++ [cur]) period
    = Z.max (Z.abs (cur - lo)) (Z.abs (cur - hi)).
Proof.
  intros Hlen. unfold IndicatorCalculator.calculateTrendIndicator. cbv zeta.
  set (n := IndicatorCalculator.trendDays period) in *.
  assert (Hn : (5 <= n)%nat) by (unfold n; destruct period; simpl; lia).
  rewrite !length_app. cbn [List.length].
  replace (List.length before + (List.length prev + 1) <? n + 1)%nat with false
    by (symmetry; apply Nat.ltb_ge; lia).
  rewrite app_assoc, last_snoc.
  unfold Js.sliceLast. rewrite <- app_assoc, !length_app. cbn [List.length].
  replace (List.length before + (List.length prev + 1) - (n + 1))%nat
    with (List.length before + 0)%nat by lia.
  rewrite Nat.add_0_r, skipn_app, skipn_all, Nat.sub_diag. cbn [skipn app].
  rewrite removelast_last.
  destruct prev as [|x t]; [simpl in Hlen; lia|].
  exists (fold_left Z.min t x), (fold_left Z.max t x). repeat split.
Qed.

(** X7: the trend is 0 on a history of fewer than period + 1 observations;
    otherwise it is the largest distance between the last observation and
    the observations of the period before it. *)
Theorem calculateTrendIndicator_is_largest_distance
    (netPositions : list Z) (period : IndicatorCalculator.TrendPeriod) :
  ((List.length netPositions < IndicatorCalculator.trendDays period + 1)%nat ->
   IndicatorCalculator.calculateTrendIndicator netPositions period = 0) /\
  (forall before prev cur,
     netPositions = before ++ prev ++ [cur] ->
     List.length prev = IndicatorCalculator.trendDays period ->
     (forall x, In x prev ->
                Z.abs (cur - x)
                <= IndicatorCalculator.calculateTrendIndicator netPositions period) /\
     (exists x, In x prev /\
                IndicatorCalculator.calculateTrendIndicator netPositions period
                = Z.abs (cur - x))).
Proof.
  split.
  - intros H. unfold IndicatorCalculator.calculateTrendIndicator. cbv zeta.
    apply Nat.ltb_lt in H. now rewrite H.
  - intros before prev cur -> Hlen.
    destruct (trend_decomposed before prev cur period Hlen) as (lo & hi & Hlo & Hhi & ->).
    destruct (minZ_spec _ _ Hlo) as [Hlo_in Hlo_le].
    destruct (maxZ_spec _ _ Hhi) as [Hhi_in Hhi_le].
    split.
    + intros x Hx. specialize (Hlo_le x Hx). specialize (Hhi_le x Hx). lia.
    + destruct (Z.max_spec (Z.abs (cur - lo)) (Z.abs (cur - hi))) as [[_ ->]|[_ ->]];
        eauto.
Qed.

Lemma fold_min_shift c t x :
  fold_left Z.min (map (Z.add c) t) (c + x) = c + fold_left Z.min t x.
Proof.
  revert x. induction t as [|a t IH]; intros x; simpl; [reflexivity|].
  rewrite <- IH. f_equal. lia.
Qed.

Lemma fold_max_shift c t x :
  fold_left Z.max (map (Z.add c) t) (c + x) = c + fold_left Z.max t x.
Proof.
  revert x. induction t as [|a t IH]; intros x; simpl; [reflexivity|].
  rewrite <- IH. f_equal. lia.
Qed.

Lemma decompose_history (l : list Z) (n : nat) :
  (n + 1 <= List.length l)%nat ->
  exists before prev cur, l = before ++ prev ++ [cur] /\ List.length prev = n.
Proof.
  intros H.
  destruct (exists_last (l := l)) as (l' & cur & ->);
    [intros ->; simpl in H; lia|].
  rewrite length_app in H. simpl in H.
  exists (firstn (List.length l' - n) l'), (skipn (List.length l' - n) l'), cur.
  split.
  - now rewrite app_assoc, firstn_skipn.
  - rewrite length_skipn. lia.
Qed.

(** X8: the trend depends on the differences between the observations
    only: adding one constant to every net position leaves it unchanged. *)
Theorem calculateTrendIndicator_shift
    (netPositions : list Z) (period : IndicatorCalculator.TrendPeriod) (c : Z) :
  IndicatorCalculator.calculateTrendIndicator (map (Z.add c) netPositions) period
  = IndicatorCalculator.calculateTrendIndicator netPositions period.
Proof.
  destruct (Nat.ltb (List.length netPositions)
              (IndicatorCalculator.trendDays period + 1)) eqn:E.
  - unfold IndicatorCalculator.calculateTrendIndicator. cbv zeta.
    now rewrite length_map, E.
  - apply Nat.ltb_ge in E.
    destruct (decompose_history netPositions _ E) as (before & prev & cur & -> & Hlen).
    rewrite !map_app. cbn [map].
    destruct (trend_decomposed before prev cur period Hlen) as (lo & hi & Hlo & Hhi & ->).
    assert (Hlen' : List.length (map (Z.add c) prev) = IndicatorCalculator.trendDays period)
      by now rewrite length_map.
    destruct (trend_decomposed (map (Z.add c) before) (map (Z.add c) prev) (c + cur)
                period Hlen') as (lo' & hi' & Hlo' & Hhi' & ->).
    destruct prev as [|x t]; [discriminate|].
    simpl in Hlo, Hhi, Hlo', Hhi'.
    rewrite fold_min_shift in Hlo'. rewrite fold_max_shift in Hhi'.
    injection Hlo as <-. injection Hhi as <-.
    injection Hlo' as <-. injection Hhi' as <-.
    f_equal; f_equal; lia.
Qed.

(** ** Profit and loss: short histories, whole prices *)

(** The first index of the window of [calculateProfitLoss]. *)
Lemma calculateProfitLoss_window positions contractUnit period :
  (2 <= List.length positions)%nat ->
  let len := List.length positions in
  let start := (len - Nat.min len (IndicatorCalculator.profitDays period))%nat in
  IndicatorCalculator.calculateProfitLoss positions contractUnit period
  = Js.round
      (fold_left (IndicatorCalculator.addDailyProfit positions contractUnit)
         (seq (start + 1) (len - 1 - start)) 0%Q).
Proof.
  intros Hlen len start. unfold IndicatorCalculator.calculateProfitLoss. fold len.
  replace (len <? 2)%nat with false by (symmetry; apply Nat.ltb_ge; exact Hlen).
  assert (Hd : (15 <= IndicatorCalculator.profitDays period)%nat)
    by (destruct period; simpl; lia).
  replace (Z.to_nat (Z.max 0 (Z.of_nat (len - 1)
                              - Z.of_nat (IndicatorCalculator.profitDays period) + 1)))
    with start by (unfold start; lia).
  reflexivity.
Qed.

Lemma round_whole (z : Z) : Js.round (inject_Z z) = z.
Proof.
  unfold Js.round.
  assert (H : (inject_Z z <= inject_Z z + (1 # 2) < inject_Z (z + 1))%Q)
    by (rewrite inject_Z_plus; change (inject_Z 1) with 1%Q; split; lra).
  destruct H as [H1 H2].
  pose proof (Qfloor_resp_le _ _ H1) as F1. rewrite Qfloor_Z in F1.
  pose proof (Qfloor_le (inject_Z z + (1 # 2))) as F2.
  assert (F3 : (inject_Z (Qfloor (inject_Z z + (1 # 2))) < inject_Z (z + 1))%Q) by lra.
  rewrite <- Zlt_Qlt in F3. lia.
Qed.

Lemma exact_difference (a b u : Z) :
  2 * Z.abs a * Z.max 1 (Z.abs u) <= 2 ^ 53 ->
  2 * Z.abs b * Z.max 1 (Z.abs u) <= 2 ^ 53 ->
  Z.abs a <= 2 ^ 53 /\ Z.abs (a - b) <= 2 ^ 53 /\ Z.abs ((a - b) * u) <= 2 ^ 53.
Proof.
  intros Ha Hb. rewrite Z.abs_mul.
  pose proof (Z.abs_triangle a (- b)) as T. rewrite Z.abs_opp, Z.add_opp_r in T.
  pose proof (Z.abs_nonneg a). pose proof (Z.abs_nonneg b).
  pose proof (Z.abs_nonneg (a - b)). pose proof (Z.abs_nonneg u).
  set (m := Z.max 1 (Z.abs u)) in *.
  assert (1 <= m /\ Z.abs u <= m) as [M1 Mu] by (unfold m; lia).
  repeat split; nia.
Qed.

(** The value of a position with a whole price is computed exactly. *)
Lemma positionValue_exact contractUnit pos :
  Spec.exactFor contractUnit pos ->
  Js.fmul (inject_Z (IndicatorCalculator.netVol pos)) (IndicatorCalculator.settlePrice pos)
  = inject_Z (Spec.wholeValue pos).
Proof.
  intros [Hp Hb]. apply b64_int.
  - now destruct (exact_difference _ _ _ Hb Hb).
  - unfold Spec.wholeValue. rewrite inject_Z_mult, Hp at 1. reflexivity.
Qed.

(** On positions with whole prices the loop of [calculateProfitLoss] holds,
    after the day at index [s + k], the change of the value of the position
    since the day at index [s], times the contract unit. *)
Lemma addDailyProfit_telescope positions (unit : Z) (contractUnit : Q) s k :
  (contractUnit == inject_Z unit)%Q ->
  Forall (Spec.exactFor unit) positions ->
  (s + k < List.length positions)%nat ->
  fold_left (IndicatorCalculator.addDailyProfit positions contractUnit) (seq (s + 1) k) 0%Q
  = inject_Z ((Spec.wholeValueAt positions (s + k) - Spec.wholeValueAt positions s) * unit).
Proof.
  intros Hu Hall. rewrite Forall_forall in Hall.
  induction k as [|k IH]; intros Hk.
  - rewrite Nat.add_0_r, Z.sub_diag. reflexivity.
  - rewrite seq_S, fold_left_app, IH by lia. cbn [fold_left].
    unfold IndicatorCalculator.addDailyProfit, Spec.wholeValueAt.
    replace (s + 1 + k - 1)%nat with (s + k)%nat by lia.
    replace (s + 1 + k)%nat with (s + S k)%nat by lia.
    destruct (nth_error positions (s + S k)) as [today|] eqn:E1;
      [|apply nth_error_None in E1; lia].
    destruct (nth_error positions (s + k)) as [yesterday|] eqn:E2;
      [|apply nth_error_None in E2; lia].
    destruct (nth_error positions s) as [first|] eqn:E3;
      [|apply nth_error_None in E3; lia].
    pose proof (Hall _ (nth_error_In _ _ E1)) as Ht.
    pose proof (Hall _ (nth_error_In _ _ E2)) as Hy.
    pose proof (Hall _ (nth_error_In _ _ E3)) as Hf.
    rewrite (positionValue_exact unit today Ht), (positionValue_exact unit yesterday Hy).
    set (vt := Spec.wholeValue today). set (vy := Spec.wholeValue yesterday).
    set (vf := Spec.wholeValue first).
    destruct Ht as [_ Bt]. destruct Hy as [_ By]. destruct Hf as [_ Bf].
    fold vt in Bt. fold vy in By. fold vf in Bf.
    destruct (exact_difference vt vy unit Bt By) as (_ & D1 & D2).
    destruct (exact_difference vt vf unit Bt Bf) as (_ & _ & D3).
    assert (S1 : Js.fsub (inject_Z vt) (inject_Z vy) = inject_Z (vt - vy)).
    { apply b64_int; [exact D1|]. unfold Z.sub. rewrite inject_Z_plus, inject_Z_opp. ring. }
    rewrite S1.
    assert (S2 : Js.fmul (inject_Z (vt - vy)) contractUnit = inject_Z ((vt - vy) * unit)).
    { apply b64_int; [exact D2|]. rewrite inject_Z_mult, Hu. reflexivity. }
    rewrite S2.
    apply b64_int.
    + replace ((vt - vf) * unit) with ((vy - vf) * unit + (vt - vy) * unit) in D3 |- * by ring.
      exact D3.
    + rewrite <- inject_Z_plus. apply inject_Z_injective. ring.
Qed.

(** X9: [calculateProfitLoss] returns 0 on a history of fewer than two
    positions.  When the contract unit and every settlement price are whole
    numbers and twice the value of every position (net position times
    settlement price) times the contract unit stays within 2^53, no step
    rounds, the daily profits cancel out in pairs and the result is the
    change in the value of the position between the position [period - 1]
    trading days before the last one, or the first one on a shorter
    history, and the last one, times the contract unit. *)
Theorem calculateProfitLoss_telescopes
    (positions : list IndicatorCalculator.Position) (contractUnit : Q)
    (period : IndicatorCalculator.ProfitPeriod) :
  let len := List.length positions in
  let days := IndicatorCalculator.profitDays period in
  ((len < 2)%nat ->
   IndicatorCalculator.calculateProfitLoss positions contractUnit period = 0) /\
  (forall unit : Z,
     (contractUnit == inject_Z unit)%Q ->
     Forall (Spec.exactFor unit) positions ->
     ((2 <= len <= days)%nat ->
      IndicatorCalculator.calculateProfitLoss positions contractUnit period
      = (Spec.wholeValueAt positions (len - 1) - Spec.wholeValueAt positions 0) * unit) /\
     ((days <= len)%nat ->
      IndicatorCalculator.calculateProfitLoss positions contractUnit period
      = (Spec.wholeValueAt positions (len - 1) - Spec.wholeValueAt positions (len - days))
        * unit)).
Proof.
  cbv zeta. split.
  - intros H. unfold IndicatorCalculator.calculateProfitLoss.
    apply Nat.ltb_lt in H. now rewrite H.
  - intros unit Hu Hall.
    assert (Hclosed : (2 <= List.length positions)%nat ->
              IndicatorCalculator.calculateProfitLoss positions contractUnit period
              = (Spec.wholeValueAt positions (List.length positions - 1)
                 - Spec.wholeValueAt positions
                     (List.length positions
                      - Nat.min (List.length positions)
                          (IndicatorCalculator.profitDays period)))
                * unit).
    { intros H2. rewrite calculateProfitLoss_window by exact H2. cbv zeta.
      set (len := List.length positions) in *.
      assert (Hd : (15 <= IndicatorCalculator.profitDays period)%nat)
        by (destruct period; simpl; lia).
      set (start := (len - Nat.min len (IndicatorCalculator.profitDays period))%nat).
      rewrite (addDailyProfit_telescope positions unit contractUnit start (len - 1 - start)
                 Hu Hall) by (unfold start; fold len; lia).
      replace (start + (len - 1 - start))%nat with (len - 1)%nat by (unfold start; lia).
      apply round_whole. }
    split.
    + intros [H2 Hd]. rewrite Hclosed by exact H2.
      now rewrite Nat.min_l, Nat.sub_diag by exact Hd.
    + intros Hd.
      assert (H2 : (2 <= List.length positions)%nat) by (destruct period; simpl in Hd; lia).
      rewrite Hclosed by exact H2. now rewrite Nat.min_r by exact Hd.
Qed.

(** X9 on the first ten days of the sample history, with the contract
    unit 5: the position value goes from 0 to 1000. *)
Lemma calculateProfitLoss_telescopes_sample :
  Forall (Spec.exactFor 5) (firstn 10 Sample.history) /\
  IndicatorCalculator.calculateProfitLoss (firstn 10 Sample.history) 5
    IndicatorCalculator.P15
  = (1000 - 0) * 5.
Proof.
  assert (H : Forall (Spec.exactFor 5) (firstn 10 Sample.history)).
  { repeat constructor; vm_compute; congruence. }
  split; [exact H|].
  apply (proj1 (proj2 (calculateProfitLoss_telescopes (firstn 10 Sample.history) 5
                         IndicatorCalculator.P15) 5 (Qeq_refl _) H)).
  simpl. lia.
Defined.

(** X10: on a history of at most fifteen positions the profits over 15, 60
    and 120 days are one and the same number. *)
Theorem calculateProfitLoss_short_history
    (positions : list IndicatorCalculator.Position) (contractUnit : Q) :
  (List.length positions <= 15)%nat ->
  IndicatorCalculator.calculateProfitLoss positions contractUnit IndicatorCalculator.P15
  = IndicatorCalculator.calculateProfitLoss positions contractUnit IndicatorCalculator.P60 /\
  IndicatorCalculator.calculateProfitLoss positions contractUnit IndicatorCalculator.P60
  = IndicatorCalculator.calculateProfitLoss positions contractUnit IndicatorCalculator.P120.
Proof.
  intros Hlen.
  destruct (Nat.ltb (List.length positions) 2) eqn:E.
  - unfold IndicatorCalculator.calculateProfitLoss. rewrite E. split; reflexivity.
  - apply Nat.ltb_ge in E. rewrite !calculateProfitLoss_window by exact E. cbv zeta.
    cbn [IndicatorCalculator.profitDays].
    rewrite !Nat.min_l by lia. split; reflexivity.
Qed.

(** X10 on the first ten days of the sample history. *)
Lemma calculateProfitLoss_short_history_sample :
  IndicatorCalculator.calculateProfitLoss (firstn 10 Sample.history) 5
    IndicatorCalculator.P15 = 5000 /\
  IndicatorCalculator.calculateProfitLoss (firstn 10 Sample.history) 5
    IndicatorCalculator.P60 = 5000 /\
  IndicatorCalculator.calculateProfitLoss (firstn 10 Sample.history) 5
    IndicatorCalculator.P120 = 5000.
Proof.
  assert (H : (List.length (firstn 10 Sample.history) <= 15)%nat) by (vm_compute; lia).
  destruct (calculateProfitLoss_short_history (firstn 10 Sample.history) 5 H) as [E1 E2].
  assert (E0 : IndicatorCalculator.calculateProfitLoss (firstn 10 Sample.history) 5
                 IndicatorCalculator.P15 = 5000) by (vm_compute; reflexivity).
  split; [exact E0|]. split; [now rewrite <- E1|now rewrite <- E2, <- E1].
Defined.

(** ** Histories: priced positions, seat curves *)

(** X11: the positions handed to the profit computation keep the order of
    the seat history, carry a positive settlement price taken from a price
    record of their date, and leave out every date that has no price
    record: such a date is skipped, not given the price 0. *)
Theorem positionPriceData_skips_unpriced
    (seatHistory : list 席位分析数据.t) (priceData : list IndicatorCalculator.PriceInfo) :
  let positions := IndicatorCalculator.positionPriceData seatHistory priceData in
  Forall
    (fun pos =>
       (0 < IndicatorCalculator.settlePrice pos)%Q /\
       exists item p,
         In item seatHistory /\ In p priceData /\
         IndicatorCalculator.date pos = 席位分析数据.trade_date item /\
         IndicatorCalculator.netVol pos = 席位分析数据.net_vol item /\
         IndicatorCalculator.price_date p = 席位分析数据.trade_date item /\
         (IndicatorCalculator.settlePrice pos == IndicatorCalculator.price_settle p)%Q)
    positions /\
  (forall d,
     (forall p, In p priceData -> IndicatorCalculator.price_date p <> d) ->
     ~ In d (map IndicatorCalculator.date positions)) /\
  (exists keep,
     map IndicatorCalculator.date positions
     = map 席位分析数据.trade_date (filter keep seatHistory)).
Proof.
  cbv zeta. split; [|split].
  - apply Forall_forall. intros pos. apply positionPriceData_matched.
  - intros d Hno Hin. apply in_map_iff in Hin. destruct Hin as (pos & <- & Hpos).
    apply positionPriceData_matched in Hpos.
    destruct Hpos as (_ & item & p & _ & Hp & Hd & _ & Hpd & _).
    apply (Hno p Hp). congruence.
  - unfold IndicatorCalculator.positionPriceData.
    set (mk := fun item : 席位分析数据.t => IndicatorCalculator.mkPosition _ _ _).
    exists (fun item => Js.gtQ (IndicatorCalculator.settlePrice (mk item)) 0).
    induction seatHistory as [|x l IH]; [reflexivity|].
    cbn [map filter].
    destruct (Js.gtQ (IndicatorCalculator.settlePrice (mk x)) 0); cbn [map];
      now rewrite IH.
Qed.

Lemma StronglySorted_app_r {A} (R : A -> A -> Prop) (l1 l2 : list A) :
  StronglySorted R (l1 ++ l2) -> StronglySorted R l2.
Proof.
  induction l1 as [|x l1 IH]; simpl; [auto|].
  intros H. apply IH. now inversion H.
Qed.

Lemma sliceFromEnd_suffix {A} (n : nat) (l : list A) :
  exists older, l = older ++ Js.sliceFromEnd n l /\
    List.length (Js.sliceFromEnd n l)
    = match n with
      | O => List.length l
      | S _ => Nat.min n (List.length l)
      end.
Proof.
  unfold Js.sliceFromEnd. destruct n as [|n]; cbn [Nat.eqb].
  - exists []. split; reflexivity.
  - exists (firstn (List.length l - S n) l). split.
    + now rewrite firstn_skipn.
    + rewrite length_skipn. lia.
Qed.

(** X12: the curve of a seat holds the seat's rows in ascending order of
    date, as (date, net position) points, and is the end of the seat's
    history: its last [days] rows, 250 when [days] is not given, or all of
    them when there are fewer.  With [days] = 0 the curve is the whole
    history, not an empty one. *)
Theorem generateSeatCurveData_is_history_end
    (seatData : list 席位分析数据.t) (seatName : string) (days : option nat) :
  let curve := IndicatorCalculator.generateSeatCurveData seatData seatName days in
  let history := IndicatorCalculator.seatHistoryOf seatData seatName in
  let point := fun item =>
    席位曲线点.mk (席位分析数据.trade_date item) (席位分析数据.net_vol item) in
  席位曲线数据.seat_name curve = seatName /\
  Permutation history
    (filter (fun item => String.eqb (席位分析数据.seat_name item) seatName) seatData) /\
  (exists older, map point history = older ++ 席位曲线数据.data curve) /\
  List.length (席位曲线数据.data curve)
  = match days with
    | None => Nat.min 250 (List.length history)
    | Some O => List.length history
    | Some (S n) => Nat.min (S n) (List.length history)
    end /\
  StronglySorted Spec.dateLe (map 席位曲线点.trade_date (席位曲线数据.data curve)).
Proof.
  cbv zeta. unfold IndicatorCalculator.generateSeatCurveData. cbv zeta.
  cbn [席位曲线数据.seat_name 席位曲线数据.data].
  set (history := IndicatorCalculator.seatHistoryOf seatData seatName).
  set (n := match days with Some n => n | None => 250%nat end).
  destruct (sliceFromEnd_suffix n history) as (older & Hsplit & Hlen).
  split; [reflexivity|]. split; [|split; [|split]].
  - unfold history, IndicatorCalculator.seatHistoryOf. symmetry. apply sort_perm.
  - exists (map (fun item =>
                   席位曲线点.mk (席位分析数据.trade_date item) (席位分析数据.net_vol item))
              older).
    rewrite <- map_app. now rewrite <- Hsplit.
  - rewrite length_map, Hlen. unfold n. destruct days as [[|k]|]; reflexivity.
  - rewrite map_map. cbn [席位曲线点.trade_date].
    apply StronglySorted_map.
    apply (StronglySorted_app_r _ older). rewrite <- Hsplit.
    apply (sort_by_date 席位分析数据.trade_date).
Qed.

(** ** Holding table *)

Lemma member_le_sum {A} (f : A -> Z) (x : A) (l : list A) :
  (forall y, In y l -> 0 <= f y) -> In x l -> f x <= Js.sumZ (map f l).
Proof.
  induction l as [|y l IH]; intros Hf Hin; [destruct Hin|].
  cbn [map Js.sumZ fold_right]. fold (Js.sumZ (map f l)).
  assert (H0 : 0 <= Js.sumZ (map f l)).
  { apply sumZ_nonneg, Forall_forall. intros z Hz. apply in_map_iff in Hz.
    destruct Hz as (w & <- & Hw). apply Hf. now right. }
  pose proof (Hf y (or_introl eq_refl)).
  destruct Hin as [->|Hin]; [lia|].
  assert (f x <= Js.sumZ (map f l)) by (apply IH; [intros; apply Hf; now right|exact Hin]).
  lia.
Qed.

(** [(a / t) * 100] in binary64, for integers [0 <= a] and [0 < t]. *)
Definition percent64 (a t : Z) : Q :=
  Js.fmul (Js.fdiv (inject_Z a) (inject_Z t)) 100.

Lemma share_mono (a b t : Z) :
  0 < t -> a <= b -> (inject_Z a / inject_Z t <= inject_Z b / inject_Z t)%Q.
Proof.
  intros Ht Hab.
  assert (Ht' : (0 < inject_Z t)%Q) by (change 0%Q with (inject_Z 0); now rewrite <- Zlt_Qlt).
  apply Qle_shift_div_l; [exact Ht'|].
  setoid_replace (inject_Z a / inject_Z t * inject_Z t)%Q with (inject_Z a)
    by (field; lra).
  now rewrite <- Zle_Qle.
Qed.

Lemma percent64_mono (a b t : Z) :
  0 < t -> a <= b -> (percent64 a t <= percent64 b t)%Q.
Proof.
  intros Ht Hab. unfold percent64.
  apply fmul_mono_l; [discriminate|]. apply b64_mono. now apply share_mono.
Qed.

Lemma percent64_zero (t : Z) : 0 < t -> percent64 0 t = 0%Q.
Proof.
  intros Ht. unfold percent64.
  assert (H : Js.fdiv (inject_Z 0) (inject_Z t) = 0%Q).
  { apply b64_zero. unfold Qdiv. change (inject_Z 0) with 0%Q. ring. }
  rewrite H. reflexivity.
Qed.

Lemma percent64_whole (t : Z) : 0 < t -> percent64 t t = 100%Q.
Proof.
  intros Ht. unfold percent64.
  assert (Ht' : ~ (inject_Z t == 0)%Q).
  { change 0%Q with (inject_Z 0). rewrite inject_Z_injective. lia. }
  assert (H : Js.fdiv (inject_Z t) (inject_Z t) = Js.b64 1).
  { apply b64_comp. field. exact Ht'. }
  rewrite H. reflexivity.
Qed.

Lemma percent64_bounds (a t : Z) :
  0 <= a <= t -> 0 < t -> (0 <= percent64 a t <= 100)%Q.
Proof.
  intros Ha Ht. split.
  - rewrite <- (percent64_zero t Ht). apply percent64_mono; lia.
  - rewrite <- (percent64_whole t Ht). apply percent64_mono; lia.
Qed.

(** X13: the holding table of a date lists the rows of the date by
    decreasing [long_vol], each with its seat and volumes unchanged; and
    when the volumes of the date are non-negative and every net position is
    long minus short, each position ratio lies between 0 and 100. *)
Theorem convertToHoldingTableData_ratio_bounds
    (seatData : list 席位分析数据.t) (tradeDate : string) :
  let table := IndicatorCalculator.convertToHoldingTableData seatData tradeDate in
  StronglySorted
    (fun a b => 持仓数据表项.long_vol b <= 持仓数据表项.long_vol a) table /\
  Permutation
    (map (fun row => (持仓数据表项.seat_name row, 持仓数据表项.long_vol row,
                      持仓数据表项.short_vol row, 持仓数据表项.net_vol row)) table)
    (map (fun seat => (席位分析数据.seat_name seat, 席位分析数据.long_vol seat,
                       席位分析数据.short_vol seat, 席位分析数据.net_vol seat))
       (Spec.dayOf seatData tradeDate)) /\
  (Forall
     (fun seat =>
        0 <= 席位分析数据.long_vol seat /\ 0 <= 席位分析数据.short_vol seat /\
        席位分析数据.net_vol seat
        = 席位分析数据.long_vol seat - 席位分析数据.short_vol seat)
     (Spec.dayOf seatData tradeDate) ->
   Forall (fun row => (0 <= 持仓数据表项.position_ratio row <= 100)%Q) table).
Proof.
  cbv zeta. unfold IndicatorCalculator.convertToHoldingTableData. cbv zeta.
  fold (Spec.onDate tradeDate). fold (Spec.dayOf seatData tradeDate).
  set (day := Spec.dayOf seatData tradeDate) in *.
  rewrite (reduce_sumZ 席位分析数据.long_vol day 0),
    (reduce_sumZ 席位分析数据.short_vol day 0), !Z.add_0_l.
  set (L := Js.sumZ (map 席位分析数据.long_vol day)).
  set (S := Js.sumZ (map 席位分析数据.short_vol day)).
  split; [|split].
  - apply StronglySorted_map with
      (R := fun a b => 持仓数据表项.long_vol b <= 持仓数据表项.long_vol a).
    cbn [持仓数据表项.long_vol].
    apply (sort_descending 席位分析数据.long_vol).
  - rewrite map_map. cbn [持仓数据表项.seat_name 持仓数据表项.long_vol
                           持仓数据表项.short_vol 持仓数据表项.net_vol].
    apply Permutation_map. symmetry. apply sort_perm.
  - intros Hday. rewrite Forall_forall in Hday.
    apply Forall_forall. intros row Hrow. apply in_map_iff in Hrow.
    destruct Hrow as (seat & <- & Hseat). apply sort_In in Hseat.
    cbn [持仓数据表项.position_ratio].
    destruct (0 <? Z.max L S) eqn:E; [|lra].
    apply Z.ltb_lt in E. apply percent64_bounds; [|exact E].
    destruct (Hday seat Hseat) as (Hl & Hs & Hn).
    assert (席位分析数据.long_vol seat <= L).
    { apply member_le_sum; [|exact Hseat]. intros y Hy. now apply Hday. }
    assert (席位分析数据.short_vol seat <= S).
    { apply member_le_sum; [|exact Hseat]. intros y Hy. now apply Hday. }
    lia.
Qed.

(** X13 on the sample rows of 2024-01-03. *)
Lemma convertToHoldingTableData_sample :
  map (fun row => (持仓数据表项.seat_name row, 持仓数据表项.long_vol row))
    (IndicatorCalculator.convertToHoldingTableData Sample.realData "2024-01-03")
  = [ ("A", 90); ("C", 70); ("E", 50); ("D", 25); ("B", 20); ("F", 1) ]%string /\
  Forall (fun row => (0 <= 持仓数据表项.position_ratio row <= 100)%Q)
    (IndicatorCalculator.convertToHoldingTableData Sample.realData "2024-01-03").
Proof.
  split; [reflexivity|].
  apply (convertToHoldingTableData_ratio_bounds Sample.realData "2024-01-03").
  repeat constructor; vm_compute; congruence.
Defined.

(** ** Distributions: ratios and the one-percent cut *)

Lemma withRatios_values items :
  map 饼图项.value (IndicatorCalculator.withRatios items) = map 饼图项.value items.
Proof.
  unfold IndicatorCalculator.withRatios. cbv zeta. rewrite map_map. reflexivity.
Qed.

(** Among at most 99 values with a positive total, one is at least a 99th
    of the total. *)
Lemma sumZ_small {A} (f : A -> Z) (T : Z) (l : list A) :
  (forall x, In x l -> 99 * f x <= T - 1) ->
  99 * Js.sumZ (map f l) <= Z.of_nat (List.length l) * (T - 1).
Proof.
  induction l as [|x l IH]; intros H.
  - simpl. lia.
  - cbn [map Js.sumZ fold_right List.length]. fold (Js.sumZ (map f l)).
    specialize (IH (fun y Hy => H y (or_intror Hy))).
    specialize (H x (or_introl eq_refl)). lia.
Qed.

(** A share of at least a 99th is at least one percent in binary64. *)
Lemma percent64_ge_1 (v T : Z) : 0 < T -> T <= 99 * v -> (1 <= percent64 v T)%Q.
Proof.
  intros HT Hv. unfold percent64.
  apply Qle_trans with (Js.fmul (Js.b64 (1 # 99)) 100); [vm_compute; discriminate|].
  apply fmul_mono_l; [discriminate|]. apply b64_mono.
  assert (HT' : (0 < inject_Z T)%Q) by (change 0%Q with (inject_Z 0); now rewrite <- Zlt_Qlt).
  apply Qle_shift_div_l; [exact HT'|].
  rewrite Zle_Qle, inject_Z_mult in Hv. change (inject_Z 99) with 99%Q in Hv.
  lra.
Qed.

(** With fewer than a hundred slices and a positive total, some slice
    reaches one percent and survives the cut. *)
Lemma cut_keeps_a_slice items :
  0 < Js.sumZ (map 饼图项.value items) ->
  (List.length items <= 99)%nat ->
  filter IndicatorCalculator.atLeastOnePercent (IndicatorCalculator.withRatios items) <> [].
Proof.
  intros Hpos Hlen Hempty.
  assert (Hall : forall x, In x items -> 99 * 饼图项.value x
                                         <= Js.sumZ (map 饼图项.value items) - 1).
  { intros x Hx.
    destruct (Z_le_gt_dec (Js.sumZ (map 饼图项.value items)) (99 * 饼图项.value x))
      as [Hbig|Hsmall]; [exfalso|lia].
    pose proof (percent64_ge_1 _ _ Hpos Hbig) as H1.
    assert (Hin : In (饼图项.mk (饼图项.name x) (饼图项.value x)
                        (percent64 (饼图项.value x) (Js.sumZ (map 饼图项.value items))))
                    (filter IndicatorCalculator.atLeastOnePercent
                       (IndicatorCalculator.withRatios items))).
    { apply filter_In. split.
      - unfold IndicatorCalculator.withRatios. cbv zeta.
        rewrite (reduce_sumZ 饼图项.value items 0), Z.add_0_l.
        replace (0 <? Js.sumZ (map 饼图项.value items)) with true
          by (symmetry; now apply Z.ltb_lt).
        apply in_map_iff. exists x. split; [reflexivity|exact Hx].
      - unfold IndicatorCalculator.atLeastOnePercent. cbn [饼图项.ratio].
        now apply Qle_bool_iff. }
    rewrite Hempty in Hin. destruct Hin. }
  pose proof (sumZ_small 饼图项.value _ items Hall) as Hle.
  assert (Z.of_nat (List.length items) <= 99) by lia.
  nia.
Qed.

Lemma positionSlices_values day :
  map 饼图项.value (IndicatorCalculator.positionSlices day)
  = map snd (Spec.distributionWithOther Spec.absNetVol
               (Js.sort IndicatorCalculator.byAbsNetVol day)).
Proof.
  rewrite <- positionSlices_entries, map_map. reflexivity.
Qed.

Lemma changeSlices_values day :
  map 饼图项.value (IndicatorCalculator.changeSlices day)
  = map snd (Spec.distributionWithoutOther
               (Js.sort IndicatorCalculator.byAbsNetChg day)).
Proof.
  rewrite <- changeSlices_entries, map_map. reflexivity.
Qed.

(** The values of the position distribution add up to the absolute net
    positions of all rows of the day. *)
Lemma positionSlices_total day :
  Js.sumZ (map 饼图项.value (IndicatorCalculator.positionSlices day))
  = Js.sumZ (map Spec.absNetVol day).
Proof.
  rewrite positionSlices_values. unfold Spec.distributionWithOther. cbv zeta.
  rewrite (sumZ_perm _ _ (Permutation_map Spec.absNetVol
                            (sort_perm IndicatorCalculator.byAbsNetVol day))).
  set (ranked := Js.sort IndicatorCalculator.byAbsNetVol day).
  assert (Hsplit : Js.sumZ (map Spec.absNetVol ranked)
                   = Js.sumZ (map Spec.absNetVol (firstn 10 ranked))
                     + Js.sumZ (map Spec.absNetVol (skipn 10 ranked)))
    by (now rewrite <- sumZ_app, <- map_app, firstn_skipn).
  rewrite Hsplit, map_app, sumZ_app, map_map. cbn [Spec.entryOf snd].
  assert (H0 : 0 <= Js.sumZ (map Spec.absNetVol (skipn 10 ranked))).
  { apply sumZ_map_nonneg. intros x. apply Z.abs_nonneg. }
  change (fun x : 席位分析数据.t => Spec.absNetVol x) with Spec.absNetVol.
  destruct (0 <? Js.sumZ (map Spec.absNetVol (skipn 10 ranked))) eqn:E.
  - cbn [map Js.sumZ fold_right snd]. lia.
  - apply Z.ltb_ge in E. cbn [map Js.sumZ fold_right]. lia.
Qed.

Lemma positionSlices_length day :
  (List.length (IndicatorCalculator.positionSlices day) <= 11)%nat.
Proof.
  rewrite <- (length_map Spec.nameValue), positionSlices_entries.
  unfold Spec.distributionWithOther. cbv zeta.
  rewrite length_app, length_map.
  pose proof (firstn_le_length 10 (Js.sort IndicatorCalculator.byAbsNetVol day)).
  destruct (Z.ltb 0 _); cbn [List.length]; lia.
Qed.

Lemma changeSlices_length day :
  (List.length (IndicatorCalculator.changeSlices day) <= 10)%nat.
Proof.
  rewrite <- (length_map Spec.nameValue), changeSlices_entries.
  unfold Spec.distributionWithoutOther. rewrite length_map. apply firstn_le_length.
Qed.

Lemma filter_length_le {A} (p : A -> bool) (l : list A) :
  (List.length (filter p l) <= List.length l)%nat.
Proof.
  induction l as [|x l IH]; simpl; [lia|]. destruct (p x); simpl; lia.
Qed.

Lemma changeSlices_total_pos day seat :
  In seat day -> 席位分析数据.net_chg seat <> 0 ->
  0 < Js.sumZ (map 饼图项.value (IndicatorCalculator.changeSlices day)).
Proof.
  intros Hin Hnz. rewrite changeSlices_values.
  unfold Spec.distributionWithoutOther. rewrite map_map. cbn [Spec.entryOf snd].
  set (nz := filter _ (Js.sort IndicatorCalculator.byAbsNetChg day)).
  assert (Hseat : In seat nz).
  { apply filter_In. split; [now apply sort_In|].
    apply negb_true_iff, Z.eqb_neq. exact Hnz. }
  assert (Hall : forall x, In x nz -> 0 < Spec.absNetChg x).
  { intros x Hx. apply filter_In in Hx. destruct Hx as [_ Hx].
    apply negb_true_iff, Z.eqb_neq in Hx. unfold Spec.absNetChg. lia. }
  destruct nz as [|x nz']; [destruct Hseat|].
  change (firstn 10 (x :: nz')) with (x :: firstn 9 nz').
  eapply Z.lt_le_trans; [apply (Hall x (or_introl eq_refl))|].
  apply (member_le_sum (fun seat => Spec.absNetChg seat) x);
    [intros; apply Z.abs_nonneg|now left].
Qed.

(** X14: the position distribution has at most eleven entries and the
    change distribution at most ten; before the cut the values of the
    position distribution add up to the absolute net positions of all seats
    of the date; and the one-percent cut never empties a distribution: when
    some seat of the date has a net position, the position distribution has
    an entry, and when some seat has a net change, so has the change
    distribution. *)
Theorem generatePieChartData_cut_keeps_entries
    (seatData : list 席位分析数据.t) (tradeDate : string) :
  let dayData := Spec.dayOf seatData tradeDate in
  let out := IndicatorCalculator.generatePieChartData seatData tradeDate in
  (List.length (饼图数据.持仓分布 out) <= 11)%nat /\
  (List.length (饼图数据.持仓变化 out) <= 10)%nat /\
  Js.sumZ (map 饼图项.value
             (IndicatorCalculator.withRatios (IndicatorCalculator.positionSlices dayData)))
  = Js.sumZ (map Spec.absNetVol dayData) /\
  ((exists seat, In seat dayData /\ 席位分析数据.net_vol seat <> 0) ->
   饼图数据.持仓分布 out <> []) /\
  ((exists seat, In seat dayData /\ 席位分析数据.net_chg seat <> 0) ->
   饼图数据.持仓变化 out <> []).
Proof.
  cbv zeta. unfold IndicatorCalculator.generatePieChartData. cbv zeta.
  fold (Spec.onDate tradeDate). fold (Spec.dayOf seatData tradeDate).
  set (day := Spec.dayOf seatData tradeDate).
  cbn [饼图数据.持仓分布 饼图数据.持仓变化].
  assert (Hlen : forall items,
             List.length (IndicatorCalculator.withRatios items) = List.length items)
    by (intros; unfold IndicatorCalculator.withRatios; cbv zeta; apply length_map).
  split; [|split; [|split; [|split]]].
  - etransitivity; [apply filter_length_le|]. rewrite Hlen. apply positionSlices_length.
  - etransitivity; [apply filter_length_le|]. rewrite Hlen. apply changeSlices_length.
  - rewrite withRatios_values. apply positionSlices_total.
  - intros (seat & Hin & Hnz). apply cut_keeps_a_slice.
    + rewrite positionSlices_total.
      assert (Spec.absNetVol seat <= Js.sumZ (map Spec.absNetVol day)).
      { apply member_le_sum; [|exact Hin]. intros; apply Z.abs_nonneg. }
      unfold Spec.absNetVol in *. lia.
    + pose proof (positionSlices_length day). lia.
  - intros (seat & Hin & Hnz). apply cut_keeps_a_slice.
    + now apply (changeSlices_total_pos day seat).
    + pose proof (changeSlices_length day). lia.
Qed.

(** X15: the long/short split of a date is taken over all seats of the
    date: net_long is the sum of the positive net positions and net_short
    the sum of the absolute values of the negative ones.  When both are 0
    the two ratios are 50 and 50; otherwise each ratio is the binary64
    product by 100 of the binary64 quotient of its side by
    net_long + net_short.  In every case both ratios lie between 0 and 100,
    and the side with the smaller total has the smaller ratio. *)
Theorem generatePieChartData_long_short_split
    (seatData : list 席位分析数据.t) (tradeDate : string) :
  let dayData := Spec.dayOf seatData tradeDate in
  let split := 饼图数据.多空分布 (IndicatorCalculator.generatePieChartData seatData tradeDate) in
  let netLong := Js.sumZ (map (fun s => Spec.longPart (席位分析数据.net_vol s)) dayData) in
  let netShort := Js.sumZ (map (fun s => Spec.shortPart (席位分析数据.net_vol s)) dayData) in
  多空分布.net_long split = netLong /\
  多空分布.net_short split = netShort /\
  (netLong = 0 /\ netShort = 0 ->
   多空分布.long_ratio split = 50%Q /\ 多空分布.short_ratio split = 50%Q) /\
  (0 < netLong + netShort ->
   多空分布.long_ratio split
   = Js.fmul (Js.fdiv (inject_Z netLong) (inject_Z (netLong + netShort))) 100 /\
   多空分布.short_ratio split
   = Js.fmul (Js.fdiv (inject_Z netShort) (inject_Z (netLong + netShort))) 100) /\
  (0 <= 多空分布.long_ratio split <= 100)%Q /\
  (0 <= 多空分布.short_ratio split <= 100)%Q /\
  (netLong <= netShort ->
   (多空分布.long_ratio split <= 多空分布.short_ratio split)%Q) /\
  (netShort <= netLong ->
   (多空分布.short_ratio split <= 多空分布.long_ratio split)%Q).
Proof.
  cbv zeta. unfold IndicatorCalculator.generatePieChartData. cbv zeta.
  fold (Spec.onDate tradeDate). fold (Spec.dayOf seatData tradeDate).
  set (day := Spec.dayOf seatData tradeDate).
  cbn [饼图数据.多空分布 多空分布.net_long 多空分布.net_short 多空分布.long_ratio
       多空分布.short_ratio].
  fold Spec.isLong Spec.isShort. rewrite isLong_sum, isShort_sum.
  set (nl := Js.sumZ (map (fun r => Spec.longPart (席位分析数据.net_vol r)) day)).
  set (ns := Js.sumZ (map (fun r => Spec.shortPart (席位分析数据.net_vol r)) day)).
  assert (Hnl : 0 <= nl).
  { apply sumZ_map_nonneg. intros x. unfold Spec.longPart.
    destruct (0 <? 席位分析数据.net_vol x) eqn:E; [apply Z.ltb_lt in E|]; lia. }
  assert (Hns : 0 <= ns).
  { apply sumZ_map_nonneg. intros x. unfold Spec.shortPart.
    destruct (席位分析数据.net_vol x <? 0) eqn:E; [apply Z.ltb_lt in E|]; lia. }
  fold (percent64 nl (nl + ns)). fold (percent64 ns (nl + ns)).
  split; [reflexivity|]. split; [reflexivity|].
  split; [intros [-> ->]; split; reflexivity|].
  destruct (0 <? nl + ns) eqn:E.
  - apply Z.ltb_lt in E.
    split; [intros _; split; reflexivity|].
    split; [apply percent64_bounds; lia|].
    split; [apply percent64_bounds; lia|].
    split; intros H; apply percent64_mono; lia.
  - apply Z.ltb_ge in E.
    split; [intros H; lia|].
    split; [lra|]. split; [lra|]. split; intros _; lra.
Qed.

(** ** Seat aggregation: totals, and commodity codes that share a prefix *)

Lemma sumZ_map_add {A} (f g : A -> Z) (l : list A) :
  Js.sumZ (map (fun x => f x + g x) l) = Js.sumZ (map f l) + Js.sumZ (map g l).
Proof. induction l as [|x l IH]; simpl; [reflexivity|]. unfold Js.sumZ in *. lia. Qed.

Lemma sumZ_map_sub {A} (f g : A -> Z) (l : list A) :
  Js.sumZ (map (fun x => f x - g x) l) = Js.sumZ (map f l) - Js.sumZ (map g l).
Proof. induction l as [|x l IH]; simpl; [reflexivity|]. unfold Js.sumZ in *. lia. Qed.

Lemma sumZ_indicator (s : string) (c : Z) (l : list string) :
  NoDup l ->
  Js.sumZ (map (fun k => if String.eqb s k then c else 0) l)
  = if Js.mem s l then c else 0.
Proof.
  induction 1 as [|k l Hk ND IH]; [reflexivity|].
  cbn [map Js.sumZ fold_right]. fold (Js.sumZ (map (fun k => if String.eqb s k then c else 0) l)).
  rewrite IH. unfold Js.mem. cbn [existsb]. fold (Js.mem s l).
  destruct (String.eqb s k) eqn:E; cbn [orb].
  - apply String.eqb_eq in E. subst k.
    replace (Js.mem s l) with false by (symmetry; now apply mem_false). lia.
  - lia.
Qed.

(** Summing a field seat by seat gives the sum over all holdings. *)
Lemma sum_by_seat (f : 席位持仓原始数据.t -> Z) (hs : list 席位持仓原始数据.t) :
  Js.sumZ (map (fun k => Js.sumZ (map f (filter (Spec.isSeat k) hs)))
             (Js.setOf (map 席位持仓原始数据.seat_name hs)))
  = Js.sumZ (map f hs).
Proof.
  induction hs as [|h hs IH] using rev_ind; [reflexivity|].
  rewrite !map_app. cbn [map]. rewrite setOf_snoc, sumZ_app.
  set (s := 席位持仓原始数据.seat_name h).
  set (K := Js.setOf (map 席位持仓原始数据.seat_name hs)) in *.
  assert (Hstep : forall k,
             Js.sumZ (map f (filter (Spec.isSeat k) (hs ++ [h])))
             = Js.sumZ (map f (filter (Spec.isSeat k) hs))
               + (if String.eqb s k then f h else 0)).
  { intros k. rewrite filter_snoc, map_app, sumZ_app. unfold Spec.isSeat at 2.
    fold s. destruct (String.eqb s k); simpl; lia. }
  assert (HK : Js.sumZ (map (fun k => Js.sumZ (map f (filter (Spec.isSeat k) (hs ++ [h])))) K)
               = Js.sumZ (map f hs) + (if Js.mem s K then f h else 0)).
  { rewrite (map_ext _ _ Hstep), sumZ_map_add, IH.
    rewrite sumZ_indicator by apply setOf_NoDup. reflexivity. }
  unfold Js.setAdd. destruct (Js.mem s K) eqn:E.
  - rewrite HK. simpl. lia.
  - rewrite map_app, sumZ_app, HK. cbn [map Js.sumZ fold_right].
    rewrite Hstep, String.eqb_refl.
    apply mem_false in E. unfold K in E. rewrite setOf_In in E.
    rewrite (filter_isSeat_absent _ _ E). simpl. lia.
Qed.

Lemma seatAnalysis_seats hd c d :
  Permutation
    (map 席位分析数据.seat_name (DataCalculator.calculateSeatAnalysis hd c d))
    (Js.setOf (map 席位持仓原始数据.seat_name (filter (DataCalculator.holdingMatches c d) hd))).
Proof.
  rewrite calculateSeatAnalysis_unfold.
  set (hs := filter (DataCalculator.holdingMatches c d) hd).
  pose proof (seatMap_aggregated c d hs) as Hagg.
  rewrite <- (proj1 Hagg), <- (seat_names_of_values _ hs Hagg).
  apply Permutation_map. symmetry. apply sort_perm.
Qed.

(** X16: aggregation loses nothing: over the rows returned by
    [calculateSeatAnalysis] the long volumes, the short volumes and the
    changes add up to those of the holdings of the commodity and date, and
    the net positions to total long minus total short. *)
Theorem calculateSeatAnalysis_preserves_totals
    (holdingData : list 席位持仓原始数据.t) (commodityId tradeDate : string) :
  let hs := filter (DataCalculator.holdingMatches commodityId tradeDate) holdingData in
  let rows := DataCalculator.calculateSeatAnalysis holdingData commodityId tradeDate in
  Js.sumZ (map 席位分析数据.long_vol rows) = Js.sumZ (map 席位持仓原始数据.long_vol hs) /\
  Js.sumZ (map 席位分析数据.short_vol rows) = Js.sumZ (map 席位持仓原始数据.short_vol hs) /\
  Js.sumZ (map 席位分析数据.long_chg rows) = Js.sumZ (map 席位持仓原始数据.long_chg hs) /\
  Js.sumZ (map 席位分析数据.short_chg rows) = Js.sumZ (map 席位持仓原始数据.short_chg hs) /\
  Js.sumZ (map 席位分析数据.net_vol rows)
  = Js.sumZ (map 席位持仓原始数据.long_vol hs) - Js.sumZ (map 席位持仓原始数据.short_vol hs) /\
  Js.sumZ (map 席位分析数据.net_chg rows)
  = Js.sumZ (map 席位持仓原始数据.long_chg hs) - Js.sumZ (map 席位持仓原始数据.short_chg hs).
Proof.
  cbv zeta. rewrite calculateSeatAnalysis_unfold.
  set (hs := filter (DataCalculator.holdingMatches commodityId tradeDate) holdingData).
  destruct (seatMap_aggregated commodityId tradeDate hs) as [Hkeys Hval].
  set (m := fold_left _ hs JsMap.empty) in *.
  assert (Hfield : forall (g : 席位分析数据.t -> Z) (f : 席位持仓原始数据.t -> Z),
             (forall k v, In (k, v) m ->
                          g v = Js.sumZ (map f (filter (Spec.isSeat k) hs))) ->
             Js.sumZ (map g (JsMap.values m)) = Js.sumZ (map f hs)).
  { intros g f Hg. rewrite <- (sum_by_seat f hs), <- Hkeys.
    unfold JsMap.values, JsMap.keys. rewrite !map_map. f_equal.
    apply map_ext_in. intros [k v] Hin. simpl. now apply Hg. }
  assert (HL := Hfield 席位分析数据.long_vol 席位持仓原始数据.long_vol
                  (fun k v H => proj1 (proj2 (Hval k v H)))).
  assert (HS := Hfield 席位分析数据.short_vol 席位持仓原始数据.short_vol
                  (fun k v H => proj1 (proj2 (proj2 (Hval k v H))))).
  assert (HLC := Hfield 席位分析数据.long_chg 席位持仓原始数据.long_chg
                   (fun k v H => proj1 (proj2 (proj2 (proj2 (Hval k v H)))))).
  assert (HSC := Hfield 席位分析数据.short_chg 席位持仓原始数据.short_chg
                   (fun k v H => proj2 (proj2 (proj2 (proj2 (Hval k v H)))))).
  assert (Hsorted : forall g : 席位分析数据.t -> Z,
             Js.sumZ (map g (Js.sort DataCalculator.byAbsNetVol
                               (map DataCalculator.withNet (JsMap.values m))))
             = Js.sumZ (map (fun v => g (DataCalculator.withNet v)) (JsMap.values m))).
  { intros g. rewrite <- (sumZ_perm _ _ (Permutation_map g (sort_perm _ _))).
    now rewrite map_map. }
  rewrite !Hsorted. cbn [DataCalculator.withNet 席位分析数据.long_vol
    席位分析数据.short_vol 席位分析数据.long_chg 席位分析数据.short_chg
    席位分析数据.net_vol 席位分析数据.net_chg].
  rewrite !sumZ_map_sub.
  change (fun v : 席位分析数据.t => 席位分析数据.long_vol v) with 席位分析数据.long_vol.
  change (fun v : 席位分析数据.t => 席位分析数据.short_vol v) with 席位分析数据.short_vol.
  change (fun v : 席位分析数据.t => 席位分析数据.long_chg v) with 席位分析数据.long_chg.
  change (fun v : 席位分析数据.t => 席位分析数据.short_chg v) with 席位分析数据.short_chg.
  rewrite HL, HS, HLC, HSC. repeat split; reflexivity.
Qed.

Lemma prefix_trans (a b s : string) :
  String.prefix a b = true -> String.prefix b s = true -> String.prefix a s = true.
Proof.
  revert b s. induction a as [|x a IH]; intros b s Hab Hbs; [now destruct s|].
  destruct b as [|y b]; [discriminate|]. destruct s as [|z s]; [discriminate|].
  simpl in *. destruct (ascii_dec x y) as [->|]; [|discriminate].
  destruct (ascii_dec y z) as [->|]; [|discriminate].
  eapply IH; eassumption.
Qed.

Lemma holdingMatches_prefix c c' d h :
  String.prefix c' c = true ->
  DataCalculator.holdingMatches c d h = true ->
  DataCalculator.holdingMatches c' d h = true.
Proof.
  unfold DataCalculator.holdingMatches, Js.startsWith. intros Hp H.
  apply andb_prop in H. destruct H as [H1 H2]. rewrite H1. simpl.
  eapply prefix_trans; eassumption.
Qed.

(** X17: the commodity of a holding is tested by the start of its contract
    code, so a commodity whose code starts another commodity's code takes
    the other's holdings too: every holding counted for the longer code is
    counted for the shorter one, and every seat listed for the longer code
    is listed for the shorter one. *)
Theorem calculateSeatAnalysis_prefix_commodity
    (holdingData : list 席位持仓原始数据.t) (shorter longer tradeDate : string) :
  String.prefix shorter longer = true ->
  incl (filter (DataCalculator.holdingMatches longer tradeDate) holdingData)
       (filter (DataCalculator.holdingMatches shorter tradeDate) holdingData) /\
  incl (map 席位分析数据.seat_name
          (DataCalculator.calculateSeatAnalysis holdingData longer tradeDate))
       (map 席位分析数据.seat_name
          (DataCalculator.calculateSeatAnalysis holdingData shorter tradeDate)).
Proof.
  intros Hp.
  assert (Hincl : incl (filter (DataCalculator.holdingMatches longer tradeDate) holdingData)
                    (filter (DataCalculator.holdingMatches shorter tradeDate) holdingData)).
  { intros h Hh. apply filter_In in Hh. destruct Hh as [Hin Hm].
    apply filter_In. split; [exact Hin|].
    eapply holdingMatches_prefix; eassumption. }
  split; [exact Hincl|]. intros s Hs.
  apply (Permutation_in _ (seatAnalysis_seats holdingData longer tradeDate)) in Hs.
  apply (Permutation_in _ (Permutation_sym (seatAnalysis_seats holdingData shorter tradeDate))).
  rewrite setOf_In, in_map_iff in *. destruct Hs as (h & <- & Hh).
  exists h. split; [reflexivity|now apply Hincl].
Qed.

(** X17 on the sample: seat X holds IC2405 only and is listed for I. *)
Lemma calculateSeatAnalysis_prefix_sample :
  map 席位分析数据.seat_name
    (DataCalculator.calculateSeatAnalysis Sample.prefixHoldings "IC" "2024-01-02")
  = ["X"]%string /\
  map 席位分析数据.seat_name
    (DataCalculator.calculateSeatAnalysis Sample.prefixHoldings "I" "2024-01-02")
  = ["X"; "Y"]%string /\
  In "X"%string
    (map 席位分析数据.seat_name
       (DataCalculator.calculateSeatAnalysis Sample.prefixHoldings "I" "2024-01-02")).
Proof.
  split; [reflexivity|]. split; [reflexivity|].
  apply (proj2 (calculateSeatAnalysis_prefix_commodity Sample.prefixHoldings "I" "IC"
                  "2024-01-02" eq_refl)).
  vm_compute. now left.
Defined.

(** ** Batch calculation and commodity codes *)

Lemma setAdd_In s x y : In y (Js.setAdd s x) <-> In y s \/ y = x.
Proof.
  unfold Js.setAdd. destruct (Js.mem x s) eqn:E.
  - apply mem_In in E. split; [tauto|]. intros [H | ->]; assumption.
  - rewrite in_app_iff. simpl. intuition congruence.
Qed.

Lemma commodityIds_spec (contractIds : list string) :
  let ids := fold_left DataCalculator.addCommodityId contractIds [] in
  NoDup ids /\ forall c, In c ids <-> Spec.isCommodityOf contractIds c.
Proof.
  cbv zeta. induction contractIds as [|x l IH] using rev_ind.
  - split; [constructor|]. intros c. split; [intros []|].
    intros (_ & y & [] & _).
  - rewrite fold_left_snoc. destruct IH as [ND IH].
    set (ids := fold_left DataCalculator.addCommodityId l []) in *.
    unfold DataCalculator.addCommodityId. cbv zeta.
    destruct (Js.nonEmpty (Js.stripDigits x)) eqn:E.
    + split; [now apply setAdd_NoDup|]. intros c. rewrite setAdd_In, IH.
      unfold Spec.isCommodityOf. split.
      * intros [(Hc & y & Hy & ->) | ->].
        -- split; [exact Hc|]. exists y. split; [|reflexivity].
           apply in_or_app. now left.
        -- split; [exact E|]. exists x. split; [|reflexivity].
           apply in_or_app. right. now left.
      * intros (Hc & y & Hy & ->). apply in_app_or in Hy.
        destruct Hy as [Hy | [<- | []]]; [left|right; reflexivity].
        split; [exact Hc|]. eauto.
    + split; [exact ND|]. intros c. rewrite IH. unfold Spec.isCommodityOf. split.
      * intros (Hc & y & Hy & ->). split; [exact Hc|]. exists y.
        split; [|reflexivity]. apply in_or_app. now left.
      * intros (Hc & y & Hy & ->). apply in_app_or in Hy.
        destruct Hy as [Hy | [<- | []]]; [|congruence].
        split; [exact Hc|]. eauto.
Qed.

Lemma fold_push_option {A B} (F : A -> option B) (l : list A) (acc : list B) :
  fold_left
    (fun results x => match F x with Some y => results ++ [y] | None => results end)
    l acc
  = acc ++ flat_map (fun x => match F x with Some y => [y] | None => [] end) l.
Proof.
  revert acc. induction l as [|x l IH]; intros acc; simpl.
  - now rewrite app_nil_r.
  - rewrite IH. destruct (F x); [now rewrite <- app_assoc|reflexivity].
Qed.

Lemma fold_push_list {A B} (F : A -> list B) (l : list A) (acc : list B) :
  fold_left (fun results x => results ++ F x) l acc = acc ++ flat_map F l.
Proof.
  revert acc. induction l as [|x l IH]; intros acc; simpl.
  - now rewrite app_nil_r.
  - now rewrite IH, <- app_assoc.
Qed.

(** Rows listed commodity by commodity, each carrying its commodity, for
    commodities that are all different: the rows of one commodity are the
    rows that carry it. *)
Lemma filter_own_key {B} (key : B -> string) (c c' : string) (l : list B) :
  (forall b, In b l -> key b = c') ->
  filter (fun b => String.eqb (key b) c) l = if String.eqb c' c then l else [].
Proof.
  intros Hkey. induction l as [|b l IH]; [now destruct (String.eqb c' c)|].
  cbn [filter]. rewrite (Hkey b (or_introl eq_refl)).
  rewrite IH by (intros b' Hb'; apply Hkey; now right).
  now destruct (String.eqb c' c).
Qed.

Lemma filter_flat_map_key {B} (key : B -> string) (F : string -> list B)
    (ids : list string) (c : string) :
  NoDup ids ->
  (forall c' b, In b (F c') -> key b = c') ->
  filter (fun b => String.eqb (key b) c) (flat_map F ids)
  = if Js.mem c ids then F c else [].
Proof.
  intros ND Hkey. induction ND as [|x l Hx ND IH]; [reflexivity|].
  cbn [flat_map]. rewrite filter_app, IH, (filter_own_key key c x (F x) (Hkey x)).
  change (Js.mem c (x :: l)) with (String.eqb c x || Js.mem c l).
  rewrite String.eqb_sym.
  destruct (String.eqb c x) eqn:E; [|reflexivity].
  apply String.eqb_eq in E. subst x.
  destruct (Js.mem c l) eqn:M; [apply mem_In in M; contradiction|].
  cbn [orb]. now rewrite app_nil_r.
Qed.

Lemma NoDup_flat_map {B K} (g : B -> K) (F : string -> list B) (ids : list string) :
  NoDup ids ->
  (forall c, NoDup (map g (F c))) ->
  (forall c c' b b', In b (F c) -> In b' (F c') -> g b = g b' -> c = c') ->
  NoDup (map g (flat_map F ids)).
Proof.
  intros ND Hin Hsep. induction ND as [|x l Hx ND IH]; [constructor|].
  cbn [flat_map]. rewrite map_app. apply NoDup_app; [apply Hin|exact IH|].
  intros a Ha Hb. apply in_map_iff in Ha, Hb.
  destruct Ha as (b & <- & Hb1). destruct Hb as (b' & E & Hb2).
  apply in_flat_map in Hb2. destruct Hb2 as (c' & Hc' & Hb2).
  apply Hx. now rewrite (Hsep x c' b b' Hb1 Hb2 (eq_sym E)).
Qed.

Lemma calculateWeightedContract_fields md c d w :
  DataCalculator.calculateWeightedContract md c d = Some w ->
  加权合约数据.trade_date w = d /\ 加权合约数据.commodity_id w = c.
Proof.
  unfold DataCalculator.calculateWeightedContract. cbv zeta.
  destruct (filter _ md) as [|first rest]; [discriminate|].
  destruct (Qeq_bool _ 0); [discriminate|].
  intros [= <-]. split; reflexivity.
Qed.

(** X18: [batchCalculateWeightedContracts] returns exactly the weighted
    contracts that [calculateWeightedContract] gives for the commodity codes
    of the date's contract codes (digits removed, empty codes left out): a
    commodity without a result is dropped, and no commodity comes twice. *)
Theorem batchCalculateWeightedContracts_characterised
    (marketData : list 行情数据.t) (tradeDate : string) :
  let contractIds :=
    map 行情数据.contract_id
      (filter (fun item => String.eqb (行情数据.trade_date item) tradeDate) marketData) in
  let results := DataCalculator.batchCalculateWeightedContracts marketData tradeDate in
  NoDup (map 加权合约数据.commodity_id results) /\
  forall w,
    In w results <->
    Spec.isCommodityOf contractIds (加权合约数据.commodity_id w) /\
    DataCalculator.calculateWeightedContract marketData (加权合约数据.commodity_id w) tradeDate
    = Some w.
Proof.
  cbv zeta. unfold DataCalculator.batchCalculateWeightedContracts. cbv zeta.
  set (contractIds := map 行情数据.contract_id _).
  destruct (commodityIds_spec contractIds) as [ND Hids].
  set (ids := fold_left DataCalculator.addCommodityId contractIds []) in *.
  rewrite (fold_push_option
             (fun c => DataCalculator.calculateWeightedContract marketData c tradeDate)).
  cbn [app].
  set (F := fun c => match DataCalculator.calculateWeightedContract marketData c tradeDate with
                     | Some y => [y]
                     | None => []
                     end).
  assert (HF : forall c w,
             In w (F c) <-> DataCalculator.calculateWeightedContract marketData c tradeDate = Some w).
  { intros c w. unfold F.
    destruct (DataCalculator.calculateWeightedContract marketData c tradeDate); simpl; split.
    - intros [<- | []]. reflexivity.
    - intros [= <-]. now left.
    - intros [].
    - discriminate. }
  split.
  - apply NoDup_flat_map; [exact ND| |].
    + intros c. unfold F.
      destruct (DataCalculator.calculateWeightedContract marketData c tradeDate);
        repeat constructor. simpl. tauto.
    + intros c c' b b' Hb Hb' E. apply HF in Hb, Hb'.
      apply calculateWeightedContract_fields in Hb, Hb'.
      destruct Hb as [_ Hb], Hb' as [_ Hb']. congruence.
  - intros w. rewrite in_flat_map. split.
    + intros (c & Hc & Hw). apply HF in Hw.
      destruct (calculateWeightedContract_fields _ _ _ _ Hw) as [_ E].
      rewrite E. split; [now apply Hids|exact Hw].
    + intros [Hc Hw]. exists (加权合约数据.commodity_id w).
      split; [now apply Hids|now apply HF].
Qed.

Lemma set_In_weak {V} k (v : V) m x :
  In x (JsMap.set k v m) -> x = (k, v) \/ In x m.
Proof.
  induction m as [|[k0 v0] m IH]; simpl.
  - intros [<- | []]. now left.
  - destruct (String.eqb k k0); simpl.
    + intros [<- | H]; [now left|right; now right].
    + intros [<- | H]; [right; now left|].
      destruct (IH H); [now left|right; now right].
Qed.

Lemma accumulate_fields c d hs :
  Forall
    (fun kv => 席位分析数据.trade_date (snd kv) = d /\ 席位分析数据.commodity_id (snd kv) = c)
    (fold_left (DataCalculator.accumulate c d) hs JsMap.empty).
Proof.
  induction hs as [|h hs IH] using rev_ind; [constructor|].
  rewrite fold_left_snoc.
  set (m := fold_left (DataCalculator.accumulate c d) hs JsMap.empty) in *.
  apply Forall_forall. intros x Hx. rewrite Forall_forall in IH.
  unfold DataCalculator.accumulate in Hx. cbv zeta in Hx.
  destruct (JsMap.get (席位持仓原始数据.seat_name h) m) as [e|] eqn:G;
    apply set_In_weak in Hx; destruct Hx as [-> | Hx]; try (now apply IH).
  - apply get_In in G. apply IH in G. exact G.
  - split; reflexivity.
Qed.

Lemma seatAnalysis_fields hd c d :
  Forall (fun r => 席位分析数据.trade_date r = d /\ 席位分析数据.commodity_id r = c)
    (DataCalculator.calculateSeatAnalysis hd c d).
Proof.
  rewrite calculateSeatAnalysis_unfold. apply Forall_forall. intros r Hr.
  apply sort_In in Hr. apply in_map_iff in Hr. destruct Hr as (v & <- & Hv).
  unfold JsMap.values in Hv. apply in_map_iff in Hv. destruct Hv as (kv & <- & Hkv).
  pose proof (accumulate_fields c d (filter (DataCalculator.holdingMatches c d) hd)) as H.
  rewrite Forall_forall in H. exact (H kv Hkv).
Qed.

Lemma seatAnalysis_seats_NoDup hd c d :
  NoDup (map 席位分析数据.seat_name (DataCalculator.calculateSeatAnalysis hd c d)).
Proof.
  eapply Permutation_NoDup; [symmetry; apply seatAnalysis_seats|apply setOf_NoDup].
Qed.

(** X19: [batchCalculateSeatAnalysis] lists, commodity by commodity, the
    rows of [calculateSeatAnalysis] for the commodity codes of the date's
    contract codes: every row is of the date and of such a commodity, a seat
    has at most one row per commodity, and the rows of a commodity are
    those of the single calculation, in its order. *)
Theorem batchCalculateSeatAnalysis_by_commodity
    (holdingData : list 席位持仓原始数据.t) (tradeDate : string) :
  let contractIds :=
    map 席位持仓原始数据.contract_id
      (filter (fun item => String.eqb (席位持仓原始数据.trade_date item) tradeDate)
         holdingData) in
  let rows := DataCalculator.batchCalculateSeatAnalysis holdingData tradeDate in
  Forall
    (fun r => 席位分析数据.trade_date r = tradeDate /\
              Spec.isCommodityOf contractIds (席位分析数据.commodity_id r)) rows /\
  NoDup (map (fun r => (席位分析数据.commodity_id r, 席位分析数据.seat_name r)) rows) /\
  forall c,
    Spec.isCommodityOf contractIds c ->
    filter (fun r => String.eqb (席位分析数据.commodity_id r) c) rows
    = DataCalculator.calculateSeatAnalysis holdingData c tradeDate.
Proof.
  cbv zeta. unfold DataCalculator.batchCalculateSeatAnalysis. cbv zeta.
  set (contractIds := map 席位持仓原始数据.contract_id _).
  destruct (commodityIds_spec contractIds) as [ND Hids].
  set (ids := fold_left DataCalculator.addCommodityId contractIds []) in *.
  rewrite (fold_push_list
             (fun c => DataCalculator.calculateSeatAnalysis holdingData c tradeDate)).
  cbn [app].
  assert (Hkey : forall c r,
             In r (DataCalculator.calculateSeatAnalysis holdingData c tradeDate) ->
             席位分析数据.commodity_id r = c).
  { intros c r Hr.
    pose proof (seatAnalysis_fields holdingData c tradeDate) as H.
    rewrite Forall_forall in H. apply (H r Hr). }
  split; [|split].
  - apply Forall_forall. intros r Hr. apply in_flat_map in Hr.
    destruct Hr as (c & Hc & Hr).
    pose proof (seatAnalysis_fields holdingData c tradeDate) as H.
    rewrite Forall_forall in H. destruct (H r Hr) as [Hd Hc'].
    split; [exact Hd|]. rewrite Hc'. now apply Hids.
  - apply NoDup_flat_map; [exact ND| |].
    + intros c. apply (NoDup_map_inv snd). rewrite map_map. cbn [snd].
      apply seatAnalysis_seats_NoDup.
    + intros c c' b b' Hb Hb' [= E _].
      apply Hkey in Hb, Hb'. congruence.
  - intros c Hc. apply Hids, mem_In in Hc.
    rewrite (filter_flat_map_key 席位分析数据.commodity_id _ ids c ND Hkey).
    now rewrite Hc.
Qed.

Lemma compareStrings_le a b : Js.compareStrings a b <= 0 <-> Spec.dateLe a b.
Proof. exact (localeCompare_le a b). Qed.

Lemma compareStrings_sorted l :
  StronglySorted (Js.before Js.compareStrings) (Js.sort Js.compareStrings l).
Proof.
  apply sort_sorted; unfold Js.before.
  - intros x y. exact (localeCompare_total x y).
  - intros x y z. rewrite !compareStrings_le. apply dateLe_trans.
Qed.

Lemma sorted_distinct_strict l :
  StronglySorted (Js.before Js.compareStrings) l -> NoDup l ->
  StronglySorted Spec.stringLt l.
Proof.
  induction 1 as [|x l Hl IH Hall]; intros ND; [constructor|].
  inversion ND as [|? ? Hx ND']; subst. constructor; [now apply IH|].
  rewrite Forall_forall in *. intros y Hy. specialize (Hall y Hy).
  apply compareStrings_le in Hall. unfold Spec.dateLe in Hall. unfold Spec.stringLt.
  destruct (String.compare x y) eqn:E; [|reflexivity|congruence].
  apply String.compare_eq_iff in E. now subst.
Qed.

Lemma hasDigit_stripDigits s : Spec.hasDigit (Js.stripDigits s) = false.
Proof.
  induction s as [|a s IH]; [reflexivity|]. cbn [Js.stripDigits].
  destruct (Js.isDigit a) eqn:E; [exact IH|].
  cbn [Spec.hasDigit]. now rewrite E, IH.
Qed.

Lemma stripDigits_id s : Spec.hasDigit s = false -> Js.stripDigits s = s.
Proof.
  induction s as [|a s IH]; [reflexivity|]. cbn [Spec.hasDigit Js.stripDigits].
  intros H. apply orb_false_iff in H. destruct H as [Ha Hs].
  now rewrite Ha, IH.
Qed.

(** X20: [extractCommodityIds] returns the commodity codes of the contract
    codes (digits removed, empty codes left out) in strictly ascending
    order, so each once, and no returned code contains a digit. *)
Theorem extractCommodityIds_sorted_distinct (contractIds : list string) :
  let commodityIds := DataCalculator.extractCommodityIds contractIds in
  StronglySorted Spec.stringLt commodityIds /\
  (forall c, In c commodityIds <-> Spec.isCommodityOf contractIds c) /\
  Forall (fun c => Spec.hasDigit c = false) commodityIds.
Proof.
  cbv zeta. unfold DataCalculator.extractCommodityIds.
  destruct (commodityIds_spec contractIds) as [ND Hids].
  set (ids := fold_left DataCalculator.addCommodityId contractIds []) in *.
  assert (Hmem : forall c, In c (Js.sort Js.compareStrings ids)
                           <-> Spec.isCommodityOf contractIds c).
  { intros c. now rewrite sort_In. }
  split; [|split].
  - apply sorted_distinct_strict; [apply compareStrings_sorted|].
    eapply Permutation_NoDup; [apply sort_perm|exact ND].
  - exact Hmem.
  - apply Forall_forall. intros c Hc. apply Hmem in Hc.
    destruct Hc as (_ & x & _ & ->). apply hasDigit_stripDigits.
Qed.

Lemma sort_of_sorted {A} (cmp : A -> A -> Z) (l : list A) :
  StronglySorted (Js.before cmp) l -> Js.sort cmp l = l.
Proof.
  induction 1 as [|x l Hl IH Hall]; [reflexivity|].
  change (Js.sort cmp (x :: l)) with (Js.insert cmp x (Js.sort cmp l)).
  rewrite IH. destruct l as [|y t]; [reflexivity|].
  cbn [Js.insert]. inversion Hall as [|? ? Hxy _]; subst.
  unfold Js.before in Hxy. apply Z.leb_le in Hxy. now rewrite Hxy.
Qed.

Lemma addCommodityId_codes l : forall acc,
  NoDup (acc ++ l) ->
  Forall (fun c => Js.nonEmpty c = true /\ Js.stripDigits c = c) l ->
  fold_left DataCalculator.addCommodityId l acc = acc ++ l.
Proof.
  induction l as [|x l IH]; intros acc ND Hall; [now rewrite app_nil_r|].
  inversion Hall as [|? ? [Hne Hid] Hall']; subst.
  cbn [fold_left]. unfold DataCalculator.addCommodityId at 2. cbv zeta.
  rewrite Hid, Hne. unfold Js.setAdd.
  assert (Hx : ~ In x acc).
  { apply NoDup_remove_2 in ND. intros H. apply ND. apply in_or_app. now left. }
  apply mem_false in Hx. rewrite Hx.
  rewrite IH; [now rewrite <- app_assoc| |exact Hall'].
  now rewrite <- app_assoc.
Qed.

(** X21: [extractCommodityIds] is idempotent: applied to its own result it
    returns that result unchanged. *)
Theorem extractCommodityIds_idempotent (contractIds : list string) :
  DataCalculator.extractCommodityIds (DataCalculator.extractCommodityIds contractIds)
  = DataCalculator.extractCommodityIds contractIds.
Proof.
  unfold DataCalculator.extractCommodityIds at 1.
  unfold DataCalculator.extractCommodityIds.
  destruct (commodityIds_spec contractIds) as [ND Hids].
  set (ids := fold_left DataCalculator.addCommodityId contractIds []) in *.
  set (out := Js.sort Js.compareStrings ids).
  assert (Hfold : fold_left DataCalculator.addCommodityId out [] = out).
  { rewrite addCommodityId_codes; [reflexivity| |].
    - cbn [app]. eapply Permutation_NoDup; [apply sort_perm|exact ND].
    - apply Forall_forall. intros c Hc. apply sort_In, Hids in Hc.
      destruct Hc as (Hne & x & _ & ->). split; [exact Hne|].
      apply stripDigits_id, hasDigit_stripDigits. }
  rewrite Hfold. apply sort_of_sorted, compareStrings_sorted.
Qed.

(** ** Ratios and percentages *)

Lemma round_mono x y : (x <= y)%Q -> Js.round x <= Js.round y.
Proof.
  intros H. unfold Js.round. apply Qfloor_resp_le. lra.
Qed.

Lemma round_nonneg x : (0 <= x)%Q -> 0 <= Js.round x.
Proof. intros H. exact (round_mono 0 x H). Qed.

Lemma round_nonpos x : (x <= 0)%Q -> Js.round x <= 0.
Proof. intros H. exact (round_mono x 0 H). Qed.

Lemma hundredths_le (a b : Z) : a <= b -> (inject_Z a / 100 <= inject_Z b / 100)%Q.
Proof.
  intros H. rewrite Zle_Qle in H. unfold Qdiv.
  apply Qmult_le_compat_r; [exact H|discriminate].
Qed.

Lemma hundredths_nonneg (a : Z) : 0 <= a -> (0 <= inject_Z a / 100)%Q.
Proof.
  intros H. apply Qle_trans with (inject_Z 0 / 100)%Q; [|now apply hundredths_le].
  unfold Qle. simpl. lia.
Qed.

Lemma hundredths_nonpos (a : Z) : a <= 0 -> (inject_Z a / 100 <= 0)%Q.
Proof.
  intros H. apply Qle_trans with (inject_Z 0 / 100)%Q; [now apply hundredths_le|].
  unfold Qle. simpl. lia.
Qed.

(** [n / 100] in binary64, for an integer [n]. *)
Lemma hundredths64_nonneg (a : Z) : 0 <= a -> (0 <= Js.fdiv (inject_Z a) 100)%Q.
Proof.
  intros H. apply b64_nonneg. now apply hundredths_nonneg.
Qed.

Lemma hundredths64_nonpos (a : Z) : a <= 0 -> (Js.fdiv (inject_Z a) 100 <= 0)%Q.
Proof.
  intros H. apply b64_nonpos. now apply hundredths_nonpos.
Qed.

Lemma hundredths64_le_100 (a : Z) : a <= 10000 -> (Js.fdiv (inject_Z a) 100 <= 100)%Q.
Proof.
  intros H.
  apply Qle_trans with (Js.fdiv (inject_Z 10000) 100); [|vm_compute; discriminate].
  apply b64_mono. now apply hundredths_le.
Qed.

Lemma round_le_10000 (x : Q) : (x <= 10000)%Q -> Js.round x <= 10000.
Proof.
  intros H. change 10000 with (Js.round 10000). now apply round_mono.
Qed.

(** A share of at most 1, times 10000. *)
Lemma share_le_10000 (q : Q) : (q <= 1)%Q -> (Js.fmul (Js.b64 q) 10000 <= 10000)%Q.
Proof.
  intros H.
  apply Qle_trans with (Js.fmul (Js.b64 1) 10000); [|vm_compute; discriminate].
  apply fmul_mono_l; [discriminate|]. now apply b64_mono.
Qed.

Lemma Qabs_pos (t : Q) : ~ (t == 0)%Q -> (0 < Qabs t)%Q.
Proof.
  intros Ht. destruct (Qlt_le_dec 0 (Qabs t)) as [H|H]; [exact H|].
  exfalso. apply Ht. apply Qabs_Qle_condition in H. lra.
Qed.

(** X22: the position ratio of [calculatePositionRatio] is 0 for a total of
    0 and otherwise never negative; it does not depend on the signs of its
    arguments; it is at most 100 when the seat's volume is at most the
    total in absolute value, and 100 when the two are equal in absolute
    value. *)
Theorem calculatePositionRatio_bounds (seatNetVol totalNetVol : Q) :
  let ratio := DataCalculator.calculatePositionRatio in
  ((totalNetVol == 0 -> ratio seatNetVol totalNetVol == 0) /\
   0 <= ratio seatNetVol totalNetVol /\
   (Qabs seatNetVol <= Qabs totalNetVol -> ratio seatNetVol totalNetVol <= 100) /\
   (~ totalNetVol == 0 -> Qabs seatNetVol == Qabs totalNetVol ->
    ratio seatNetVol totalNetVol == 100) /\
   ratio (- seatNetVol) totalNetVol == ratio seatNetVol totalNetVol /\
   ratio seatNetVol (- totalNetVol) == ratio seatNetVol totalNetVol)%Q.
Proof.
  cbv zeta. unfold DataCalculator.calculatePositionRatio, Js.absQ.
  destruct (Qeq_bool totalNetVol 0) eqn:E.
  - apply Qeq_bool_iff in E.
    assert (E' : Qeq_bool (- totalNetVol) 0 = true) by (apply Qeq_bool_iff; lra).
    rewrite E'. repeat split; try reflexivity; lra.
  - apply Qeq_bool_neq in E.
    assert (E' : Qeq_bool (- totalNetVol) 0 = false).
    { destruct (Qeq_bool (- totalNetVol) 0) eqn:E'; [|reflexivity].
      apply Qeq_bool_iff in E'. exfalso. apply E. lra. }
    rewrite E'. pose proof (Qabs_pos totalNetVol E) as Ht.
    pose proof (Qabs_nonneg seatNetVol) as Hs.
    pose proof (fdiv_nonneg _ _ Hs Ht) as Hq.
    split; [intros H; contradiction|]. split; [|split; [|split; [|split]]].
    + apply hundredths64_nonneg, round_nonneg, b64_nonneg. nra.
    + intros Hle.
      apply hundredths64_le_100, round_le_10000, share_le_10000.
      apply Qle_shift_div_r; [exact Ht|]. lra.
    + intros _ Heq.
      assert (H1 : Js.fdiv (Qabs seatNetVol) (Qabs totalNetVol) = Js.b64 1).
      { apply b64_comp. rewrite Heq. field. lra. }
      rewrite H1. vm_compute. reflexivity.
    + rewrite (fdiv_comp (Qabs (- seatNetVol)) (Qabs seatNetVol)
                 (Qabs totalNetVol) (Qabs totalNetVol) (Qabs_opp _) (Qeq_refl _)).
      reflexivity.
    + rewrite (fdiv_comp (Qabs seatNetVol) (Qabs seatNetVol)
                 (Qabs (- totalNetVol)) (Qabs totalNetVol) (Qeq_refl _) (Qabs_opp _)).
      reflexivity.
Qed.

(** X23: the change in percent of [calculateChangePercent] is 0 for a
    previous value of 0 and for an unchanged value; for a positive previous
    value its sign is that of the change, and for a negative previous value
    it is the opposite sign. *)
Theorem calculateChangePercent_sign (current previous : Q) :
  let change := DataCalculator.calculateChangePercent current previous in
  ((previous == 0 -> change == 0) /\
   (current == previous -> change == 0) /\
   (0 < previous -> previous <= current -> 0 <= change) /\
   (0 < previous -> current <= previous -> change <= 0) /\
   (previous < 0 -> previous <= current -> change <= 0) /\
   (previous < 0 -> current <= previous -> 0 <= change))%Q.
Proof.
  cbv zeta. unfold DataCalculator.calculateChangePercent.
  destruct (Qeq_bool previous 0) eqn:E.
  - apply Qeq_bool_iff in E. repeat split; intros; lra.
  - apply Qeq_bool_neq in E.
    assert (Hup : forall x : Q,
               (0 <= x -> 0 <= Js.fdiv (inject_Z (Js.round (Js.fmul x 10000))) 100)%Q).
    { intros x Hx. apply hundredths64_nonneg, round_nonneg, b64_nonneg. nra. }
    assert (Hdown : forall x : Q,
               (x <= 0 -> Js.fdiv (inject_Z (Js.round (Js.fmul x 10000))) 100 <= 0)%Q).
    { intros x Hx. apply hundredths64_nonpos, round_nonpos, b64_nonpos. nra. }
    assert (Hquot : forall a b : Q, (0 <= a -> 0 < b -> 0 <= a / b)%Q).
    { intros a b Ha Hb. apply Qle_shift_div_l; [exact Hb|]. lra. }
    split; [intros H; contradiction|]. split; [|split; [|split; [|split]]].
    + intros Heq. unfold Js.fsub.
      rewrite (b64_zero (current - previous)) by lra.
      assert (H0 : Js.fdiv 0 previous = 0%Q) by (apply b64_zero; unfold Qdiv; ring).
      rewrite H0. reflexivity.
    + intros Hp Hc. apply Hup. apply b64_nonneg, Hquot; [|exact Hp].
      apply b64_nonneg. lra.
    + intros Hp Hc. apply Hdown. apply b64_nonpos.
      assert (Hs : (Js.fsub current previous <= 0)%Q) by (apply b64_nonpos; lra).
      setoid_replace (Js.fsub current previous / previous)%Q
        with (- ((- Js.fsub current previous) / previous))%Q by (field; exact E).
      pose proof (Hquot (- Js.fsub current previous)%Q previous) as H. lra.
    + intros Hp Hc. apply Hdown. apply b64_nonpos.
      assert (Hs : (0 <= Js.fsub current previous)%Q) by (apply b64_nonneg; lra).
      setoid_replace (Js.fsub current previous / previous)%Q
        with (- (Js.fsub current previous / - previous))%Q by (field; exact E).
      pose proof (Hquot (Js.fsub current previous) (- previous)%Q) as H. lra.
    + intros Hp Hc. apply Hup. apply b64_nonneg.
      assert (Hs : (Js.fsub current previous <= 0)%Q) by (apply b64_nonpos; lra).
      setoid_replace (Js.fsub current previous / previous)%Q
        with ((- Js.fsub current previous) / - previous)%Q by (field; exact E).
      apply Hquot; lra.
Qed.

(** ** Weighted contract: the order of the prices *)

Lemma fold_fadd_mono {A} (f g : A -> Q) (l : list A) (a a' : Q) :
  (forall x, In x l -> (f x <= g x)%Q) -> (a <= a')%Q ->
  (fold_left Js.fadd (map f l) a <= fold_left Js.fadd (map g l) a')%Q.
Proof.
  revert a a'. induction l as [|x l IH]; intros a a' H Ha; [exact Ha|].
  cbn [map fold_left]. apply IH.
  - intros y Hy. apply H. now right.
  - apply fadd_mono; [exact Ha|]. apply H. now left.
Qed.

Lemma weighted64_mono (f g : 行情数据.t -> Q) cs :
  (0 < Spec.totalOpenInterest64 cs)%Q ->
  (forall item, In item cs -> (0 <= 行情数据.open_interest item)%Q) ->
  (forall item, In item cs -> (f item <= g item)%Q) ->
  (Spec.weighted64 f cs <= Spec.weighted64 g cs)%Q.
Proof.
  intros HT Hoi Hfg. unfold Spec.weighted64, Spec.sum64.
  apply fold_fadd_mono; [|apply Qle_refl]. intros item Hitem.
  apply fmul_mono_l; [|now apply Hfg].
  unfold Spec.weight64. apply fdiv_nonneg; [now apply Hoi|exact HT].
Qed.

Lemma roundedTo2_mono x y : (x <= y)%Q -> (Spec.roundedTo2 x <= Spec.roundedTo2 y)%Q.
Proof.
  intros H. unfold Spec.roundedTo2. apply b64_mono.
  apply Qmult_le_compat_r; [|discriminate].
  rewrite <- Zle_Qle. apply round_mono. apply fmul_mono_l; [discriminate|exact H].
Qed.

(** X24: the weighted contract keeps the order of the prices, the rounding
    of binary64 and the rounding to two decimals included: when every
    constituent has its open between its low and its high, so has the
    weighted contract, and likewise for the close and for the settle. *)
Theorem calculateWeightedContract_price_order
    (marketData : list 行情数据.t) (commodityId tradeDate : string) :
  let cs := filter (DataCalculator.qualifies commodityId tradeDate) marketData in
  cs <> [] ->
  exists out,
    DataCalculator.calculateWeightedContract marketData commodityId tradeDate = Some out /\
    (Forall (fun item => 行情数据.low item <= 行情数据.open item <= 行情数据.high item) cs ->
     加权合约数据.low out <= 加权合约数据.open out <= 加权合约数据.high out)%Q /\
    (Forall (fun item => 行情数据.low item <= 行情数据.close item <= 行情数据.high item) cs ->
     加权合约数据.low out <= 加权合约数据.close out <= 加权合约数据.high out)%Q /\
    (Forall (fun item => 行情数据.low item <= 行情数据.settle item <= 行情数据.high item) cs ->
     加权合约数据.low out <= 加权合约数据.settle out <= 加权合约数据.high out)%Q.
Proof.
  intros cs Hne.
  destruct (calculateWeightedContract_some marketData commodityId tradeDate Hne)
    as (out & Hout & _ & _ & Hopen & Hhigh & Hlow & Hclose & Hsettle & _).
  fold cs in Hopen, Hhigh, Hlow, Hclose, Hsettle.
  pose proof (qualifying_total64_pos commodityId tradeDate marketData Hne) as HT.
  fold cs in HT.
  assert (Hoi : forall item, In item cs -> (0 <= 行情数据.open_interest item)%Q).
  { intros item Hitem. apply filter_In in Hitem. destruct Hitem as [_ Hq].
    apply qualifies_iff in Hq. destruct Hq as (_ & _ & Hq). lra. }
  assert (Hord : forall f g : 行情数据.t -> Q,
             Forall (fun item => f item <= g item)%Q cs ->
             (Spec.roundedTo2 (Spec.weighted64 f cs)
              <= Spec.roundedTo2 (Spec.weighted64 g cs))%Q).
  { intros f g Hfg. rewrite Forall_forall in Hfg.
    apply roundedTo2_mono, weighted64_mono; assumption. }
  exists out. split; [exact Hout|].
  rewrite Hopen, Hhigh, Hlow, Hclose, Hsettle. split; [|split].
  - intros H. split; apply Hord; eapply Forall_impl; try exact H; intros a Ha; apply Ha.
  - intros H. split; apply Hord; eapply Forall_impl; try exact H; intros a Ha; apply Ha.
  - intros H. split; apply Hord; eapply Forall_impl; try exact H; intros a Ha; apply Ha.
Qed.

(** X24 on the sample market. *)
Lemma calculateWeightedContract_price_order_sample :
  exists out,
    DataCalculator.calculateWeightedContract Sample.market "CU" "2024-01-02" = Some out /\
    (加权合约数据.low out <= 加权合约数据.close out <= 加权合约数据.high out)%Q.
Proof.
  assert (Hcs : filter (DataCalculator.qualifies "CU" "2024-01-02") Sample.market
                = [Sample.quote "CU2401" 100 10; Sample.quote "CU2402" 300 20])
    by reflexivity.
  assert (Hne : filter (DataCalculator.qualifies "CU" "2024-01-02") Sample.market <> [])
    by (rewrite Hcs; discriminate).
  destruct (calculateWeightedContract_price_order Sample.market "CU" "2024-01-02" Hne)
    as (out & Hout & _ & Hclose & _).
  exists out. split; [exact Hout|]. apply Hclose. rewrite Hcs.
  repeat constructor; cbn; unfold Qle; simpl; lia.
Defined.

(** ** Filter conditions: what each check decides *)

Lemma fold_maxQ_spec (t : list Q) (x : Q) :
  let m := fold_left (fun m y => if Qle_bool m y then y else m) t x in
  In m (x :: t) /\ forall y, In y (x :: t) -> (y <= m)%Q.
Proof.
  cbv zeta. revert x. induction t as [|a t IH]; intros x; cbn [fold_left].
  - split; [now left|]. intros y [<- | []]. apply Qle_refl.
  - destruct (IH (if Qle_bool x a then a else x)) as [Hin Hle].
    assert (Hx : (x <= (if Qle_bool x a then a else x))%Q /\
                 (a <= (if Qle_bool x a then a else x))%Q).
    { destruct (Qle_bool x a) eqn:E.
      - apply Qle_bool_iff in E. split; [exact E|apply Qle_refl].
      - split; [apply Qle_refl|]. apply Qlt_le_weak, Qnot_le_lt. intros H.
        apply Qle_bool_iff in H. congruence. }
    pose proof (Hle _ (or_introl eq_refl)) as Hm. split.
    + destruct Hin as [E | Hin]; [|now right; right].
      rewrite <- E. destruct (Qle_bool x a); [right; now left|now left].
    + intros y [<- | [<- | Hy]]; [| |apply Hle; now right].
      * eapply Qle_trans; [apply Hx|exact Hm].
      * eapply Qle_trans; [apply Hx|exact Hm].
Qed.

Lemma fold_minQ_spec (t : list Q) (x : Q) :
  let m := fold_left (fun m y => if Qle_bool y m then y else m) t x in
  In m (x :: t) /\ forall y, In y (x :: t) -> (m <= y)%Q.
Proof.
  cbv zeta. revert x. induction t as [|a t IH]; intros x; cbn [fold_left].
  - split; [now left|]. intros y [<- | []]. apply Qle_refl.
  - destruct (IH (if Qle_bool a x then a else x)) as [Hin Hle].
    assert (Hx : ((if Qle_bool a x then a else x) <= x)%Q /\
                 ((if Qle_bool a x then a else x) <= a)%Q).
    { destruct (Qle_bool a x) eqn:E.
      - apply Qle_bool_iff in E. split; [exact E|apply Qle_refl].
      - split; [apply Qle_refl|]. apply Qlt_le_weak, Qnot_le_lt. intros H.
        apply Qle_bool_iff in H. congruence. }
    pose proof (Hle _ (or_introl eq_refl)) as Hm. split.
    + destruct Hin as [E | Hin]; [|now right; right].
      rewrite <- E. destruct (Qle_bool a x); [right; now left|now left].
    + intros y [<- | [<- | Hy]]; [| |apply Hle; now right].
      * eapply Qle_trans; [exact Hm|apply Hx].
      * eapply Qle_trans; [exact Hm|apply Hx].
Qed.

Lemma first_is_maxQ (x : Q) (t : list Q) :
  Js.eqQ x (fold_left (fun m y => if Qle_bool m y then y else m) t x) = true
  <-> Forall (fun y => (y <= x)%Q) t.
Proof.
  destruct (fold_maxQ_spec t x) as [Hin Hle]. unfold Js.eqQ.
  rewrite Qeq_bool_iff, Forall_forall. split.
  - intros E y Hy. rewrite E. apply Hle. now right.
  - intros H. destruct Hin as [<- | Hin]; [reflexivity|].
    apply Qle_antisym; [apply Hle; now left|now apply H].
Qed.

Lemma first_is_minQ (x : Q) (t : list Q) :
  Js.eqQ x (fold_left (fun m y => if Qle_bool y m then y else m) t x) = true
  <-> Forall (fun y => (x <= y)%Q) t.
Proof.
  destruct (fold_minQ_spec t x) as [Hin Hle]. unfold Js.eqQ.
  rewrite Qeq_bool_iff, Forall_forall. split.
  - intros E y Hy. rewrite E. apply Hle. now right.
  - intros H. destruct Hin as [<- | Hin]; [reflexivity|].
    apply Qle_antisym; [now apply H|apply Hle; now left].
Qed.

Lemma daysOf_succ days : exists k, FilterService.daysOf days = S k.
Proof. destruct days; eexists; reflexivity. Qed.

(** X25: [checkPriceCondition] on contracts listed latest first: 'highest'
    holds exactly when there are at least [days] contracts and no close of
    the first [days] of them is above the close of the first one; 'lowest'
    likewise with no close below it.  Without contracts it is false. *)
Theorem checkPriceCondition_meaning
    (contracts : list 加权合约数据.t) (days : FilterService.Days) :
  let recent := firstn (FilterService.daysOf days) contracts in
  match contracts with
  | [] => forall type, FilterService.checkPriceCondition contracts days type = false
  | first :: _ =>
      (FilterService.checkPriceCondition contracts days FilterService.highest = true <->
       (FilterService.daysOf days <= List.length contracts)%nat /\
       Forall (fun c => 加权合约数据.close c <= 加权合约数据.close first)%Q recent) /\
      (FilterService.checkPriceCondition contracts days FilterService.lowest = true <->
       (FilterService.daysOf days <= List.length contracts)%nat /\
       Forall (fun c => 加权合约数据.close first <= 加权合约数据.close c)%Q recent)
  end.
Proof.
  cbv zeta. destruct contracts as [|first rest].
  - intros type. unfold FilterService.checkPriceCondition. now destruct days.
  - unfold FilterService.checkPriceCondition, Js.slice0.
    destruct (daysOf_succ days) as [k Hk]. rewrite Hk.
    destruct (List.length (first :: rest) <? S k)%nat eqn:E.
    + apply Nat.ltb_lt in E. split; (split; [discriminate|intros [H _]; lia]).
    + apply Nat.ltb_ge in E. cbn [firstn map Js.maxQ Js.minQ].
      rewrite first_is_maxQ, first_is_minQ, !Forall_map. split.
      * split; [intros H; split; [exact E|constructor; [apply Qle_refl|exact H]]|].
        intros [_ H]. now inversion H.
      * split; [intros H; split; [exact E|constructor; [apply Qle_refl|exact H]]|].
        intros [_ H]. now inversion H.
Qed.

Lemma first_is_maxZ (x : Z) (t : list Z) :
  (x =? fold_left Z.max t x) = true <-> Forall (fun y => y <= x) t.
Proof.
  destruct (fold_max_spec t x) as [Hin Hle].
  rewrite Z.eqb_eq, Forall_forall. split.
  - intros E y Hy. rewrite E. apply Hle. now right.
  - intros H. destruct Hin as [<- | Hin]; [reflexivity|].
    apply Z.le_antisymm; [apply Hle; now left|now apply H].
Qed.

Lemma first_is_minZ (x : Z) (t : list Z) :
  (x =? fold_left Z.min t x) = true <-> Forall (fun y => x <= y) t.
Proof.
  destruct (fold_min_spec t x) as [Hin Hle].
  rewrite Z.eqb_eq, Forall_forall. split.
  - intros E y Hy. rewrite E. apply Hle. now right.
  - intros H. destruct Hin as [<- | Hin]; [reflexivity|].
    apply Z.le_antisymm; [now apply H|apply Hle; now left].
Qed.

Lemma orElseZ_zero x : Js.orElseZ x 0 = x.
Proof.
  unfold Js.orElseZ. destruct (x =? 0) eqn:E; [|reflexivity].
  apply Z.eqb_eq in E. now subst.
Qed.

(** [checkExtremeCondition] in terms of the values it extracts. *)
Lemma checkExtremeCondition_values ds c key period days data valueKey values :
  FilterService.extremeSource ds c key = Some (data, valueKey) ->
  map (fun item => FilterService.getValueByPeriod item valueKey period) data = values ->
  match values with
  | [] => forall type, FilterService.checkExtremeCondition ds c key period days type = false
  | current :: earlier =>
      let recent := firstn (FilterService.daysOf days) (current :: earlier) in
      (FilterService.checkExtremeCondition ds c key period days FilterService.max = true <->
       (FilterService.daysOf days <= List.length (current :: earlier))%nat /\
       Forall (fun v => v <= current) recent) /\
      (FilterService.checkExtremeCondition ds c key period days FilterService.min = true <->
       (FilterService.daysOf days <= List.length (current :: earlier))%nat /\
       Forall (fun v => current <= v) recent)
  end.
Proof.
  intros Hsrc <-. unfold FilterService.checkExtremeCondition. rewrite Hsrc.
  destruct data as [|row rest]; cbn [map].
  - intros type. now destruct days.
  - cbv zeta. unfold Js.slice0.
    destruct (daysOf_succ days) as [k Hk]. rewrite Hk.
    cbn [List.length]. rewrite length_map.
    change (S (List.length rest)) with (List.length (row :: rest)).
    destruct (List.length (row :: rest) <? S k)%nat eqn:E.
    + apply Nat.ltb_lt in E. cbn [List.length] in E.
      split; (split; [discriminate|intros [H _]; cbn [List.length] in H; lia]).
    + apply Nat.ltb_ge in E. cbn [firstn map Js.maxZ Js.minZ].
      rewrite first_is_maxZ, first_is_minZ, !firstn_map. split.
      * split; [intros H; split; [exact E|constructor; [lia|exact H]]|].
        intros [_ H]. now inversion H.
      * split; [intros H; split; [exact E|constructor; [lia|exact H]]|].
        intros [_ H]. now inversion H.
Qed.

Lemma extremeSource_of ds c (e : Spec.Extremum) :
  FilterService.extremeSource ds c (Spec.extremumKey e)
  = match e with
    | Spec.实多极值 =>
        option_map (fun data => (map FilterService.RealRow data, "real_long"%string))
          (FilterService.getRealLongShortData ds c)
    | Spec.实空极值 =>
        option_map (fun data => (map FilterService.RealRow data, "real_short"%string))
          (FilterService.getRealLongShortData ds c)
    | Spec.实差极值 =>
        option_map (fun data => (map FilterService.RealRow data, "real_diff"%string))
          (FilterService.getRealLongShortData ds c)
    | Spec.净多极值 =>
        option_map (fun data => (map FilterService.NetRow data, "net_long"%string))
          (FilterService.getNetLongShortData ds c)
    | Spec.净空极值 =>
        option_map (fun data => (map FilterService.NetRow data, "net_short"%string))
          (FilterService.getNetLongShortData ds c)
    | Spec.净差极值 =>
        option_map (fun data => (map FilterService.NetRow data, "net_diff"%string))
          (FilterService.getNetLongShortData ds c)
    end.
Proof.
  unfold FilterService.extremeSource.
  destruct e; cbn [Spec.extremumKey].
  - replace (Js.includes "实多极值" "实") with true by reflexivity.
    replace (Js.includes "实多极值" "多") with true by reflexivity.
    now destruct (FilterService.getRealLongShortData ds c).
  - replace (Js.includes "实空极值" "实") with true by reflexivity.
    replace (Js.includes "实空极值" "多") with false by reflexivity.
    replace (Js.includes "实空极值" "空") with true by reflexivity.
    now destruct (FilterService.getRealLongShortData ds c).
  - replace (Js.includes "实差极值" "实") with true by reflexivity.
    replace (Js.includes "实差极值" "多") with false by reflexivity.
    replace (Js.includes "实差极值" "空") with false by reflexivity.
    replace (Js.includes "实差极值" "差") with true by reflexivity.
    now destruct (FilterService.getRealLongShortData ds c).
  - replace (Js.includes "净多极值" "实") with false by reflexivity.
    replace (Js.includes "净多极值" "净") with true by reflexivity.
    replace (Js.includes "净多极值" "多") with true by reflexivity.
    now destruct (FilterService.getNetLongShortData ds c).
  - replace (Js.includes "净空极值" "实") with false by reflexivity.
    replace (Js.includes "净空极值" "净") with true by reflexivity.
    replace (Js.includes "净空极值" "多") with false by reflexivity.
    replace (Js.includes "净空极值" "空") with true by reflexivity.
    now destruct (FilterService.getNetLongShortData ds c).
  - replace (Js.includes "净差极值" "实") with false by reflexivity.
    replace (Js.includes "净差极值" "净") with true by reflexivity.
    replace (Js.includes "净差极值" "多") with false by reflexivity.
    replace (Js.includes "净差极值" "空") with false by reflexivity.
    replace (Js.includes "净差极值" "差") with true by reflexivity.
    now destruct (FilterService.getNetLongShortData ds c).
Qed.

Lemma getValueByPeriod_real period r :
  FilterService.getValueByPeriod (FilterService.RealRow r) "real_long" period
  = Spec.realLong period r /\
  FilterService.getValueByPeriod (FilterService.RealRow r) "real_short" period
  = Spec.realShort period r /\
  FilterService.getValueByPeriod (FilterService.RealRow r) "real_diff" period
  = Spec.realDiff period r.
Proof.
  destruct period; repeat split; apply orElseZ_zero.
Qed.

Lemma getValueByPeriod_net period n :
  FilterService.getValueByPeriod (FilterService.NetRow n) "net_long" period
  = Spec.netLong period n /\
  FilterService.getValueByPeriod (FilterService.NetRow n) "net_short" period
  = Spec.netShort period n /\
  FilterService.getValueByPeriod (FilterService.NetRow n) "net_diff" period
  = Spec.netDiff period n.
Proof.
  destruct period; repeat split; apply orElseZ_zero.
Qed.

(** X26: each of the six extremum conditions reads the indicator its name
    says, at the chosen breadth: 实多极值 the real long, 实空极值 the real
    short, 实差极值 the real difference, and the three 净 conditions the net
    ones.  On that history, latest row first, 'max' holds exactly when there
    are at least [days] rows and none of the first [days] values is above
    the latest value; 'min' likewise with none below it.  A failed query and
    an empty history give false. *)
Theorem checkExtremeCondition_meaning
    (ds : FilterService.DataService) (commodityId : string)
    (e : Spec.Extremum) (period : FilterService.Period) (days : FilterService.Days) :
  let check := FilterService.checkExtremeCondition ds commodityId (Spec.extremumKey e)
                 period days in
  match Spec.extremumHistory ds commodityId e period with
  | None => forall type, check type = false
  | Some [] => forall type, check type = false
  | Some (current :: earlier) =>
      let recent := firstn (FilterService.daysOf days) (current :: earlier) in
      (check FilterService.max = true <->
       (FilterService.daysOf days <= List.length (current :: earlier))%nat /\
       Forall (fun v => v <= current) recent) /\
      (check FilterService.min = true <->
       (FilterService.daysOf days <= List.length (current :: earlier))%nat /\
       Forall (fun v => current <= v) recent)
  end.
Proof.
  cbv zeta. pose proof (extremeSource_of ds commodityId e) as Hsrc.
  destruct e; cbn [Spec.extremumHistory] in *.
  1-3: destruct (FilterService.getRealLongShortData ds commodityId) as [data|];
    cbn [option_map] in *;
    [|intros type; unfold FilterService.checkExtremeCondition; now rewrite Hsrc].
  4-6: destruct (FilterService.getNetLongShortData ds commodityId) as [data|];
    cbn [option_map] in *;
    [|intros type; unfold FilterService.checkExtremeCondition; now rewrite Hsrc].
  - apply (checkExtremeCondition_values _ _ _ period days _ _ _ Hsrc).
    rewrite map_map. apply map_ext. intros r. apply getValueByPeriod_real.
  - apply (checkExtremeCondition_values _ _ _ period days _ _ _ Hsrc).
    rewrite map_map. apply map_ext. intros r. apply getValueByPeriod_real.
  - apply (checkExtremeCondition_values _ _ _ period days _ _ _ Hsrc).
    rewrite map_map. apply map_ext. intros r. apply getValueByPeriod_real.
  - apply (checkExtremeCondition_values _ _ _ period days _ _ _ Hsrc).
    rewrite map_map. apply map_ext. intros n. apply getValueByPeriod_net.
  - apply (checkExtremeCondition_values _ _ _ period days _ _ _ Hsrc).
    rewrite map_map. apply map_ext. intros n. apply getValueByPeriod_net.
  - apply (checkExtremeCondition_values _ _ _ period days _ _ _ Hsrc).
    rewrite map_map. apply map_ext. intros n. apply getValueByPeriod_net.
Qed.

(** X27: the real (net) comparison holds exactly when the query succeeds
    with at least one row and, on the first row, the long value at its
    breadth is above the short value at its breadth for 'greater', below it
    for 'less'.  So 'greater' and 'less' never hold together, and a failed
    query or an empty history satisfies neither. *)
Theorem compare_conditions_meaning
    (ds : FilterService.DataService) (commodityId : string)
    (longPeriod shortPeriod : FilterService.Period) :
  let real := FilterService.checkRealLongShortCompare ds commodityId longPeriod shortPeriod in
  let net := FilterService.checkNetLongShortCompare ds commodityId longPeriod shortPeriod in
  (real FilterService.greater = true <->
   exists latest rest,
     FilterService.getRealLongShortData ds commodityId = Some (latest :: rest) /\
     Spec.realShort shortPeriod latest < Spec.realLong longPeriod latest) /\
  (real FilterService.less = true <->
   exists latest rest,
     FilterService.getRealLongShortData ds commodityId = Some (latest :: rest) /\
     Spec.realLong longPeriod latest < Spec.realShort shortPeriod latest) /\
  (net FilterService.greater = true <->
   exists latest rest,
     FilterService.getNetLongShortData ds commodityId = Some (latest :: rest) /\
     Spec.netShort shortPeriod latest < Spec.netLong longPeriod latest) /\
  (net FilterService.less = true <->
   exists latest rest,
     FilterService.getNetLongShortData ds commodityId = Some (latest :: rest) /\
     Spec.netLong longPeriod latest < Spec.netShort shortPeriod latest) /\
  real FilterService.greater && real FilterService.less = false /\
  net FilterService.greater && net FilterService.less = false.
Proof.
  cbv zeta.
  unfold FilterService.checkRealLongShortCompare, FilterService.checkNetLongShortCompare.
  destruct (FilterService.getRealLongShortData ds commodityId) as [[|r rs]|];
    destruct (FilterService.getNetLongShortData ds commodityId) as [[|n ns]|];
    cbv zeta; unfold FilterService.compareValues;
    repeat rewrite (proj1 (getValueByPeriod_real _ _));
    repeat rewrite (proj1 (proj2 (getValueByPeriod_real _ _)));
    repeat rewrite (proj1 (getValueByPeriod_net _ _));
    repeat rewrite (proj1 (proj2 (getValueByPeriod_net _ _)));
    repeat match goal with
      | |- _ /\ _ => split
      | |- false = true <-> _ => split; [discriminate|intros (? & ? & H & _); discriminate]
      | |- (_ <? _) = true <-> _ =>
          rewrite Z.ltb_lt; split;
          [intros H; do 2 eexists; split; [reflexivity|exact H]
          |intros (? & ? & [= <- _] & H); exact H]
      | |- false && false = false => reflexivity
      | |- (?a <? ?b) && (?b <? ?a) = false =>
          destruct (Z.ltb_spec a b); destruct (Z.ltb_spec b a); try reflexivity; lia
      end.
Qed.

(** ** Filter results *)

Lemma outcomes_weights ds params c contracts o :
  In o (Spec.outcomes ds params c contracts) ->
  Spec.weightOf o = Spec.conditionWeight (Spec.condition o).
Proof.
  unfold Spec.outcomes, FilterService.extremeConditions.
  cbn [app map In]. intros H.
  repeat (destruct H as [<- | H]; [reflexivity|]). destruct H.
Qed.

Lemma sum_filter_le {A} (w : A -> Z) (p : A -> bool) (l : list A) :
  (forall x, In x l -> 0 <= w x) ->
  Js.sumZ (map w (filter p l)) <= Js.sumZ (map w l).
Proof.
  induction l as [|x l IH]; intros H; [reflexivity|].
  cbn [filter map Js.sumZ fold_right]. fold (Js.sumZ (map w l)).
  assert (Hx := H x (or_introl eq_refl)).
  assert (IH' := IH (fun y Hy => H y (or_intror Hy))).
  destruct (p x); cbn [map Js.sumZ fold_right];
    fold (Js.sumZ (map w (filter p l))); lia.
Qed.

(** The matched conditions and the score of a commodity. *)
Lemma satisfied_facts ds params c contracts :
  let sat := Spec.satisfied ds params c contracts in
  (List.length (Spec.matchedOf sat) <= 9)%nat /\
  Spec.scoreOf sat = Js.sumZ (map Spec.conditionWeight (Spec.matchedOf sat)) /\
  (sat <> [] -> 10 <= Spec.scoreOf sat) /\
  Spec.scoreOf sat <= 112.
Proof.
  cbv zeta. unfold Spec.satisfied, Spec.matchedOf, Spec.scoreOf.
  set (os := Spec.outcomes ds params c contracts).
  assert (Hw : forall o, In o os -> Spec.weightOf o = Spec.conditionWeight (Spec.condition o))
    by (intros o; apply outcomes_weights).
  assert (Hlow : forall o, In o os -> 10 <= Spec.weightOf o).
  { intros o Ho. rewrite (Hw o Ho). destruct (Spec.condition o); simpl; lia. }
  split; [|split; [|split]].
  - rewrite length_map. etransitivity; [apply filter_length_le|]. reflexivity.
  - rewrite map_map. f_equal. apply map_ext_in. intros o Ho.
    apply filter_In in Ho. now apply Hw.
  - destruct (filter Spec.holds os) as [|o l] eqn:E; [congruence|]. intros _.
    assert (Ho : In o os) by (apply (proj1 (filter_In Spec.holds o os)); rewrite E; now left).
    assert (Hl : 0 <= Js.sumZ (map Spec.weightOf l)).
    { apply sumZ_nonneg, Forall_forall. intros z Hz. apply in_map_iff in Hz.
      destruct Hz as (o' & <- & Ho').
      assert (In o' os) by (apply (proj1 (filter_In Spec.holds o' os)); rewrite E; now right).
      specialize (Hlow o' H). lia. }
    specialize (Hlow o Ho). cbn [map Js.sumZ fold_right].
    fold (Js.sumZ (map Spec.weightOf l)). lia.
  - etransitivity; [apply sum_filter_le|].
    + intros o Ho. specialize (Hlow o Ho). lia.
    + reflexivity.
Qed.

(** What one commodity adds to the results: nothing, or one row named
    after its latest contract. *)
Lemma filterStep_shape ds params wcs c :
  let st := FilterService.evaluate ds params c (Spec.contractsOf wcs c) in
  FilterService.filterStep ds params wcs [] c = [] \/
  exists first rest,
    Spec.contractsOf wcs c = first :: rest /\
    fst st <> [] /\
    FilterService.filterStep ds params wcs [] c
    = [ {| 筛选结果.commodity_id := c;
           筛选结果.commodity_name := 加权合约数据.commodity_name first;
           筛选结果.match_conditions := fst st;
           筛选结果.score := snd st |} ].
Proof.
  cbv zeta. unfold FilterService.filterStep, Spec.contractsOf.
  destruct (filter _ wcs) as [|x l]; [now left|]. cbv zeta.
  set (sorted := Js.sort _ (x :: l)).
  destruct (0 <? List.length (fst (FilterService.evaluate ds params c sorted)))%nat eqn:L;
    [|now left].
  destruct sorted as [|first rest]; [now left|].
  right. exists first, rest. split; [reflexivity|]. split; [|reflexivity].
  apply Nat.ltb_lt in L. intros E. rewrite E in L. simpl in L. lia.
Qed.

(** X28: when the weighted contracts cannot be read [executeFilter] fails;
    otherwise it returns at most one result per commodity, each named
    after the commodity's latest weighted contract, with between one and
    nine matched conditions and a score between 10 and 112 that is the sum
    of the weights of the listed conditions (10 for the price condition, 15
    for a comparison, 12 for an extremum). *)
Theorem executeFilter_rows
    (ds : FilterService.DataService) (params : FilterService.筛选参数) :
  match FilterService.getAllWeightedContracts ds with
  | None => FilterService.executeFilter ds params = None
  | Some weightedContracts =>
      exists results,
        FilterService.executeFilter ds params = Some results /\
        NoDup (map 筛选结果.commodity_id results) /\
        Forall
          (fun r =>
             (exists first rest,
                Spec.contractsOf weightedContracts (筛选结果.commodity_id r) = first :: rest /\
                筛选结果.commodity_name r = 加权合约数据.commodity_name first) /\
             筛选结果.match_conditions r <> [] /\
             (List.length (筛选结果.match_conditions r) <= 9)%nat /\
             筛选结果.score r
             = Js.sumZ (map Spec.conditionWeight (筛选结果.match_conditions r)) /\
             10 <= 筛选结果.score r <= 112)
          results
  end.
Proof.
  destruct ds as [[wcs|] realQ netQ]; cbn [FilterService.getAllWeightedContracts];
    [|reflexivity].
  set (ds := FilterService.mkDataService (Some wcs) realQ netQ).
  eexists. split; [apply executeFilter_results|]. fold ds.
  set (F := FilterService.filterStep ds params wcs []).
  assert (Hkey : forall c r, In r (F c) -> 筛选结果.commodity_id r = c).
  { intros c r Hr. unfold F in Hr.
    destruct (filterStep_shape ds params wcs c) as [E | (first & rest & _ & _ & E)];
      rewrite E in Hr; [destruct Hr|]. destruct Hr as [<- | []]. reflexivity. }
  split.
  - eapply Permutation_NoDup; [apply Permutation_map, sort_perm|].
    apply NoDup_flat_map; [apply setOf_NoDup| |].
    + intros c. unfold F.
      destruct (filterStep_shape ds params wcs c) as [E | (first & rest & _ & _ & E)];
        rewrite E; repeat constructor. simpl. tauto.
    + intros c c' b b' Hb Hb' E. apply Hkey in Hb, Hb'. congruence.
  - apply Forall_forall. intros r Hr. apply sort_In, in_flat_map in Hr.
    destruct Hr as (c & _ & Hr). unfold F in Hr.
    destruct (filterStep_shape ds params wcs c) as [E | (first & rest & Hc & Hne & E)];
      rewrite E in Hr; [destruct Hr|]. destruct Hr as [<- | []].
    cbn [筛选结果.commodity_id 筛选结果.commodity_name 筛选结果.match_conditions
         筛选结果.score].
    rewrite evaluate_spec in *. cbn [fst snd] in *.
    destruct (satisfied_facts ds params c (Spec.contractsOf wcs c)) as (H9 & Hsum & Hlo & Hhi).
    split; [exists first, rest; split; [exact Hc|reflexivity]|].
    split; [exact Hne|]. split; [exact H9|]. split; [exact Hsum|].
    split; [|exact Hhi]. apply Hlo. intros E0. apply Hne. now rewrite E0.
Qed.

Lemma satisfied_disabled ds params c contracts :
  Spec.anyEnabled params = false -> Spec.satisfied ds params c contracts = [].
Proof.
  unfold Spec.anyEnabled. intros H.
  repeat (apply orb_false_iff in H; destruct H as [H ?]).
  unfold Spec.satisfied, Spec.outcomes, FilterService.extremeConditions.
  unfold Spec.extremeOutcomeOf, Spec.extremeOutcome, Spec.priceOutcome,
    Spec.realCompareOutcome, Spec.netCompareOutcome.
  cbn [app map fst snd].
  unfold Spec.enabledPrice, Spec.enabledCompare, Spec.enabledExtreme in *.
  destruct (FilterService.p_收盘价条件 params) as [p1|]; [rewrite H|];
  destruct (FilterService.p_实多空比较 params) as [p2|]; try rewrite H7;
  destruct (FilterService.p_净多空比较 params) as [p3|]; try rewrite H6;
  destruct (FilterService.p_实多极值 params) as [p4|]; try rewrite H5;
  destruct (FilterService.p_实空极值 params) as [p5|]; try rewrite H4;
  destruct (FilterService.p_实差极值 params) as [p6|]; try rewrite H3;
  destruct (FilterService.p_净多极值 params) as [p7|]; try rewrite H2;
  destruct (FilterService.p_净空极值 params) as [p8|]; try rewrite H1;
  destruct (FilterService.p_净差极值 params) as [p9|]; try rewrite H0;
  reflexivity.
Qed.

Lemma flat_map_nil {A B} (F : A -> list B) (l : list A) :
  (forall x, In x l -> F x = []) -> flat_map F l = [].
Proof.
  induction l as [|x l IH]; intros H; [reflexivity|].
  cbn [flat_map]. rewrite (H x (or_introl eq_refl)), IH; [reflexivity|].
  intros y Hy. apply H. now right.
Qed.

(** X29: with no condition enabled, [executeFilter] returns the empty list
    whatever the data, provided the weighted contracts can be read. *)
Theorem executeFilter_nothing_enabled
    (ds : FilterService.DataService) (params : FilterService.筛选参数)
    (weightedContracts : list 加权合约数据.t) :
  Spec.anyEnabled params = false ->
  FilterService.getAllWeightedContracts ds = Some weightedContracts ->
  FilterService.executeFilter ds params = Some [].
Proof.
  intros Hoff Hwcs. destruct ds as [wcs realQ netQ].
  cbn [FilterService.getAllWeightedContracts] in Hwcs. subst wcs.
  rewrite executeFilter_results. rewrite flat_map_nil; [reflexivity|].
  intros c Hc.
  destruct (filterStep_shape (FilterService.mkDataService (Some weightedContracts) realQ netQ)
              params weightedContracts c) as [E | (first & rest & _ & Hne & _)];
    [exact E|].
  exfalso. apply Hne. rewrite evaluate_spec. cbn [fst].
  now rewrite satisfied_disabled.
Qed.

(** X29 on the sample data, with parameters that hold no condition. *)
Lemma executeFilter_nothing_enabled_sample :
  FilterService.executeFilter Sample.dataService Sample.noParams = Some [].
Proof.
  apply (executeFilter_nothing_enabled Sample.dataService Sample.noParams
           Sample.weightedContracts); reflexivity.
Defined.

(** ** The score of a commodity *)

Lemma checkPriceCondition_holds contracts days type :
  FilterService.checkPriceCondition contracts days type
  = Spec.priceHolds contracts (FilterService.daysOf days) type.
Proof.
  destruct contracts as [|first rest].
  - unfold FilterService.checkPriceCondition. now destruct days.
  - unfold FilterService.checkPriceCondition, Spec.priceHolds, Js.slice0.
    destruct (daysOf_succ days) as [k Hk]. rewrite Hk.
    destruct (List.length (first :: rest) <? S k)%nat eqn:E.
    + apply Nat.ltb_lt in E. apply Nat.leb_gt in E. now rewrite E.
    + apply Nat.ltb_ge in E. apply Nat.leb_le in E. rewrite E.
      cbn [firstn map Js.maxQ Js.minQ forallb andb].
      destruct type; apply eq_iff_eq_true.
      * rewrite first_is_maxQ, andb_true_iff, forallb_forall, Forall_map, Forall_forall.
        split.
        -- intros H. split; [apply Qle_bool_iff, Qle_refl|].
           intros c Hc. apply Qle_bool_iff. now apply H.
        -- intros [_ H] c Hc. apply Qle_bool_iff. now apply H.
      * rewrite first_is_minQ, andb_true_iff, forallb_forall, Forall_map, Forall_forall.
        split.
        -- intros H. split; [apply Qle_bool_iff, Qle_refl|].
           intros c Hc. apply Qle_bool_iff. now apply H.
        -- intros [_ H] c Hc. apply Qle_bool_iff. now apply H.
Qed.

Lemma checkRealLongShortCompare_holds ds c lp sp op :
  FilterService.checkRealLongShortCompare ds c lp sp op
  = Spec.realCompareHolds ds c lp sp op.
Proof.
  unfold FilterService.checkRealLongShortCompare, Spec.realCompareHolds.
  destruct (FilterService.getRealLongShortData ds c) as [[|r rs]|]; try reflexivity.
  cbv zeta.
  rewrite (proj1 (getValueByPeriod_real lp r)),
    (proj1 (proj2 (getValueByPeriod_real sp r))).
  now destruct op.
Qed.

Lemma checkNetLongShortCompare_holds ds c lp sp op :
  FilterService.checkNetLongShortCompare ds c lp sp op
  = Spec.netCompareHolds ds c lp sp op.
Proof.
  unfold FilterService.checkNetLongShortCompare, Spec.netCompareHolds.
  destruct (FilterService.getNetLongShortData ds c) as [[|n ns]|]; try reflexivity.
  cbv zeta.
  rewrite (proj1 (getValueByPeriod_net lp n)),
    (proj1 (proj2 (getValueByPeriod_net sp n))).
  now destruct op.
Qed.

(** The test of [checkExtremeCondition] on the values of a history. *)
Lemma extreme_values_hold (values : list Z) days type :
  (if (List.length values <? FilterService.daysOf days)%nat then false
   else
     match Js.slice0 (FilterService.daysOf days) values with
     | [] => false
     | currentValue :: _ =>
         match type with
         | FilterService.max =>
             match Js.maxZ (Js.slice0 (FilterService.daysOf days) values) with
             | Some m => currentValue =? m
             | None => false
             end
         | FilterService.min =>
             match Js.minZ (Js.slice0 (FilterService.daysOf days) values) with
             | Some m => currentValue =? m
             | None => false
             end
         end
     end)
  = match values with
    | current :: earlier =>
        (FilterService.daysOf days <=? List.length (current :: earlier))%nat &&
        forallb
          (fun v =>
             match type with
             | FilterService.max => v <=? current
             | FilterService.min => current <=? v
             end)
          (firstn (FilterService.daysOf days) (current :: earlier))
    | [] => false
    end.
Proof.
  destruct values as [|current earlier]; [now destruct days|].
  unfold Js.slice0. destruct (daysOf_succ days) as [k Hk]. rewrite Hk.
  destruct (List.length (current :: earlier) <? S k)%nat eqn:E.
  - apply Nat.ltb_lt in E. apply Nat.leb_gt in E. now rewrite E.
  - apply Nat.ltb_ge in E. apply Nat.leb_le in E. rewrite E.
    cbn [firstn Js.maxZ Js.minZ forallb andb].
    destruct type; apply eq_iff_eq_true.
    + rewrite first_is_maxZ, andb_true_iff, forallb_forall, Forall_forall. split.
      * intros H. split; [apply Z.leb_le; lia|].
        intros v Hv. apply Z.leb_le. now apply H.
      * intros [_ H] v Hv. apply Z.leb_le. now apply H.
    + rewrite first_is_minZ, andb_true_iff, forallb_forall, Forall_forall. split.
      * intros H. split; [apply Z.leb_le; lia|].
        intros v Hv. apply Z.leb_le. now apply H.
      * intros [_ H] v Hv. apply Z.leb_le. now apply H.
Qed.

Lemma checkExtremeCondition_source ds c key period days type data valueKey :
  FilterService.extremeSource ds c key = Some (data, valueKey) ->
  FilterService.checkExtremeCondition ds c key period days type
  = match map (fun item => FilterService.getValueByPeriod item valueKey period) data with
    | current :: earlier =>
        (FilterService.daysOf days <=? List.length (current :: earlier))%nat &&
        forallb
          (fun v =>
             match type with
             | FilterService.max => v <=? current
             | FilterService.min => current <=? v
             end)
          (firstn (FilterService.daysOf days) (current :: earlier))
    | [] => false
    end.
Proof.
  intros Hsrc. unfold FilterService.checkExtremeCondition. rewrite Hsrc. cbv zeta.
  rewrite <- extreme_values_hold. rewrite length_map.
  unfold Js.slice0. now rewrite firstn_map.
Qed.

Lemma checkExtremeCondition_holds ds c (e : Spec.Extremum) period days type :
  FilterService.checkExtremeCondition ds c (Spec.extremumKey e) period days type
  = Spec.extremumHolds ds c e period (FilterService.daysOf days) type.
Proof.
  pose proof (extremeSource_of ds c e) as Hsrc. unfold Spec.extremumHolds.
  destruct e; cbn [Spec.extremumHistory] in *.
  1-3: destruct (FilterService.getRealLongShortData ds c) as [data|];
    cbn [option_map] in *;
    [|unfold FilterService.checkExtremeCondition; now rewrite Hsrc].
  4-6: destruct (FilterService.getNetLongShortData ds c) as [data|];
    cbn [option_map] in *;
    [|unfold FilterService.checkExtremeCondition; now rewrite Hsrc].
  all: rewrite (checkExtremeCondition_source _ _ _ period days type _ _ Hsrc), map_map.
  1-3: rewrite (map_ext _ _ (fun r => proj1 (getValueByPeriod_real period r)))
       || rewrite (map_ext _ _ (fun r => proj1 (proj2 (getValueByPeriod_real period r))))
       || rewrite (map_ext _ _ (fun r => proj2 (proj2 (getValueByPeriod_real period r))));
    reflexivity.
  all: rewrite (map_ext _ _ (fun r => proj1 (getValueByPeriod_net period r)))
       || rewrite (map_ext _ _ (fun r => proj1 (proj2 (getValueByPeriod_net period r))))
       || rewrite (map_ext _ _ (fun r => proj2 (proj2 (getValueByPeriod_net period r))));
    reflexivity.
Qed.

(** The loop of [evaluate] looks at the nine conditions. *)
Lemma conditionsOf_outcomes ds params c contracts :
  Spec.outcomes ds params c contracts = Spec.conditionsOf ds params c contracts.
Proof.
  unfold Spec.outcomes, Spec.conditionsOf, FilterService.extremeConditions.
  cbn [app map]. unfold Spec.extremeOutcomeOf. cbn [fst snd].
  assert (Hp : Spec.priceOutcome params contracts = Spec.priceCondition params contracts).
  { unfold Spec.priceOutcome, Spec.priceCondition.
    destruct (FilterService.p_收盘价条件 params); [|reflexivity].
    now rewrite checkPriceCondition_holds. }
  assert (Hr : Spec.realCompareOutcome ds params c = Spec.realCompareCondition ds params c).
  { unfold Spec.realCompareOutcome, Spec.realCompareCondition.
    destruct (FilterService.p_实多空比较 params); [|reflexivity].
    now rewrite checkRealLongShortCompare_holds. }
  assert (Hn : Spec.netCompareOutcome ds params c = Spec.netCompareCondition ds params c).
  { unfold Spec.netCompareOutcome, Spec.netCompareCondition.
    destruct (FilterService.p_净多空比较 params); [|reflexivity].
    now rewrite checkNetLongShortCompare_holds. }
  assert (He : forall e ty ps,
             Spec.extremeOutcome ds c (Spec.extremumKey e, ty, ps)
             = Spec.extremumCondition ds c e ps).
  { intros e ty [ps|]; unfold Spec.extremeOutcome, Spec.extremumCondition; [|reflexivity].
    now rewrite checkExtremeCondition_holds. }
  rewrite Hp, Hr, Hn.
  rewrite <- (He Spec.实多极值 real_extreme), <- (He Spec.实空极值 real_extreme),
    <- (He Spec.实差极值 real_diff_extreme), <- (He Spec.净多极值 net_extreme),
    <- (He Spec.净空极值 net_extreme), <- (He Spec.净差极值 net_diff_extreme).
  reflexivity.
Qed.

Lemma satisfiedOf_satisfied ds params c contracts :
  Spec.satisfied ds params c contracts = Spec.satisfiedOf ds params c contracts.
Proof.
  unfold Spec.satisfied, Spec.satisfiedOf. now rewrite conditionsOf_outcomes.
Qed.

(** C9: [executeFilter] returns the results by decreasing score.  Each
    result is for a commodity of the weighted contracts with at least one
    satisfied enabled condition; its matched-conditions list holds the
    satisfied enabled conditions in the order of evaluation and its score is
    the sum of their weights.  The conditions are the price condition
    (weight 10), the real and the net comparison (15 each) and the six
    extremum conditions (12 each), each read from its own parameter, and a
    condition is satisfied by what the data say: the closes of the latest
    days, the latest indicator row, the latest values of the indicator.  A
    commodity is absent from the results exactly when it satisfies none.  A
    commodity that satisfies the price condition and the real comparison
    only has the score 25 and both conditions listed; one that satisfies
    these two and two extremum conditions has the score 49. *)
Theorem executeFilter_scores
    (weightedContracts : list 加权合约数据.t)
    (realQuery : string -> option (list 实多空指标数据.t))
    (netQuery : string -> option (list 净多空指标数据.t))
    (params : FilterService.筛选参数) :
  let ds := FilterService.mkDataService (Some weightedContracts) realQuery netQuery in
  let satisfiedBy c :=
    Spec.satisfiedOf ds params c (Spec.contractsOf weightedContracts c) in
  (exists results,
     FilterService.executeFilter ds params = Some results /\
     StronglySorted (fun a b => 筛选结果.score b <= 筛选结果.score a) results /\
     Forall
       (fun r =>
          In (筛选结果.commodity_id r) (map 加权合约数据.commodity_id weightedContracts) /\
          satisfiedBy (筛选结果.commodity_id r) <> [] /\
          筛选结果.match_conditions r = Spec.matchedOf (satisfiedBy (筛选结果.commodity_id r)) /\
          筛选结果.score r = Spec.scoreOf (satisfiedBy (筛选结果.commodity_id r)))
       results /\
     (forall c, In c (map 加权合约数据.commodity_id weightedContracts) ->
                (satisfiedBy c = [] <-> ~ In c (map 筛选结果.commodity_id results)))) /\
  FilterService.executeFilter Sample.dataService Sample.params
  = Some [ {| 筛选结果.commodity_id := "CU";
              筛选结果.commodity_name := "CU";
              筛选结果.match_conditions := [price_condition; real_compare];
              筛选结果.score := 25 |} ] /\
  FilterService.executeFilter Sample.extremeService Sample.extremeParams
  = Some [ {| 筛选结果.commodity_id := "CU";
              筛选结果.commodity_name := "CU";
              筛选结果.match_conditions :=
                [price_condition; real_compare; real_extreme; real_extreme];
              筛选结果.score := 49 |} ].
Proof.
  cbv zeta.
  set (ds := FilterService.mkDataService (Some weightedContracts) realQuery netQuery).
  split; [|split; vm_compute; reflexivity].
  eexists. split; [apply executeFilter_results|]. fold ds.
  set (rows := flat_map _ _).
  split; [|split].
  - apply (sort_descending 筛选结果.score).
  - apply Forall_forall. intros r Hr. apply sort_In in Hr.
    rewrite <- satisfiedOf_satisfied.
    apply (result_row_inv ds params weightedContracts r Hr).
  - intros c Hc. rewrite <- satisfiedOf_satisfied. split.
    + intros Hsat Hin. apply in_map_iff in Hin. destruct Hin as (r & <- & Hr).
      apply sort_In in Hr.
      destruct (result_row_inv ds params weightedContracts r Hr) as (_ & Hne & _).
      contradiction.
    + intros Hnot.
      destruct (filterStep_row ds params weightedContracts c Hc)
        as [[E _]|[_ (name & E)]]; [exact E|].
      exfalso. apply Hnot. apply in_map_iff.
      eexists. split; [|apply sort_In; unfold rows; apply in_flat_map].
      2: { exists c. split; [now apply setOf_In|]. rewrite E. now left. }
      reflexivity.
Qed.

(** ** Seat table *)

(** X30: [convertToSeatTableData] gives one row per row of the trading
    date, in their order, and the indicators of a row are computed from the
    seat's whole history, whatever the date asked for: the rows of one seat
    in the tables of two dates are equal. *)
Theorem convertToSeatTableData_ignores_date
    (seatData : list 席位分析数据.t) (priceData : list IndicatorCalculator.PriceInfo)
    (contractUnit : Q) (d1 d2 : string) :
  let table := IndicatorCalculator.convertToSeatTableData seatData priceData contractUnit in
  map 席位数据表项.seat_name (table d1)
  = map 席位分析数据.seat_name
      (filter (fun item => String.eqb (席位分析数据.trade_date item) d1) seatData) /\
  forall r1 r2,
    In r1 (table d1) -> In r2 (table d2) ->
    席位数据表项.seat_name r1 = 席位数据表项.seat_name r2 -> r1 = r2.
Proof.
  cbv zeta. unfold IndicatorCalculator.convertToSeatTableData. cbv zeta. split.
  - rewrite map_map. reflexivity.
  - intros r1 r2 H1 H2 E. apply in_map_iff in H1, H2.
    destruct H1 as (s1 & <- & _). destruct H2 as (s2 & <- & _).
    cbn [席位数据表项.seat_name] in E. now rewrite E.
Qed.
